(** * Regional-model input preparation: initial conditions and external forcing

    A shallow embedding of the two notebooks of the repository

    - "Creating the Initial Conditions"            (ECCO state -> <VAR>_IC.bin)
    - "Creating the External Forcing Conditions"   (ECCO exf   -> exf/<VAR>_<year>)

    numpy arrays are nested lists in C order, IEEE-754 numbers are the
    [spec_float] values of the Standard Library (binary64 for numpy's default
    dtype, binary32 for the '>f4' files), Python exceptions are [None], and
    the file system is a finite map from paths to byte sequences. *)

From Stdlib Require Import ZArith List Bool Lia SpecFloat.
From Stdlib Require Import Strings.Byte.
From stdpp Require Import base list option strings gmap pretty.

Local Open Scope Z_scope.

(* ===================================================================== *)
(** * IEEE-754 numbers *)
(* ===================================================================== *)

(** numpy's default dtype ([np.zeros], arithmetic on Python floats). *)
Module F64.
Definition prec : Z := 53.
Definition emax : Z := 1024.

Definition valid (x : spec_float) : bool := valid_binary prec emax x.

Definition add : spec_float -> spec_float -> spec_float := SFadd prec emax.
Definition sub : spec_float -> spec_float -> spec_float := SFsub prec emax.
Definition mul : spec_float -> spec_float -> spec_float := SFmul prec emax.
Definition div : spec_float -> spec_float -> spec_float := SFdiv prec emax.

(** An integer literal used in a float context ([0], [-1], [1]). *)
Definition of_Z (z : Z) : spec_float := binary_normalize prec emax z 0 false.

Definition zero : spec_float := S754_zero false.
Definition one : spec_float := Eval vm_compute in of_Z 1.
Definition minus_one : spec_float := Eval vm_compute in of_Z (-1).

(** The literal [273.15]: the double nearest to 27315/100. *)
Definition lit_273_15 : spec_float :=
  Eval vm_compute in div (of_Z 27315) (of_Z 100).

(** Elementwise comparisons against the literal [0]. *)
Definition ne0 (x : spec_float) : bool := negb (SFeqb x zero).   (* x != 0 *)
Definition eq0 (x : spec_float) : bool := SFeqb x zero.          (* x == 0 *)
Definition lt0 (x : spec_float) : bool := SFltb x zero.          (* x <  0 *)
Definition gt0 (x : spec_float) : bool := SFltb zero x.          (* x >  0 *)
End F64.

(** The dtype of the flat binary files, ['>f4']. *)
Module F32.
Definition prec : Z := 24.
Definition emax : Z := 128.
Definition emin : Z := Eval vm_compute in SpecFloat.emin prec emax.  (* -149 *)

Definition valid (x : spec_float) : bool := valid_binary prec emax x.

Definition mul : spec_float -> spec_float -> spec_float := SFmul prec emax.
Definition of_Z (z : Z) : spec_float := binary_normalize prec emax z 0 false.

(** [astype('>f4')] on a binary64 value: round to nearest, ties to even. *)
Definition of_f64 (x : spec_float) : spec_float :=
  match x with
  | S754_finite s m e => binary_round prec emax s m e
  | _ => x
  end.

(** The exact widening numpy applies when a binary32 value meets a
    binary64 one. *)
Definition to_f64 (x : spec_float) : spec_float :=
  match x with
  | S754_finite s m e => binary_round F64.prec F64.emax s m e
  | _ => x
  end.

(** The 32-bit pattern: sign (1), biased exponent (8), fraction (23).
    [spec_float] has a single NaN; it is written as the quiet NaN
    0x7FC00000. *)
Definition join_bits (s : bool) (m e : Z) : Z :=
  Z.lor (Z.shiftl (Z.lor (if s then Z.shiftl 1 8 else 0) e) 23) m.

Definition to_bits (x : spec_float) : Z :=
  match x with
  | S754_zero s => join_bits s 0 0
  | S754_infinity s => join_bits s 0 255
  | S754_nan => join_bits false (Z.shiftl 1 22) 255
  | S754_finite s m e =>
      if Z.shiftl 1 23 <=? Z.pos m
      then join_bits s (Z.pos m - Z.shiftl 1 23) (e - emin + 1)
      else join_bits s (Z.pos m) 0
  end.

Definition of_bits (w : Z) : spec_float :=
  let s := Z.testbit w 31 in
  let e := Z.land (Z.shiftr w 23) 255 in
  let m := Z.land w (Z.ones 23) in
  if e =? 0 then
    match m with
    | Z.pos p => S754_finite s p emin
    | _ => S754_zero s
    end
  else if e =? 255 then
    match m with
    | Z0 => S754_infinity s
    | _ => S754_nan
    end
  else
    match Z.lor m (Z.shiftl 1 23) with
    | Z.pos p => S754_finite s p (e + emin - 1)
    | _ => S754_nan
    end.

(** Big-endian byte order: most significant byte first. *)
Definition byte_of_Z (z : Z) : byte :=
  default x00 (Byte.of_N (Z.to_N (Z.land z 255))).

Definition Z_of_byte (b : byte) : Z := Z.of_N (Byte.to_N b).

Definition be_bytes (w : Z) : list byte :=
  [byte_of_Z (Z.shiftr w 24); byte_of_Z (Z.shiftr w 16);
   byte_of_Z (Z.shiftr w 8); byte_of_Z w].

Definition be_word (b0 b1 b2 b3 : byte) : Z :=
  Z.lor (Z.shiftl (Z_of_byte b0) 24)
    (Z.lor (Z.shiftl (Z_of_byte b1) 16)
       (Z.lor (Z.shiftl (Z_of_byte b2) 8) (Z_of_byte b3))).

(** Zeros and finite non-zero numbers, as opposed to infinities and NaN. *)
Definition is_finite (x : spec_float) : bool :=
  match x with
  | S754_zero _ | S754_finite _ _ _ => true
  | _ => false
  end.

(** A binary64 value is float32-representable when it is the widening of
    a binary32 value. *)
Definition representable (x : spec_float) : Prop :=
  exists w, valid w = true /\ to_f64 w = x.

Definition encode (x : spec_float) : list byte := be_bytes (to_bits x).
Definition decode (b0 b1 b2 b3 : byte) : spec_float := of_bits (be_word b0 b1 b2 b3).
End F32.

(* ===================================================================== *)
(** * numpy arrays *)
(* ===================================================================== *)

(** 1-D, 2-D and 3-D arrays in C order: the last index varies fastest. *)
Abbreviation vec := (list spec_float) (only parsing).
Abbreviation mat := (list (list spec_float)) (only parsing).
Abbreviation cube := (list (list (list spec_float))) (only parsing).

Module Np.
Section Generic.
Context {A : Type}.

(** [a.ravel('C')] *)
Definition ravel2 (a : list (list A)) : list A := concat a.
Definition ravel3 (a : list (list (list A))) : list A := concat (map ravel2 a).

(** [np.size] of a 2-D array *)
Definition size2 (a : list (list A)) : nat := length (ravel2 a).

(** [np.shape(a)[-2] * np.shape(a)[-1]] of a rectangular 2-D array *)
Definition rows (a : list (list A)) : nat := length a.
Definition cols (a : list (list A)) : nat :=
  match a with [] => 0%nat | r :: _ => length r end.

(** Rectangular shapes, as every ndarray has. *)
Definition rect2 (r c : nat) (a : list (list A)) : Prop :=
  length a = r /\ Forall (fun row => length row = c) a.
Definition rect3 (l r c : nat) (a : list (list (list A))) : Prop :=
  length a = l /\ Forall (rect2 r c) a.

Definition rect2b (r c : nat) (a : list (list A)) : bool :=
  (length a =? r)%nat && forallb (fun row => (length row =? c)%nat) a.
Definition rect3b (l r c : nat) (a : list (list (list A))) : bool :=
  (length a =? l)%nat && forallb (rect2b r c) a.

(** [a[i]] with Python's negative indices; [None] is IndexError. *)
Definition py_nth (a : list A) (i : Z) : option A :=
  if (i <? 0)%Z
  then (if (- i <=? Z.of_nat (length a))%Z
        then a !! Z.to_nat (Z.of_nat (length a) + i) else None)
  else a !! Z.to_nat i.

(** [a[k, i]] and [a[k, i, j]] for non-negative indices. *)
Definition get2 (a : list (list A)) (k i : nat) : option A :=
  row ← a !! k; row !! i.
Definition get3 (a : list (list (list A))) (k i j : nat) : option A :=
  lev ← a !! k; row ← lev !! i; row !! j.

(** [a[b]] for a boolean array [b]: the entries where [b] holds, in
    order; the lengths must agree (IndexError otherwise). *)
Fixpoint select (b : list bool) (a : list A) : list A :=
  match b, a with
  | true :: b', x :: a' => x :: select b' a'
  | false :: b', _ :: a' => select b' a'
  | _, _ => []
  end.

(** [np.flatnonzero(b)]: the index set a boolean array stands for. *)
Fixpoint positions_from (i : nat) (b : list bool) : list nat :=
  match b with
  | [] => []
  | true :: b' => i :: positions_from (S i) b'
  | false :: b' => positions_from (S i) b'
  end.

Definition positions (b : list bool) : list nat := positions_from 0 b.

Definition bool_index (b : list bool) (a : list A) : option (list A) :=
  if (length b =? length a)%nat then Some (select b a) else None.

(** [a[:, b]] *)
Definition bool_index_cols (b : list bool) (a : list (list A)) : option (list (list A)) :=
  mapM (bool_index b) a.

(** The right-hand side of an assignment broadcast to [n] entries. *)
Definition broadcast (n : nat) (v : list A) : option (list A) :=
  if (length v =? n)%nat then Some v
  else match v with
       | [x] => Some (replicate n x)
       | _ => None
       end.

(** [a[start:start+n] = v]: the slice is clipped to the array, and [v]
    must broadcast to it (ValueError otherwise). *)
Definition set_slice (a : list A) (start n : nat) (v : list A) : option (list A) :=
  let w := length (take n (drop start a)) in
  v' ← broadcast w v;
  Some (take start a ++ v' ++ drop (start + w) a).

(** [a[k, start:start+n] = v] *)
Definition set_row_slice (a : list (list A)) (k start n : nat) (v : list A)
  : option (list (list A)) :=
  row ← a !! k;
  row' ← set_slice row start n v;
  Some (<[k := row']> a).

End Generic.

Section Generic2.
Context {A : Type}.

(** [a[t, :, :] = m] for an array whose levels have [r] rows and [c]
    columns. *)
Definition broadcast2 (r c : nat) (m : list (list A)) : option (list (list A)) :=
  rows ← broadcast r m;
  mapM (broadcast c) rows.

Definition set_level (r c : nat) (a : list (list (list A))) (t : nat)
    (m : list (list A)) : option (list (list (list A))) :=
  _ ← a !! t;
  m' ← broadcast2 r c m;
  Some (<[t := m']> a).

(** [a.reshape((r, c))] and [a.reshape((l, r, c))] of a flat array. *)
Fixpoint chunks (k n : nat) (a : list A) : list (list A) :=
  match k with
  | O => []
  | S k' => take n a :: chunks k' n (drop n a)
  end.

Definition reshape2 (r c : nat) (a : list A) : option (list (list A)) :=
  if (length a =? r * c)%nat then Some (chunks r c a) else None.

Definition reshape3 (l r c : nat) (a : list A) : option (list (list (list A))) :=
  if (length a =? l * (r * c))%nat
  then Some (map (chunks r c) (chunks l (r * c) a)) else None.

(** [np.column_stack([x, y])] of two 1-D arrays (ValueError when the
    lengths differ). *)
Definition column_stack (x y : list A) : option (list (A * A)) :=
  if (length x =? length y)%nat then Some (zip x y) else None.

(** [X, Y = np.meshgrid(x, y)] *)
Definition meshgrid (x y : list A) : list (list A) * list (list A) :=
  (map (fun _ => x) y, map (fun yv => map (fun _ => yv) x) y).
End Generic2.

Definition zeros (n : nat) : vec := replicate n F64.zero.
Definition zeros2 (r c : nat) : mat := replicate r (zeros c).
Definition zeros3 (l r c : nat) : cube := replicate l (zeros2 r c).
Definition ones (n : nat) : vec := replicate n F64.one.

(** A loop body run over a list, stopping at the first exception. *)
Fixpoint for_each {S X : Type} (xs : list X) (body : X -> S -> option S) (s : S)
  : option S :=
  match xs with
  | [] => Some s
  | x :: xs' => s' ← body x s; for_each xs' body s'
  end.

Definition range (n : nat) : list nat := seq 0 n.
End Np.

(** [m = np.copy(h); m[m > 0] = 1] *)
Definition to_mask1 (x : spec_float) : spec_float := if F64.gt0 x then F64.one else x.
Definition to_mask2 (h : mat) : mat := map (map to_mask1) h.
Definition to_mask3 (h : cube) : cube := map to_mask2 h.

(* ===================================================================== *)
(** * Files *)
(* ===================================================================== *)

(** The file system: path |-> content. *)
Abbreviation files := (gmap string (list byte)) (only parsing).

(** [os.path.join(dir, name)]: an absolute [name] discards [dir]; otherwise
    the two are joined by one separator. *)
Definition is_abs (name : string) : bool := String.prefix "/" name.

Definition path_join (dir name : string) : string :=
  if is_abs name then name
  else if decide (dir = "") then name
  else if String.eqb (String.substring (String.length dir - 1) 1 dir) "/"
       then dir +:+ name
       else dir +:+ "/" +:+ name.

(** [a.astype('>f4').tofile(path)] of an already flat array. *)
Definition to_f4_bytes (a : vec) : list byte :=
  concat (map (fun x => F32.encode (F32.of_f64 x)) a).

(** The arrays whose finite values are float32-representable. *)
Definition f32_exact (a : vec) : Prop :=
  forall x, x ∈ a -> F32.is_finite x = true -> F32.representable x.

Global Instance spec_float_eq_dec : EqDecision spec_float.
Proof. solve_decision. Defined.

(** The executable test of float32-representability: narrowing and widening
    again gives the value back. *)
Definition representable_b (x : spec_float) : bool :=
  F32.valid (F32.of_f64 x) && bool_decide (F32.to_f64 (F32.of_f64 x) = x).

Definition tofile (path : string) (a : vec) (fs : files) : files :=
  <[path := to_f4_bytes a]> fs.

(** [np.fromfile(path, '>f4')]: whole items only; a trailing partial item
    is not read. The result has dtype binary32. *)
Fixpoint from_f4_bytes_fuel (n : nat) (bs : list byte) : vec :=
  match n, bs with
  | S n', b0 :: b1 :: b2 :: b3 :: rest => F32.decode b0 b1 b2 b3 :: from_f4_bytes_fuel n' rest
  | _, _ => []
  end.

Definition from_f4_bytes (bs : list byte) : vec := from_f4_bytes_fuel (length bs) bs.

Definition fromfile (path : string) (fs : files) : option vec :=
  bs ← fs !! path; Some (from_f4_bytes bs).

(** Step 3 of both notebooks:
    [bathy = np.fromfile(os.path.join(input_dir,'CA_bathymetry.bin'),'>f4')
               .reshape(np.shape(XC))] *)
Definition read_bathymetry (input_dir : string) (XC : mat) (fs : files) : option mat :=
  a ← fromfile (path_join input_dir "CA_bathymetry.bin") fs;
  Np.reshape2 (Np.rows XC) (Np.cols XC) a.

(* ===================================================================== *)
(** * The external collaborators (package [eccoseas]) *)
(* ===================================================================== *)

(** A (longitude, latitude) pair. *)
Abbreviation point := (spec_float * spec_float)%type.

(** The two interpolation entry points the notebooks call. *)
Abbreviation interp3D :=
  (list point -> mat -> mat -> mat -> mat -> cube -> option cube) (only parsing).
Abbreviation interp2D :=
  (list point -> vec -> vec -> mat -> mat -> mat -> option mat) (only parsing).

Module Eccoseas.
Section Interpolator.
(** Modelled from the spec: the interpolation kernel of the package
    [eccoseas], which is not part of the repository. The specification
    leaves it open: a partial function of the valid source subset and the
    target coordinate. *)
Variable kernel : list (point * spec_float) -> point -> option spec_float.

(** Modelled from the spec: the planar distance (squared) in longitude and
    latitude that the nearest-point fallback of [eccoseas] compares. *)
Definition dist2 (p q : point) : spec_float :=
  let dx := F64.sub p.1 q.1 in
  let dy := F64.sub p.2 q.2 in
  F64.add (F64.mul dx dx) (F64.mul dy dy).

(** Modelled from the spec: the nearest-valid-point fallback of [eccoseas]
    (step 3): the value of the source point nearest to [q], the first one
    among equally near points. *)
Fixpoint nearest_value (best : point * spec_float)
    (rest : list (point * spec_float)) (q : point) : spec_float :=
  match rest with
  | [] => best.2
  | s :: rest' =>
      nearest_value (if SFltb (dist2 s.1 q) (dist2 best.1 q) then s else best) rest' q
  end.

(** Modelled from the spec: step 1 of the interpolator of [eccoseas]: the
    source points whose mask is true (non-zero) at this level. *)
Definition valid_subset (coords : list point) (values mask : vec)
  : list (point * spec_float) :=
  Np.select (map F64.ne0 mask) (zip coords values).

(** Modelled from the spec: steps 1 to 4 of the interpolator of [eccoseas]
    for one target cell with mask entry [m]: 0 where the mask is false or no
    source point is valid, else the kernel's value, else the nearest valid
    point's. *)
Definition interpolate_cell (src : list (point * spec_float))
    (q : point) (m : spec_float) : spec_float :=
  if F64.ne0 m then
    match src with
    | [] => F64.zero
    | s :: rest =>
        match kernel src q with
        | Some v => v
        | None => nearest_value s rest q
        end
    end
  else F64.zero.

(** Modelled from the spec: the masked horizontal interpolator of the
    package [eccoseas] (module [downscale.horizontal]), which is not part
    of the repository. One level: shape mismatches are fatal and are
    detected before any cell is computed; every target cell is then
    treated on its own. *)
Definition interpolate_level (coords : list point) (values mask : vec)
    (XC YC target_mask : mat) : option mat :=
  let r := Np.rows target_mask in
  let c := Np.cols target_mask in
  if (length values =? length coords)%nat
     && (length mask =? length coords)%nat
     && Np.rect2b r c target_mask && Np.rect2b r c XC && Np.rect2b r c YC
  then
    let src := valid_subset coords values mask in
    Some (zip_with (fun qs ms => zip_with (interpolate_cell src) qs ms)
            (zip_with zip XC YC) target_mask)
  else None.

(** Modelled from the spec: the loop over the levels of
    [horizontal.downscale_3D_points] of [eccoseas], which is not part of the
    repository. The levels are those of the target mask; level [k] uses row
    [k] of the source values and of the source mask. *)
Fixpoint downscale_levels (coords : list point) (values mask : mat)
    (XC YC : mat) (k : nat) (target_mask : cube) : option cube :=
  match target_mask with
  | [] => Some []
  | tm :: rest =>
      v ← values !! k;
      m ← mask !! k;
      g ← interpolate_level coords v m XC YC tm;
      gs ← downscale_levels coords values mask XC YC (S k) rest;
      Some (g :: gs)
  end.

(** Modelled from the spec: [horizontal.downscale_3D_points] of [eccoseas],
    which is not part of the repository, from the first level on. *)
Definition downscale_3D_points : interp3D :=
  fun coords values mask XC YC target_mask =>
    downscale_levels coords values mask XC YC 0 target_mask.

(** Modelled from the spec: [horizontal.downscale_2D_points_with_zeros],
    the zero-aware companion for single-level fields. *)
Definition downscale_2D_points_with_zeros : interp2D :=
  fun coords values mask XC YC target_mask =>
    interpolate_level coords values mask XC YC target_mask.
End Interpolator.

Section MaskBuilder.
(** Modelled from the spec: the open fraction [eccoseas] gives the cell of
    depth [d] at level [k] of the vertical discretization [delR]; its value
    is left open. *)
Variable open_fraction : spec_float -> vec -> nat -> spec_float.

(** Modelled from the spec: [hFac.create_hFacC_grid], which is not part of
    the repository: a bathymetry array and a layer-thickness list give a
    per-level array over the target grid, one level per layer. *)
Definition create_hFacC_grid (depth : mat) (delR : vec) : cube :=
  map (fun k => map (map (fun d => open_fraction d delR k)) depth)
      (Np.range (length delR)).
End MaskBuilder.
End Eccoseas.

(* ===================================================================== *)
(** * Notebook "Creating the Initial Conditions" *)
(* ===================================================================== *)

(** ['VEL' in variable_name] *)
Definition contains (sub s : string) : bool :=
  match String.index 0 sub s with Some _ => true | None => false end.

Module InitialConditions.

(** ** Step 2: the ECCO grid, one entry per tile number *)
Record ecco_grid := {
    ecco_XC_tiles : gmap Z mat;
    ecco_YC_tiles : gmap Z mat;
    ecco_hFacC_tiles : gmap Z cube;
    ecco_hFacW_tiles : gmap Z cube;
    ecco_hFacS_tiles : gmap Z cube;
    ecco_RF_tiles : gmap Z vec
  }.

(** ** Step 3: the vertical discretization of the model *)
Definition delR_hundredths : list Z :=
  [ 1000; 1000; 1000; 1000; 1000; 1000; 1000; 1001;
    1003; 1011; 1032; 1080; 1176; 1342; 1604; 1982; 2485;
    3110; 3842; 4650; 5500; 6350; 7158; 7890; 8515; 9018;
    9396; 9658; 9825; 9925; 10001; 10133; 10456; 11133; 12283;
    13909; 15894; 18083; 20355; 22650; 24950; 27250; 29550; 31850;
    34150; 36450; 38750; 41050; 43350; 45650 ].

(** The literals [10.00, ..., 456.50]: each is the double nearest to its
    decimal value. *)
Definition delR : vec :=
  map (fun h => F64.div (F64.of_Z h) (F64.of_Z 100)) delR_hundredths.

(** ** Step 4: the source points of the tiles in use *)
Definition tile_list : list Z := [8; 11].

Record ecco_points := {
    ecco_XC_points : vec;
    ecco_YC_points : vec;
    ecco_hFacC_points : mat;
    ecco_hFacW_points : mat;
    ecco_hFacS_points : mat;
    ecco_mask_points : mat
  }.

Definition total_points (g : ecco_grid) (tiles : list Z) : option nat :=
  Np.for_each tiles
    (fun tile_number total => xc ← ecco_XC_tiles g !! tile_number;
                              Some (total + Np.size2 xc)%nat) 0%nat.

(** The body of [for k in range(np.size(ecco_RF_tiles[tile_number]))]. *)
Definition fill_level (g : ecco_grid) (tile_number : Z) (points_counted tile_N : nat)
    (k : nat) (p : ecco_points) : option ecco_points :=
  hc ← ecco_hFacC_tiles g !! tile_number;
  level_hFacC ← hc !! k;
  hw ← ecco_hFacW_tiles g !! tile_number;
  level_hFacW ← hw !! k;
  hs ← ecco_hFacS_tiles g !! tile_number;
  level_hFacS ← hs !! k;
  let level_mask := to_mask2 level_hFacC in
  c ← Np.set_row_slice (ecco_hFacC_points p) k points_counted tile_N (Np.ravel2 level_hFacC);
  w ← Np.set_row_slice (ecco_hFacW_points p) k points_counted tile_N (Np.ravel2 level_hFacW);
  s ← Np.set_row_slice (ecco_hFacS_points p) k points_counted tile_N (Np.ravel2 level_hFacS);
  m ← Np.set_row_slice (ecco_mask_points p) k points_counted tile_N (Np.ravel2 level_mask);
  Some {| ecco_XC_points := ecco_XC_points p; ecco_YC_points := ecco_YC_points p;
          ecco_hFacC_points := c; ecco_hFacW_points := w;
          ecco_hFacS_points := s; ecco_mask_points := m |}.

(** The body of [for tile_number in tile_list]. *)
Definition fill_tile (g : ecco_grid) (tile_number : Z) (st : nat * ecco_points)
  : option (nat * ecco_points) :=
  let '(points_counted, p) := st in
  xc ← ecco_XC_tiles g !! tile_number;
  let tile_N := Np.size2 xc in
  xs ← Np.set_slice (ecco_XC_points p) points_counted tile_N (Np.ravel2 xc);
  yc ← ecco_YC_tiles g !! tile_number;
  ys ← Np.set_slice (ecco_YC_points p) points_counted tile_N (Np.ravel2 yc);
  rf ← ecco_RF_tiles g !! tile_number;
  p' ← Np.for_each (Np.range (length rf)) (fill_level g tile_number points_counted tile_N)
        {| ecco_XC_points := xs; ecco_YC_points := ys;
           ecco_hFacC_points := ecco_hFacC_points p;
           ecco_hFacW_points := ecco_hFacW_points p;
           ecco_hFacS_points := ecco_hFacS_points p;
           ecco_mask_points := ecco_mask_points p |};
  Some ((points_counted + tile_N)%nat, p').

Definition gather_points (g : ecco_grid) (tiles : list Z) : option ecco_points :=
  total ← total_points g tiles;
  rf1 ← ecco_RF_tiles g !! 1;
  let z := Np.zeros2 (length rf1) total in
  st ← Np.for_each tiles (fill_tile g)
        (0%nat, {| ecco_XC_points := Np.zeros total; ecco_YC_points := Np.zeros total;
                   ecco_hFacC_points := z; ecco_hFacW_points := z;
                   ecco_hFacS_points := z; ecco_mask_points := z |});
  Some st.2.

(** [local_indices = ecco_XC_points < 0] *)
Definition local_indices (p : ecco_points) : list bool :=
  map F64.lt0 (ecco_XC_points p).

(** "remove the points with positive longitude" *)
Definition remove_positive_longitudes (p : ecco_points) : option ecco_points :=
  let li := local_indices p in
  m ← Np.bool_index_cols li (ecco_mask_points p);
  c ← Np.bool_index_cols li (ecco_hFacC_points p);
  w ← Np.bool_index_cols li (ecco_hFacW_points p);
  s ← Np.bool_index_cols li (ecco_hFacS_points p);
  ys ← Np.bool_index li (ecco_YC_points p);
  xs ← Np.bool_index li (ecco_XC_points p);
  Some {| ecco_XC_points := xs; ecco_YC_points := ys;
          ecco_hFacC_points := c; ecco_hFacW_points := w;
          ecco_hFacS_points := s; ecco_mask_points := m |}.

(** ** The fields read from the netCDF files

    [ETAN] is indexed [time][tile][row][col], the others
    [time][level][tile][row][col]. A zero-length leading axis is the empty
    list, whose trailing extents read as 0.

    netCDF4 hands a variable over as a masked array: the stored data and,
    entry by entry, whether the entry is missing. Assigning such an array
    into an ndarray copies the stored data, so the mask is consulted by the
    one arithmetic operation the notebook applies to a field only,
    [-1 * u_grid[...]]: [UVELMASS_missing] is the mask of UVELMASS, indexed
    as its data. An entry the mask does not list is not missing, so the empty
    list is the mask of a file without missing values. *)
Abbreviation nc4 := (list (list (list (list spec_float)))) (only parsing).
Abbreviation nc5 := (list (list (list (list (list spec_float))))) (only parsing).

Record ecco_fields := {
    ETAN_nc : nc4;
    THETA_nc : nc5;
    SALT_nc : nc5;
    UVELMASS_nc : nc5;
    UVELMASS_missing : list (list (list (list (list bool))));
    VVELMASS_nc : nc5
  }.

Definition file_prefix_dict : list (string * string) :=
  [("ETAN", "ETAN_2008.nc"); ("THETA", "THETA_2008.nc"); ("SALT", "SALT_2008.nc");
   ("UVEL", "UVELMASS_2008.nc"); ("VVEL", "VVELMASS_2008.nc")].

Definition variable_names : list string := map fst file_prefix_dict.

(** The variable [grid] outlives the loop iteration that read it. *)
Inductive nc_grid := Grid4 (a : nc4) | Grid5 (a : nc5).

(** [np.shape(grid)[-1] * np.shape(grid)[-2]] *)
Definition grid_N (grid : nc_grid) : nat :=
  match grid with
  | Grid4 ((t :: _) :: _) => (Np.cols t * Np.rows t)%nat
  | Grid5 (((t :: _) :: _) :: _) => (Np.cols t * Np.rows t)%nat
  | _ => 0%nat
  end.

(** The reading branch at the head of the loop body; [None] on the left is
    a KeyError, [None] inside is [grid] not yet assigned a field: the name
    is still bound to the module imported from [eccoseas.ecco], which has no
    shape, so that [np.shape(grid)[-1]] is an IndexError. *)
Definition read_grid (f : ecco_fields) (variable_name : string)
    (grid : option nc_grid) : option (option nc_grid) :=
  if String.eqb variable_name "ETAN" then Some (Some (Grid4 (ETAN_nc f)))
  else if contains "VEL" variable_name then Some grid
  else if String.eqb variable_name "THETA" then Some (Some (Grid5 (THETA_nc f)))
  else if String.eqb variable_name "SALT" then Some (Some (Grid5 (SALT_nc f)))
  else None.

(** [a[0, tile_number-1, :, :].ravel()] and
    [a[0, k, tile_number-1, :, :].ravel()] *)
Definition tile4 (a : nc4) (tile_number : Z) : option vec :=
  t0 ← a !! 0%nat;
  tile ← Np.py_nth t0 (tile_number - 1);
  Some (Np.ravel2 tile).

Definition tile5 {A : Type} (a : list (list (list (list (list A)))))
    (k : nat) (tile_number : Z) : option (list A) :=
  t0 ← a !! 0%nat;
  level ← t0 !! k;
  tile ← Np.py_nth level (tile_number - 1);
  Some (Np.ravel2 tile).

(** [for k in range(nlev): init_grid[k, pc:pc+N] = src(k)] *)
Definition fill_from (src : nat -> option vec) (nlev points_counted N : nat)
    (init_grid : mat) : option mat :=
  Np.for_each (Np.range nlev)
    (fun k g => v ← src k; Np.set_row_slice g k points_counted N v) init_grid.

(** Whether entry [n] of [u_grid[0, k, tile_number-1, :, :].ravel()] is
    missing. *)
Definition u_missing (f : ecco_fields) (k : nat) (tile_number : Z) (n : nat) : bool :=
  default false (mask ← tile5 (UVELMASS_missing f) k tile_number; mask !! n).

(** [-1 * u] for a slice [u] of a masked array, as the assignment into
    [init_grid] stores it: numpy.ma multiplies the stored data by -1 and
    puts the first operand, -1, back wherever the entry is missing. *)
Definition negate (v : vec) (missing : nat -> bool) : vec :=
  imap (fun n x => if missing n then F64.minus_one else F64.mul F64.minus_one x) v.

(** [-1*u_grid[0, k, tile_number-1, :, :].ravel()] *)
Definition minus_u (f : ecco_fields) (k : nat) (tile_number : Z) : option vec :=
  u ← tile5 (UVELMASS_nc f) k tile_number;
  Some (negate u (u_missing f k tile_number)).

(** The body of [for tile_number in tile_list], with the tile rotations. *)
Definition fill_init_tile (f : ecco_fields) (grid : nc_grid) (variable_name : string)
    (nlev N : nat) (tile_number : Z) (st : nat * mat) : option (nat * mat) :=
  let '(points_counted, init_grid) := st in
  let u_grid := UVELMASS_nc f in
  let v_grid := VVELMASS_nc f in
  g ←
    (if String.eqb variable_name "ETAN" then
       match grid with
       | Grid4 a => v ← tile4 a tile_number;
                    Np.set_row_slice init_grid 0 points_counted N v
       | Grid5 _ => None
       end
     else if contains "VEL" variable_name then
       g1 ← (if String.eqb variable_name "UVEL" then
               if tile_number <? 7
               then fill_from (fun k => tile5 u_grid k tile_number)
                      nlev points_counted N init_grid
               else fill_from (fun k => tile5 v_grid k tile_number)
                      nlev points_counted N init_grid
             else Some init_grid);
       (if String.eqb variable_name "VVEL" then
          if tile_number <? 7
          then fill_from (fun k => tile5 v_grid k tile_number)
                 nlev points_counted N g1
          else fill_from (fun k => minus_u f k tile_number)
                 nlev points_counted N g1
        else Some g1)
     else
       match grid with
       | Grid5 a => fill_from (fun k => tile5 a k tile_number)
                      nlev points_counted N init_grid
       | Grid4 _ => None
       end);
  Some ((points_counted + N)%nat, g).

(** ** The corrections: velocity normalization *)

(** [a[b] = q] for a boolean array [b]. *)
Fixpoint put {A : Type} (b : list bool) (a q : list A) : list A :=
  match b, a with
  | true :: b', y :: a' =>
      match q with
      | x :: q' => x :: put b' a' q'
      | [] => y :: put b' a' []
      end
  | false :: b', y :: a' => y :: put b' a' q
  | _, _ => a
  end.

Definition bool_assign {A : Type} (b : list bool) (a q : list A) : option (list A) :=
  if (length b =? length a)%nat
  then q' ← Np.broadcast (length (Np.select b a)) q; Some (put b a q')
  else None.

(** The body of [for k in range(np.size(ecco_RF_tiles[1]))]:
    [non_zero_indices = hFac[k,:] != 0]
    [init_grid[k,nz] = init_grid[k,nz] / hFac[k,nz]] *)
Definition normalize_level (hFac : mat) (k : nat) (init_grid : mat) : option mat :=
  frow ← hFac !! k;
  let non_zero_indices := map F64.ne0 frow in
  row ← init_grid !! k;
  num ← Np.bool_index non_zero_indices row;
  den ← Np.bool_index non_zero_indices frow;
  row' ← bool_assign non_zero_indices row (zip_with F64.div num den);
  Some (<[k := row']> init_grid).

Definition apply_corrections (p : ecco_points) (variable_name : string) (nlev : nat)
    (init_grid : mat) : option mat :=
  g1 ← (if String.eqb variable_name "UVEL"
        then Np.for_each (Np.range nlev) (normalize_level (ecco_hFacW_points p)) init_grid
        else Some init_grid);
  if String.eqb variable_name "VVEL"
  then Np.for_each (Np.range nlev) (normalize_level (ecco_hFacS_points p)) g1
  else Some g1.

(** ** The loop over the variables

    [li] is [local_indices], computed in step 4 before the points were
    filtered; [p] holds the filtered points. The level count
    [np.size(ecco_RF_tiles[1])] is looked up once, ahead of the branches that
    use it; step 4 has evaluated it before, so the lookup is no new failure
    of [run], also for ETAN, whose branches do not use it. *)
Definition read_init_grid (g : ecco_grid) (f : ecco_fields) (tiles : list Z)
    (li : list bool) (p : ecco_points) (variable_name : string)
    (st : option nc_grid * list mat) : option (option nc_grid * list mat) :=
  let '(grid, init_grids) := st in
  grid' ← read_grid f variable_name grid;
  cur ← grid';
  let N := grid_N cur in
  rf1 ← ecco_RF_tiles g !! 1;
  let nlev := length rf1 in
  let init_grid :=
    if String.eqb variable_name "ETAN"
    then Np.zeros2 1 (N * length tiles)
    else Np.zeros2 nlev (N * length tiles) in
  filled ← Np.for_each tiles (fill_init_tile f cur variable_name nlev N) (0%nat, init_grid);
  init_grid ← Np.bool_index_cols li filled.2;
  init_grid ← apply_corrections p variable_name nlev init_grid;
  Some (grid', init_grids ++ [init_grid]).

Definition read_init_grids (g : ecco_grid) (f : ecco_fields) (tiles : list Z)
    (li : list bool) (p : ecco_points) (names : list string) : option (list mat) :=
  st ← Np.for_each names (read_init_grid g f tiles li p) (None, []);
  Some st.2.

(** ** Step 5: interpolation and output *)
Section Interpolation.
Variable downscale_3D_points : interp3D.

(** [mask[:1,:,:]] for ETAN, [mask] otherwise *)
Definition model_mask (variable_name : string) (mask : cube) : cube :=
  if String.eqb variable_name "ETAN" then take 1 mask else mask.

Definition interpolate (p : ecco_points) (XC YC : mat) (mask : cube)
    (variable_name : string) (init_grid : mat) : option cube :=
  pts ← Np.column_stack (ecco_XC_points p) (ecco_YC_points p);
  downscale_3D_points pts init_grid (ecco_mask_points p) XC YC
    (model_mask variable_name mask).

Definition output_file (input_dir variable_name : string) : string :=
  path_join input_dir (variable_name +:+ "_IC.bin").

(** The body of [for variable_name, init_grid in zip(...)]. *)
Definition interpolate_and_write (p : ecco_points) (XC YC : mat) (mask : cube)
    (input_dir : string) (vg : string * mat) (fs : files) : option files :=
  interpolated_grid ← interpolate p XC YC mask vg.1 vg.2;
  Some (tofile (output_file input_dir vg.1) (Np.ravel3 interpolated_grid) fs).

Definition write_initial_conditions (p : ecco_points) (XC YC : mat) (mask : cube)
    (input_dir : string) (names : list string) (init_grids : list mat)
    (fs : files) : option files :=
  Np.for_each (zip names init_grids) (interpolate_and_write p XC YC mask input_dir) fs.
End Interpolation.

(** Steps 4 and 5 in sequence. *)
Definition run (downscale_3D_points : interp3D) (g : ecco_grid) (f : ecco_fields)
    (XC YC : mat) (hFacC : cube) (input_dir : string) (fs : files) : option files :=
  raw ← gather_points g tile_list;
  p ← remove_positive_longitudes raw;
  init_grids ← read_init_grids g f tile_list (local_indices raw) p variable_names;
  write_initial_conditions downscale_3D_points p XC YC (to_mask3 hFacC) input_dir
    variable_names init_grids fs.

(** ** Step 6: reading a field back for plotting *)
Definition read_back_ETAN (input_dir : string) (XC : mat) (fs : files) : option mat :=
  a ← fromfile (output_file input_dir "ETAN") fs;
  Np.reshape2 (Np.rows XC) (Np.cols XC) a.

Definition read_back (input_dir variable_name : string) (XC : mat) (fs : files)
  : option cube :=
  a ← fromfile (output_file input_dir variable_name) fs;
  Np.reshape3 (length delR) (Np.rows XC) (Np.cols XC) a.

(** The body of the plotting loop, up to the array handed to [pcolormesh]:
    the whole field for ETAN, [CA_init_grid[10, :, :]] otherwise. *)
Definition plot_grid (input_dir variable_name : string) (XC : mat) (fs : files)
  : option mat :=
  if String.eqb variable_name "ETAN" then read_back_ETAN input_dir XC fs
  else CA_init_grid ← read_back input_dir variable_name XC fs;
       CA_init_grid !! 10%nat.
End InitialConditions.

(* ===================================================================== *)
(** * Notebook "Creating the External Forcing Conditions" *)
(* ===================================================================== *)

Module ExternalForcing.

Definition file_prefix_dict : list (string * string) :=
  [("ATEMP", "EIG_tmp2m_degC_plus_ECCO_v4r1_ctrl");
   ("AQH", "EIG_spfh2m_plus_ECCO_v4r1_ctrl");
   ("SWDOWN", "EIG_dsw_plus_ECCO_v4r1_ctrl");
   ("LWDOWN", "EIG_dlw_plus_ECCO_v4r1_ctrl");
   ("UWIND", "EIG_u10m");
   ("VWIND", "EIG_v10m");
   ("PRECIP", "EIG_rain_plus_ECCO_v4r1_ctrl")].

Definition variable_names : list string := map fst file_prefix_dict.

Definition year : nat := 2008.

(** ** Step 2: the forcing fields, indexed [time][lat][lon] *)
Record exf_file := { exf_lon : vec; exf_lat : vec; exf_grid : cube }.

Definition prefix_of (field : string) : option string :=
  snd <$> List.find (fun kv => String.eqb kv.1 field) file_prefix_dict.

Section Reading.
(** [exf.read_ecco_exf_file(data_folder, prefix, year)] *)
Variable read_ecco_exf_file : string -> nat -> option exf_file.

(** The names [exf_lon] and [exf_lat] keep the arrays of the last file
    read. *)
Definition read_exf_grid (field : string) (st : option (vec * vec) * list cube)
  : option (option (vec * vec) * list cube) :=
  prefix ← prefix_of field;
  file ← read_ecco_exf_file prefix year;
  Some (Some (exf_lon file, exf_lat file), st.2 ++ [exf_grid file]).

Definition read_exf_grids (names : list string)
  : option (option (vec * vec) * list cube) :=
  Np.for_each names read_exf_grid (None, []).
End Reading.

(** [Exf_Lon, Exf_Lat = np.meshgrid(exf_lon, exf_lat)]
    [ecco_points = np.column_stack([Exf_Lon.ravel(), Exf_Lat.ravel()])] *)
Definition ecco_points (lon lat : vec) : option (list point) :=
  let '(Exf_Lon, Exf_Lat) := Np.meshgrid lon lat in
  Np.column_stack (Np.ravel2 Exf_Lon) (Np.ravel2 Exf_Lat).

(** [ecco_mask = np.ones((np.size(Exf_Lon),))] *)
Definition ecco_mask (lon lat : vec) : vec :=
  Np.ones (Np.size2 (Np.meshgrid lon lat).1).

(** ** Step 4: interpolation, conversion and output *)
Definition map3 (f : spec_float -> spec_float) (g : cube) : cube :=
  map (map (map f)) g.

(** "convert ECCO values to MITgcm defaults" *)
Definition convert (variable_name : string) (interpolated_grid : cube) : cube :=
  let g1 :=
    if String.eqb variable_name "ATEMP"
    then map3 (fun x => F64.add x F64.lit_273_15) interpolated_grid
    else interpolated_grid in
  if existsb (String.eqb variable_name) ["SWDOWN"; "LWDOWN"]
  then map3 (fun x => F64.mul x F64.minus_one) g1
  else g1.

Definition exf_dir (input_dir : string) : string := path_join input_dir "exf".

Definition output_file (input_dir variable_name : string) : string :=
  path_join (exf_dir input_dir) (variable_name +:+ "_" +:+ pretty year).

Section Interpolation.
Variable downscale_2D_points_with_zeros : interp2D.

(** The body of [for timestep in range(np.shape(exf_grid)[0])]. *)
Definition interpolate_timestep (pts : list point) (src_mask : vec)
    (XC YC surface_mask : mat) (exf_grid : cube) (timestep : nat)
    (interpolated_grid : cube) : option cube :=
  slice ← exf_grid !! timestep;
  let ecco_values := Np.ravel2 slice in
  interp_timestep ←
    downscale_2D_points_with_zeros pts ecco_values src_mask XC YC surface_mask;
  Np.set_level (Np.rows XC) (Np.cols XC) interpolated_grid timestep interp_timestep.

Definition interpolate_timesteps (pts : list point) (src_mask : vec)
    (XC YC surface_mask : mat) (exf_grid : cube) : option cube :=
  Np.for_each (Np.range (length exf_grid))
    (interpolate_timestep pts src_mask XC YC surface_mask exf_grid)
    (Np.zeros3 (length exf_grid) (Np.rows XC) (Np.cols XC)).

(** The array handed to [ravel('C').astype('>f4').tofile]. *)
Definition forcing_field (pts : list point) (src_mask : vec)
    (XC YC surface_mask : mat) (variable_name : string) (exf_grid : cube)
  : option cube :=
  convert variable_name <$>
    interpolate_timesteps pts src_mask XC YC surface_mask exf_grid.

(** The body of [for variable_name, exf_grid in zip(...)]. *)
Definition interpolate_and_write (pts : list point) (src_mask : vec)
    (XC YC surface_mask : mat) (input_dir : string) (vg : string * cube)
    (fs : files) : option files :=
  g ← forcing_field pts src_mask XC YC surface_mask vg.1 vg.2;
  Some (tofile (output_file input_dir vg.1) (Np.ravel3 g) fs).

Definition write_forcing (pts : list point) (src_mask : vec)
    (XC YC surface_mask : mat) (input_dir : string)
    (names : list string) (exf_grids : list cube) (fs : files) : option files :=
  Np.for_each (zip names exf_grids)
    (interpolate_and_write pts src_mask XC YC surface_mask input_dir) fs.
End Interpolation.

(** Steps 2 and 4 in sequence. *)
Definition run (read_ecco_exf_file : string -> nat -> option exf_file)
    (downscale_2D_points_with_zeros : interp2D) (XC YC surface_mask : mat)
    (input_dir : string) (fs : files) : option files :=
  st ← read_exf_grids read_ecco_exf_file variable_names;
  lonlat ← st.1;
  pts ← ecco_points lonlat.1 lonlat.2;
  write_forcing downscale_2D_points_with_zeros pts (ecco_mask lonlat.1 lonlat.2)
    XC YC surface_mask input_dir variable_names st.2 fs.

(** ** The zero-wind files

    [g = np.fromfile(<name>_<year>, '>f4'); g *= 0]
    [g.ravel('C').astype('>f4').tofile(<name>_zero_<year>)]
    The array read has dtype '>f4', so the product is a binary32 product
    and the final [astype] converts nothing. *)
Definition zero_file (input_dir variable_name : string) : string :=
  path_join (exf_dir input_dir) (variable_name +:+ "_zero_" +:+ pretty year).

Definition times_zero (g : vec) : vec := map (fun x => F32.mul x (F32.of_Z 0)) g.

Definition zero_wind (input_dir variable_name : string) (fs : files) : option files :=
  g ← fromfile (output_file input_dir variable_name) fs;
  Some (<[zero_file input_dir variable_name := concat (map F32.encode (times_zero g))]> fs).

Definition make_zero_winds (input_dir : string) (fs : files) : option files :=
  fs1 ← zero_wind input_dir "UWIND" fs;
  zero_wind input_dir "VWIND" fs1.

(** ** Step 5: the array plotted for a variable

    [g = np.fromfile(<name>_<year>, '>f4').reshape((366*4, rows, cols))]
    [g[0, :, :]] *)
Definition plot_grid (input_dir variable_name : string) (XC : mat) (fs : files)
  : option mat :=
  CA_exf_grid ← fromfile (output_file input_dir variable_name) fs;
  CA_exf_grid ← Np.reshape3 (366 * 4) (Np.rows XC) (Np.cols XC) CA_exf_grid;
  CA_exf_grid !! 0%nat.
End ExternalForcing.

(* ===================================================================== *)
(** * A small worked example *)
(* ===================================================================== *)

Module Demo.
Definition f (z : Z) : spec_float := F64.of_Z z.

(** A kernel that never answers: every open cell takes the nearest value. *)
Definition no_kernel : list (point * spec_float) -> point -> option spec_float :=
  fun _ _ => None.

(** The ECCO grid: tiles 8 and 11, each of one row and two columns, on two
    levels. The second point of tile 8 lies east of 0; the first point of
    tile 11 is dry at level 1. *)
Definition on_tiles {V : Type} (t8 t11 : V) : gmap Z V := <[8%Z := t8]> (<[11%Z := t11]> ∅).

Definition RF : list spec_float := [f 0; f (-10)].

Definition grid : InitialConditions.ecco_grid :=
  {| InitialConditions.ecco_XC_tiles := on_tiles [[f (-2); f 3]] [[f (-1); f (-3)]];
     InitialConditions.ecco_YC_tiles := on_tiles [[f 1; f 2]] [[f 3; f 4]];
     InitialConditions.ecco_hFacC_tiles :=
       on_tiles [[[f 1; f 1]]; [[f 1; f 1]]] [[[f 1; f 1]]; [[f 0; f 1]]];
     InitialConditions.ecco_hFacW_tiles :=
       on_tiles [[[f 2; f 1]]; [[f 1; f 1]]] [[[f 0; f 1]]; [[f 4; f 1]]];
     InitialConditions.ecco_hFacS_tiles :=
       on_tiles [[[f 1; f 1]]; [[f 2; f 1]]] [[[f 4; f 1]]; [[f 0; f 1]]];
     InitialConditions.ecco_RF_tiles := <[1%Z := RF]> (on_tiles RF RF) |}.

(** The four source points gathered from the two tiles. *)
Definition raw_points : InitialConditions.ecco_points :=
  {| InitialConditions.ecco_XC_points := [f (-2); f 3; f (-1); f (-3)];
     InitialConditions.ecco_YC_points := [f 1; f 2; f 3; f 4];
     InitialConditions.ecco_hFacC_points := [[f 1; f 1; f 1; f 1]; [f 1; f 1; f 0; f 1]];
     InitialConditions.ecco_hFacW_points := [[f 2; f 1; f 0; f 1]; [f 1; f 1; f 4; f 1]];
     InitialConditions.ecco_hFacS_points := [[f 1; f 1; f 4; f 1]; [f 2; f 1; f 0; f 1]];
     InitialConditions.ecco_mask_points := [[f 1; f 1; f 1; f 1]; [f 1; f 1; f 0; f 1]] |}.

(** The three of them west of 0. *)
Definition points : InitialConditions.ecco_points :=
  {| InitialConditions.ecco_XC_points := [f (-2); f (-1); f (-3)];
     InitialConditions.ecco_YC_points := [f 1; f 3; f 4];
     InitialConditions.ecco_hFacC_points := [[f 1; f 1; f 1]; [f 1; f 0; f 1]];
     InitialConditions.ecco_hFacW_points := [[f 2; f 0; f 1]; [f 1; f 4; f 1]];
     InitialConditions.ecco_hFacS_points := [[f 1; f 4; f 1]; [f 2; f 0; f 1]];
     InitialConditions.ecco_mask_points := [[f 1; f 1; f 1]; [f 1; f 0; f 1]] |}.

(** The ECCO fields: eleven tiles of two points; point [j] of tile [n] holds
    [base + n + 100 j], and level 1 holds 1000 more than level 0. *)
Definition tiles_of (base : Z) : list (list (list spec_float)) :=
  map (fun n => [[f (base + Z.of_nat n); f (base + Z.of_nat n + 100)]]) (seq 1 11).
Definition levels_of (base : Z) : list (list (list (list spec_float))) :=
  [tiles_of base; tiles_of (base + 1000)].

(** UVELMASS misses one entry: the first point of tile 9 at level 0. *)
Definition UVELMASS_missing : list (list (list (list (list bool)))) :=
  [[map (fun n => [[(n =? 9)%nat; false]]) (seq 1 11);
    map (fun _ => [[false; false]]) (seq 1 11)]].

Definition fields : InitialConditions.ecco_fields :=
  {| InitialConditions.ETAN_nc := [tiles_of 20];
     InitialConditions.THETA_nc := [levels_of 30];
     InitialConditions.SALT_nc := [levels_of 40];
     InitialConditions.UVELMASS_nc := [levels_of 0];
     InitialConditions.UVELMASS_missing := UVELMASS_missing;
     InitialConditions.VVELMASS_nc := [levels_of 50] |}.

(** The arrays the loop over the variables makes of them; [UVEL_raw] is the
    UVEL array before the corrections. *)
Definition ETAN_points : list (list spec_float) := [[f 28; f 31; f 131]].
Definition THETA_points : list (list spec_float) :=
  [[f 38; f 41; f 141]; [f 1038; f 1041; f 1141]].
Definition SALT_points : list (list spec_float) :=
  [[f 48; f 51; f 151]; [f 1048; f 1051; f 1151]].
Definition UVEL_raw : list (list spec_float) :=
  [[f 58; f 61; f 161]; [f 1058; f 1061; f 1161]].
Definition UVEL_points : list (list spec_float) :=
  [[f 29; f 61; f 161]; [f 1058; F64.div (f 1061) (f 4); f 1161]].
Definition VVEL_points : list (list spec_float) :=
  [[f (-8); F64.div (f (-11)) (f 4); f (-111)]; [f (-504); f (-1011); f (-1111)]].

(** The target grid: one row, two columns, two layers; the second cell is
    land. *)
Definition XC : list (list spec_float) := [[f (-2); f (-1)]].
Definition YC : list (list spec_float) := [[f 1; f 1]].
Definition depth : list (list spec_float) := [[f (-10); f 0]].
Definition delR : list spec_float := [f 10; f 20].
Definition open_fraction (d : spec_float) (_ : list spec_float) (_ : nat) : spec_float :=
  if F64.lt0 d then F64.one else F64.zero.
Definition hFacC : list (list (list spec_float)) :=
  Eccoseas.create_hFacC_grid open_fraction depth delR.
Definition mask : list (list (list spec_float)) := to_mask3 hFacC.


(** A forcing file of two timesteps on a single source point, and a second
    one that differs at timestep 1. *)
Definition exf_points : list point := [(f 0, f 0)].
Definition exf_grid1 : list (list (list spec_float)) := [[[f 1]]; [[f 2]]].
Definition exf_grid2 : list (list (list spec_float)) := [[[f 1]]; [[f 3]]].
Definition surface_mask : list (list spec_float) := [[f 1; f 0]].
Definition read_exf (_ : string) (_ : nat) : option ExternalForcing.exf_file :=
  Some {| ExternalForcing.exf_lon := [f 0]; ExternalForcing.exf_lat := [f 0];
          ExternalForcing.exf_grid := exf_grid1 |}.

(** A wind file holding 1.0, -2.0 and a NaN, and an empty one. *)
Definition wind_files : gmap string (list byte) :=
  <[ExternalForcing.output_file "" "UWIND" :=
      [x3f; x80; x00; x00; xc0; x00; x00; x00; x7f; xc0; x00; x00]]>
    (<[ExternalForcing.output_file "" "VWIND" := []]> ∅).
End Demo.

(* ===================================================================== *)
(** * Proofs *)
(* ===================================================================== *)

(** ** The binary32 encoding *)

Lemma Z_of_byte_of_Z z : F32.Z_of_byte (F32.byte_of_Z z) = Z.land z 255.
Proof.
  unfold F32.Z_of_byte, F32.byte_of_Z.
  assert (Hr : 0 <= Z.land z 255 < 256).
  { change 255 with (Z.ones 8). rewrite Z.land_ones by lia. apply Z.mod_pos_bound. lia. }
  destruct (Byte.of_N (Z.to_N (Z.land z 255))) as [b|] eqn:E.
  - apply Byte.to_of_N in E. simpl. rewrite E. lia.
  - apply Byte.of_N_None_iff in E. lia.
Qed.

Lemma Z_of_byte_range b : 0 <= F32.Z_of_byte b < 256.
Proof.
  unfold F32.Z_of_byte. pose proof (Byte.to_N_bounded b). lia.
Qed.

Lemma testbit_255 i : Z.testbit 255 i = (0 <=? i) && (i <? 8).
Proof. change 255 with (Z.ones 8). apply Z.testbit_ones. lia. Qed.

Lemma testbit_byte_at w k n :
  0 <= k -> 0 <= n ->
  Z.testbit (Z.shiftl (Z.land (Z.shiftr w k) 255) k) n
  = Z.testbit w n && ((k <=? n) && (n <? k + 8)).
Proof.
  intros Hk Hn. rewrite Z.shiftl_spec by lia.
  destruct (Z.leb_spec k n).
  - rewrite Z.land_spec, Z.shiftr_spec, testbit_255 by lia.
    replace (n - k + k) with n by lia.
    destruct (Z.leb_spec 0 (n - k)); [|lia].
    destruct (Z.ltb_spec (n - k) 8), (Z.ltb_spec n (k + 8)); try lia; reflexivity.
  - rewrite Z.testbit_neg_r by lia. now rewrite andb_false_r.
Qed.

Lemma testbit_above w n : 0 <= w < 2 ^ 32 -> 32 <= n -> Z.testbit w n = false.
Proof.
  intros Hw Hn. destruct (Z.eq_dec w 0) as [->|]; [apply Z.testbit_0_l|].
  apply Z.bits_above_log2; [lia|].
  assert (Z.log2 w < 32) by (apply Z.log2_lt_pow2; lia). lia.
Qed.

Lemma be_word_be_bytes w b0 b1 b2 b3 :
  0 <= w < 2 ^ 32 ->
  F32.be_bytes w = [b0; b1; b2; b3] ->
  F32.be_word b0 b1 b2 b3 = w.
Proof.
  intros Hw E. unfold F32.be_bytes in E. injection E as <- <- <- <-.
  unfold F32.be_word. rewrite !Z_of_byte_of_Z.
  apply Z.bits_inj'. intros n Hn.
  replace (Z.land w 255) with (Z.shiftl (Z.land (Z.shiftr w 0) 255) 0)
    by now rewrite Z.shiftr_0_r, Z.shiftl_0_r.
  rewrite !Z.lor_spec, !testbit_byte_at by lia.
  destruct (Z.ltb_spec n 32).
  2:{ rewrite testbit_above by lia. reflexivity. }
  destruct (Z.testbit w n); [|reflexivity]. simpl.
  destruct (Z.leb_spec 24 n), (Z.ltb_spec n (24 + 8)),
           (Z.leb_spec 16 n), (Z.ltb_spec n (16 + 8)),
           (Z.leb_spec 8 n), (Z.ltb_spec n (8 + 8)),
           (Z.leb_spec 0 n), (Z.ltb_spec n (0 + 8)); try lia; reflexivity.
Qed.

Lemma digits2_pos_bounds m :
  2 ^ (Z.pos (digits2_pos m) - 1) <= Z.pos m < 2 ^ Z.pos (digits2_pos m).
Proof.
  induction m as [p IH|p IH|]; simpl digits2_pos.
  - rewrite Pos2Z.inj_succ. replace (Z.succ (Z.pos (digits2_pos p)) - 1) with (Z.succ (Z.pos (digits2_pos p) - 1)) by lia.
    rewrite !Z.pow_succ_r by lia. lia.
  - rewrite Pos2Z.inj_succ. replace (Z.succ (Z.pos (digits2_pos p)) - 1) with (Z.succ (Z.pos (digits2_pos p) - 1)) by lia.
    rewrite !Z.pow_succ_r by lia. lia.
  - simpl. lia.
Qed.

Lemma land_shiftl_low a b n : 0 <= n -> 0 <= b < 2 ^ n -> Z.land (Z.shiftl a n) b = 0.
Proof.
  intros Hn Hb. apply Z.bits_inj'. intros i Hi.
  rewrite Z.land_spec, Z.bits_0.
  destruct (Z.ltb_spec i n).
  - rewrite Z.shiftl_spec_low by lia. reflexivity.
  - replace b with (b mod 2 ^ n) by (apply Z.mod_small; lia).
    rewrite Z.mod_pow2_bits_high by lia. apply andb_false_r.
Qed.

Lemma lor_shiftl_low a b n :
  0 <= n -> 0 <= b < 2 ^ n -> Z.lor (Z.shiftl a n) b = a * 2 ^ n + b.
Proof.
  intros Hn Hb. rewrite <- Z.lxor_lor by (apply land_shiftl_low; lia).
  rewrite <- Z.add_nocarry_lxor by (apply land_shiftl_low; lia).
  now rewrite Z.shiftl_mul_pow2.
Qed.

Lemma join_bits_arith s m e :
  0 <= m < 2 ^ 23 -> 0 <= e < 256 ->
  F32.join_bits s m e = ((if s then 256 else 0) + e) * 2 ^ 23 + m.
Proof.
  intros Hm He. unfold F32.join_bits.
  rewrite lor_shiftl_low by lia. f_equal. f_equal.
  destruct s.
  - rewrite Z.lor_comm. change 256 with (1 * 2 ^ 8). rewrite <- lor_shiftl_low; [|lia|simpl; lia].
    now rewrite Z.lor_comm.
  - apply Z.lor_0_l.
Qed.

Lemma split_join_bits s m e :
  0 <= m < 2 ^ 23 -> 0 <= e < 256 ->
  Z.testbit (F32.join_bits s m e) 31 = s
  /\ Z.land (Z.shiftr (F32.join_bits s m e) 23) 255 = e
  /\ Z.land (F32.join_bits s m e) (Z.ones 23) = m
  /\ 0 <= F32.join_bits s m e < 2 ^ 32.
Proof.
  intros Hm He. rewrite join_bits_arith by assumption.
  change (2 ^ 23) with 8388608 in *. change (2 ^ 32) with 4294967296.
  repeat split.
  - rewrite Z.testbit_odd, Z.shiftr_div_pow2 by lia. change (2 ^ 31) with 2147483648.
    destruct s.
    + replace ((256 + e) * 8388608 + m) with (1 * 2147483648 + (e * 8388608 + m)) by lia.
      rewrite Z.div_add_l by lia. rewrite Z.div_small by lia. reflexivity.
    + rewrite Z.div_small by lia. reflexivity.
  - change 255 with (Z.ones 8). rewrite Z.land_ones, Z.shiftr_div_pow2 by lia.
    change (2 ^ 23) with 8388608. change (2 ^ 8) with 256.
    rewrite Z.div_add_l by lia. rewrite (Z.div_small m) by lia.
    rewrite Z.add_0_r. destruct s.
    + replace (256 + e) with (e + 1 * 256) by lia. rewrite Z.mod_add by lia. apply Z.mod_small; lia.
    + apply Z.mod_small; lia.
  - rewrite Z.land_ones by lia. change (2 ^ 23) with 8388608.
    rewrite Z.add_comm, Z.mod_add by lia. apply Z.mod_small; lia.
  - destruct s; lia.
  - destruct s; lia.
Qed.

(** The shape of a valid binary32 value. *)
Lemma valid_f32_finite s m e :
  F32.valid (S754_finite s m e) = true ->
  (2 ^ 23 <= Z.pos m < 2 ^ 24 /\ -149 <= e <= 104)
  \/ (Z.pos m < 2 ^ 23 /\ e = -149).
Proof.
  unfold F32.valid, valid_binary, bounded, canonical_mantissa, fexp, SpecFloat.emin.
  change (3 - F32.emax - F32.prec) with (-149). change (F32.emax - F32.prec) with 104.
  unfold F32.prec.
  intros H. apply andb_true_iff in H as [Hc He].
  apply Z.eqb_eq in Hc. apply Z.leb_le in He.
  pose proof (digits2_pos_bounds m) as [Hlo Hhi].
  set (d := Z.pos (digits2_pos m)) in *.
  assert (Hd : 0 < d) by (unfold d; lia).
  destruct (Z.le_gt_cases (2 ^ 23) (Z.pos m)) as [Hm|Hm].
  - left.
    assert (24 <= d).
    { destruct (Z.le_gt_cases 24 d); [assumption|].
      assert (2 ^ d <= 2 ^ 23) by (apply Z.pow_le_mono_r; lia). lia. }
    assert (d = 24) by lia.
    replace d with 24 in * by lia. lia.
  - right. split; [assumption|].
    assert (d <= 23).
    { destruct (Z.le_gt_cases d 23); [assumption|].
      assert (2 ^ 23 <= 2 ^ (d - 1)) by (apply Z.pow_le_mono_r; lia). lia. }
    lia.
Qed.

Lemma to_bits_range x : F32.valid x = true -> 0 <= F32.to_bits x < 2 ^ 32.
Proof.
  intros Hv. destruct x as [s|s| |s m e]; unfold F32.to_bits.
  - apply split_join_bits; lia.
  - apply split_join_bits; lia.
  - change (Z.shiftl 1 22) with 4194304. apply split_join_bits; lia.
  - apply valid_f32_finite in Hv. change (Z.shiftl 1 23) with (2 ^ 23).
    unfold F32.emin.
    destruct (Z.leb_spec (2 ^ 23) (Z.pos m)); apply split_join_bits; lia.
Qed.

Lemma of_bits_to_bits x : F32.valid x = true -> F32.of_bits (F32.to_bits x) = x.
Proof.
  intros Hv. destruct x as [s|s| |s m e]; unfold F32.to_bits.
  - unfold F32.of_bits.
    destruct (split_join_bits s 0 0) as (-> & -> & -> & _); try lia. reflexivity.
  - unfold F32.of_bits.
    destruct (split_join_bits s 0 255) as (-> & -> & -> & _); try lia. reflexivity.
  - unfold F32.of_bits.
    change (Z.shiftl 1 22) with 4194304.
    destruct (split_join_bits false 4194304 255) as (-> & -> & -> & _); try lia.
    reflexivity.
  - apply valid_f32_finite in Hv. change (Z.shiftl 1 23) with (2 ^ 23).
    unfold F32.emin.
    destruct (Z.leb_spec (2 ^ 23) (Z.pos m)) as [Hm|Hm].
    + destruct Hv as [[Hm' He]|[Hm' _]]; [|lia].
      unfold F32.of_bits.
      destruct (split_join_bits s (Z.pos m - 2 ^ 23) (e - -149 + 1))
        as (-> & -> & -> & _); [lia|lia|].
      destruct (Z.eqb_spec (e - -149 + 1) 0); [lia|].
      destruct (Z.eqb_spec (e - -149 + 1) 255); [lia|].
      rewrite Z.lor_comm, lor_shiftl_low by lia.
      replace (1 * 2 ^ 23 + (Z.pos m - 2 ^ 23)) with (Z.pos m) by lia.
      unfold F32.emin. f_equal. lia.
    + destruct Hv as [[Hm' _]|[_ ->]]; [lia|].
      unfold F32.of_bits.
      destruct (split_join_bits s (Z.pos m) 0) as (-> & -> & -> & _); [lia|lia|].
      reflexivity.
Qed.

Section Rounding.
Variables prec emax : Z.

Lemma shl_align_shift m e e' k :
  e' - e = Z.neg k -> shl_align m e e' = (Pos.iter xO m k, e').
Proof. unfold shl_align. intros ->. reflexivity. Qed.

Lemma shl_align_keep m e e' : e <= e' -> shl_align m e e' = (m, e).
Proof.
  unfold shl_align. intros H. destruct (e' - e) eqn:E; try reflexivity. lia.
Qed.

Lemma shr_fexp_canonical m e :
  canonical_mantissa prec emax m e = true ->
  shr_fexp prec emax (Z.pos m) e loc_Exact
  = ({| shr_m := Z.pos m; shr_r := false; shr_s := false |}, e).
Proof.
  unfold canonical_mantissa, shr_fexp. intros H. apply Z.eqb_eq in H.
  simpl Zdigits2. rewrite H, Z.sub_diag. reflexivity.
Qed.

(** Rounding a value that is already in the format leaves it alone. *)
Lemma binary_round_aux_canonical s m e :
  bounded prec emax m e = true ->
  binary_round_aux prec emax s (Z.pos m) e loc_Exact = S754_finite s m e.
Proof.
  unfold bounded. intros H. apply andb_true_iff in H as [Hc He].
  unfold binary_round_aux. rewrite shr_fexp_canonical by assumption.
  simpl. rewrite shr_fexp_canonical by assumption. simpl.
  rewrite He. reflexivity.
Qed.
End Rounding.

Lemma pos_iter_nat {A} (f : A -> A) (x : A) (p : positive) :
  Pos.iter f x p = Nat.iter (Pos.to_nat p) f x.
Proof. apply Pos2Nat.inj_iter. Qed.

Lemma digits2_pos_iter_nat m n :
  Z.pos (digits2_pos (Nat.iter n xO m)) = Z.pos (digits2_pos m) + Z.of_nat n.
Proof.
  induction n as [|n IH].
  - simpl. lia.
  - change (Nat.iter (S n) xO m) with (xO (Nat.iter n xO m)).
    simpl digits2_pos. rewrite Pos2Z.inj_succ, IH. lia.
Qed.

Lemma digits2_pos_iter_xO m k :
  Z.pos (digits2_pos (Pos.iter xO m k)) = Z.pos (digits2_pos m) + Z.pos k.
Proof.
  rewrite pos_iter_nat, digits2_pos_iter_nat, positive_nat_Z. reflexivity.
Qed.

Lemma iter_pos_nat {A} (f : A -> A) p x : SpecFloat.iter_pos f p x = Nat.iter (Pos.to_nat p) f x.
Proof.
  revert x. induction p as [p IH|p IH|]; intros x; simpl SpecFloat.iter_pos.
  - rewrite !IH, Pos2Nat.inj_xI.
    replace (S (2 * Pos.to_nat p)) with (Pos.to_nat p + (Pos.to_nat p + 1))%nat by lia.
    rewrite !Nat.iter_add. reflexivity.
  - rewrite !IH, Pos2Nat.inj_xO.
    replace (2 * Pos.to_nat p)%nat with (Pos.to_nat p + Pos.to_nat p)%nat by lia.
    rewrite Nat.iter_add. reflexivity.
  - reflexivity.
Qed.

(** Shifting back out the zeros that were shifted in is exact. *)
Lemma shr_iter_xO m k :
  SpecFloat.iter_pos shr_1 k {| shr_m := Z.pos (Pos.iter xO m k); shr_r := false; shr_s := false |}
  = {| shr_m := Z.pos m; shr_r := false; shr_s := false |}.
Proof.
  rewrite iter_pos_nat, pos_iter_nat.
  induction (Pos.to_nat k) as [|n IH]; [reflexivity|].
  rewrite Nat.iter_succ_r. simpl. exact IH.
Qed.

Lemma valid_f32_digits s m e :
  F32.valid (S754_finite s m e) = true ->
  Z.pos (digits2_pos m) <= 24 /\ -149 <= e <= 104
  /\ fexp F32.prec F32.emax (Z.pos (digits2_pos m) + e) = e.
Proof.
  unfold F32.valid, valid_binary, bounded, canonical_mantissa.
  intros H. apply andb_true_iff in H as [Hc He].
  apply Z.eqb_eq in Hc. apply Z.leb_le in He.
  split; [|split]; [| |exact Hc].
  - revert Hc. unfold fexp, SpecFloat.emin, F32.prec, F32.emax. lia.
  - revert Hc He. unfold fexp, SpecFloat.emin, F32.prec, F32.emax. lia.
Qed.

(** The widening of a binary32 value, in closed form. *)
Lemma to_f64_finite s m e :
  F32.valid (S754_finite s m e) = true ->
  exists k, Z.pos k = 53 - Z.pos (digits2_pos m)
    /\ F32.to_f64 (S754_finite s m e)
       = S754_finite s (Pos.iter xO m k) (e - Z.pos k).
Proof.
  intros Hv. apply valid_f32_digits in Hv as (Hd & He & Hc).
  destruct (53 - Z.pos (digits2_pos m)) as [|k|k] eqn:Ek; try lia.
  exists k. split; [reflexivity|].
  unfold F32.to_f64, binary_round.
  assert (Hf : fexp F64.prec F64.emax (Z.pos (digits2_pos m) + e) = e - Z.pos k).
  { unfold fexp, SpecFloat.emin, F64.prec, F64.emax. lia. }
  rewrite Hf, (shl_align_shift _ _ _ k) by lia.
  apply binary_round_aux_canonical.
  unfold bounded, canonical_mantissa. rewrite digits2_pos_iter_xO.
  apply andb_true_iff. split.
  - apply Z.eqb_eq. unfold fexp, SpecFloat.emin, F64.prec, F64.emax. lia.
  - apply Z.leb_le. unfold F64.prec, F64.emax. lia.
Qed.

(** Narrowing undoes widening: binary32 values survive [astype('>f4')]. *)
Lemma of_f64_to_f64 w : F32.valid w = true -> F32.of_f64 (F32.to_f64 w) = w.
Proof.
  intros Hv. destruct w as [s|s| |s m e]; try reflexivity.
  destruct (to_f64_finite s m e Hv) as (k & Hk & ->).
  pose proof Hv as Hv'.
  apply valid_f32_digits in Hv as (Hd & He & Hc).
  unfold F32.of_f64, binary_round.
  rewrite digits2_pos_iter_xO.
  replace (Z.pos (digits2_pos m) + Z.pos k + (e - Z.pos k))
    with (Z.pos (digits2_pos m) + e) by lia.
  rewrite Hc, shl_align_keep by lia.
  unfold binary_round_aux.
  unfold shr_fexp at 1. simpl Zdigits2. rewrite digits2_pos_iter_xO.
  replace (Z.pos (digits2_pos m) + Z.pos k + (e - Z.pos k))
    with (Z.pos (digits2_pos m) + e) by lia.
  rewrite Hc. replace (e - (e - Z.pos k)) with (Z.pos k) by lia.
  unfold shr. simpl shr_record_of_loc. rewrite shr_iter_xO.
  replace (e - Z.pos k + Z.pos k) with e by lia.
  simpl.
  unfold F32.valid, valid_binary, bounded in Hv'.
  apply andb_true_iff in Hv' as [Hcm Hle].
  rewrite shr_fexp_canonical by assumption. simpl.
  rewrite Hle. reflexivity.
Qed.

Local Close Scope Z_scope.
Local Open Scope nat_scope.

(** ** Loops *)

Lemma for_each_cons {S X} (x : X) xs (body : X -> S -> option S) s :
  Np.for_each (x :: xs) body s = body x s ≫= Np.for_each xs body.
Proof. reflexivity. Qed.

(** A loop over [range] whose iteration [k] replaces entry [k] only. *)
Lemma for_each_rows {A} (step : nat -> A -> option A)
    (body : nat -> list A -> option (list A)) :
  (forall k G G', body k G = Some G' ->
     exists x y, G !! k = Some x /\ step k x = Some y /\ G' = <[k := y]> G) ->
  forall n a G G', Np.for_each (seq a n) body G = Some G' ->
    length G' = length G
    /\ (forall k, a <= k < a + n ->
          exists x y, G !! k = Some x /\ step k x = Some y /\ G' !! k = Some y)
    /\ (forall k, ~ (a <= k < a + n) -> G' !! k = G !! k).
Proof.
  intros Hbody. induction n as [|n IH]; intros a G G' Hrun.
  - simpl in Hrun. injection Hrun as <-.
    split; [reflexivity|]. split; [|reflexivity].
    intros k Hk. lia.
  - simpl seq in Hrun. rewrite for_each_cons in Hrun.
    apply bind_Some in Hrun as (G1 & Hstep & Hrest).
    apply Hbody in Hstep as (x & y & Hx & Hy & ->).
    apply IH in Hrest as (Hlen & Hin & Hout).
    pose proof (lookup_lt_Some _ _ _ Hx) as Hlt.
    rewrite length_insert in Hlen.
    split; [exact Hlen|]. split.
    + intros k Hk. destruct (decide (k = a)) as [->|Hne].
      * exists x, y. split; [exact Hx|]. split; [exact Hy|].
        rewrite Hout by lia. apply list_lookup_insert_eq. exact Hlt.
      * destruct (Hin k) as (x' & y' & Hx' & Hy' & Hk'); [lia|].
        rewrite list_lookup_insert_ne in Hx' by congruence.
        exists x', y'. auto.
    + intros k Hk. rewrite Hout by lia.
      apply list_lookup_insert_ne. lia.
Qed.

(** ** Rectangular arrays: [ravel], [reshape] and indexing *)

Section Rect.
Context {A : Type}.

Lemma length_concat_rect (c : nat) (m : list (list A)) :
  Forall (fun row => length row = c) m -> length (concat m) = length m * c.
Proof.
  induction 1 as [|row m Hrow _ IH]; simpl; [reflexivity|].
  rewrite length_app, IH, Hrow. reflexivity.
Qed.

Lemma chunks_concat (c : nat) (m : list (list A)) :
  Forall (fun row => length row = c) m -> Np.chunks (length m) c (concat m) = m.
Proof.
  induction 1 as [|row m Hrow _ IH]; simpl; [reflexivity|].
  rewrite take_app_length' by (symmetry; exact Hrow).
  rewrite drop_app_length' by (symmetry; exact Hrow).
  rewrite IH. reflexivity.
Qed.

Lemma reshape2_ravel2 (r c : nat) (m : list (list A)) :
  Np.rect2 r c m -> Np.reshape2 r c (Np.ravel2 m) = Some m.
Proof.
  intros [Hr Hc]. unfold Np.reshape2, Np.ravel2.
  rewrite (length_concat_rect c) by exact Hc. rewrite Hr, Nat.eqb_refl.
  rewrite <- Hr, chunks_concat by exact Hc. reflexivity.
Qed.

Lemma rect3_ravel_rows (l r c : nat) (g : list (list (list A))) :
  Np.rect3 l r c g -> Forall (fun lev => length lev = r * c) (map Np.ravel2 g).
Proof.
  intros [_ Hg]. apply Forall_map. eapply Forall_impl; [exact Hg|].
  intros lev [Hr Hc]. simpl. unfold Np.ravel2.
  rewrite (length_concat_rect c) by exact Hc. rewrite Hr. reflexivity.
Qed.

Lemma length_ravel3 (l r c : nat) (g : list (list (list A))) :
  Np.rect3 l r c g -> length (Np.ravel3 g) = l * (r * c).
Proof.
  intros Hg. unfold Np.ravel3.
  rewrite (length_concat_rect (r * c)) by (eapply rect3_ravel_rows; exact Hg).
  rewrite length_map. destruct Hg as [-> _]. reflexivity.
Qed.

Lemma reshape3_ravel3 (l r c : nat) (g : list (list (list A))) :
  Np.rect3 l r c g -> Np.reshape3 l r c (Np.ravel3 g) = Some g.
Proof.
  intros Hg. unfold Np.reshape3.
  rewrite (length_ravel3 l r c) by exact Hg. rewrite Nat.eqb_refl.
  f_equal. unfold Np.ravel3.
  pose proof (rect3_ravel_rows l r c g Hg) as Hrows.
  destruct Hg as [Hl Hg].
  replace l with (length (map Np.ravel2 g)) by (rewrite length_map; exact Hl).
  rewrite chunks_concat by exact Hrows.
  rewrite map_map. rewrite <- (map_id g) at 2.
  apply map_ext_Forall. eapply Forall_impl; [exact Hg|].
  intros lev [Hr Hc]. simpl. unfold Np.ravel2.
  rewrite <- Hr. apply chunks_concat. exact Hc.
Qed.

(** Row [i] of a rectangular array occupies [i*c .. i*c + c) of its
    flattening. *)
Lemma concat_row (c : nat) (m : list (list A)) (i : nat) (row : list A) :
  Forall (fun row => length row = c) m -> m !! i = Some row ->
  take c (drop (i * c) (concat m)) = row.
Proof.
  intros Hm. revert i. induction Hm as [|r0 m Hr0 _ IH]; intros i Hi.
  - rewrite lookup_nil in Hi. discriminate.
  - destruct i as [|i]; simpl in Hi; simpl concat.
    + injection Hi as <-. change (0 * c) with 0. rewrite drop_0.
      rewrite take_app_length' by (symmetry; exact Hr0). reflexivity.
    + replace (S i * c) with (length r0 + i * c) by (rewrite Hr0; lia).
      rewrite drop_app_add' by reflexivity.
      apply IH. exact Hi.
Qed.

Lemma lookup_concat_rect (c : nat) (m : list (list A)) (i j : nat) (row : list A) :
  Forall (fun row => length row = c) m -> m !! i = Some row -> j < c ->
  concat m !! (i * c + j) = row !! j.
Proof.
  intros Hm Hi Hj. pose proof (concat_row c m i row Hm Hi) as Hrow.
  rewrite <- Hrow at 1.
  rewrite lookup_take_lt by exact Hj. rewrite lookup_drop. reflexivity.
Qed.
End Rect.

(** ** Flat binary files *)

Lemma length_encode x : length (F32.encode x) = 4.
Proof. reflexivity. Qed.

Lemma decode_encode w b0 b1 b2 b3 :
  F32.valid w = true -> F32.encode w = [b0; b1; b2; b3] -> F32.decode b0 b1 b2 b3 = w.
Proof.
  intros Hv E. unfold F32.decode, F32.encode in *.
  rewrite (be_word_be_bytes (F32.to_bits w)); [apply of_bits_to_bits; exact Hv| |exact E].
  apply to_bits_range. exact Hv.
Qed.

Lemma from_f4_bytes_fuel_encode ws n :
  Forall (fun w => F32.valid w = true) ws -> length ws <= n ->
  from_f4_bytes_fuel n (concat (map F32.encode ws)) = ws.
Proof.
  intros Hws. revert n. induction Hws as [|w ws Hw _ IH]; intros n Hn.
  - destruct n; reflexivity.
  - destruct n as [|n]; [simpl in Hn; lia|].
    simpl concat. unfold F32.encode at 1, F32.be_bytes. simpl app.
    simpl from_f4_bytes_fuel. f_equal.
    + apply decode_encode; [exact Hw|reflexivity].
    + apply IH. simpl in Hn. lia.
Qed.

Lemma from_f4_bytes_encode ws :
  Forall (fun w => F32.valid w = true) ws ->
  from_f4_bytes (concat (map F32.encode ws)) = ws.
Proof.
  intros Hws. unfold from_f4_bytes. apply from_f4_bytes_fuel_encode; [exact Hws|].
  rewrite (length_concat_rect 4).
  - rewrite length_map. lia.
  - apply Forall_map. apply Forall_true. intros w. apply length_encode.
Qed.

(** Reading never runs short: a file of [n] bytes holds [n / 4] items. *)
Lemma length_from_f4_bytes_fuel n bs :
  length bs / 4 <= n -> length (from_f4_bytes_fuel n bs) = length bs / 4.
Proof.
  revert bs. induction n as [|n IH]; intros bs Hn.
  - apply Nat.le_0_r in Hn. rewrite Hn. reflexivity.
  - destruct bs as [|b0 [|b1 [|b2 [|b3 rest]]]]; try reflexivity.
    change (length (b0 :: b1 :: b2 :: b3 :: rest)) with (1 * 4 + length rest) in *.
    rewrite Nat.div_add_l in Hn by lia. rewrite Nat.div_add_l by lia.
    change (from_f4_bytes_fuel (S n) (b0 :: b1 :: b2 :: b3 :: rest))
      with (F32.decode b0 b1 b2 b3 :: from_f4_bytes_fuel n rest).
    change (length (F32.decode b0 b1 b2 b3 :: from_f4_bytes_fuel n rest))
      with (S (length (from_f4_bytes_fuel n rest))).
    rewrite IH by lia. reflexivity.
Qed.

Lemma length_from_f4_bytes bs : length (from_f4_bytes bs) = length bs / 4.
Proof.
  unfold from_f4_bytes. apply length_from_f4_bytes_fuel.
  apply Nat.Div0.div_le_upper_bound. lia.
Qed.

Lemma to_f4_bytes_eq a : to_f4_bytes a = concat (map F32.encode (map F32.of_f64 a)).
Proof. unfold to_f4_bytes. rewrite map_map. reflexivity. Qed.

Lemma fromfile_tofile path a fs :
  fromfile path (tofile path a fs) = Some (from_f4_bytes (to_f4_bytes a)).
Proof. unfold fromfile, tofile. rewrite lookup_insert_eq. reflexivity. Qed.

Lemma representable_of_f64 x :
  (F32.is_finite x = true -> F32.representable x) ->
  F32.valid (F32.of_f64 x) = true /\ F32.to_f64 (F32.of_f64 x) = x.
Proof.
  intros H. destruct x as [s|s| |s m e]; try (split; reflexivity).
  destruct H as (w & Hw & E); [reflexivity|].
  rewrite <- E. rewrite of_f64_to_f64 by exact Hw. auto.
Qed.

(** The executable test decides float32-representability. *)
Lemma representable_b_spec x : representable_b x = true <-> F32.representable x.
Proof.
  unfold representable_b. rewrite andb_true_iff, bool_decide_eq_true. split.
  - intros [Hv E]. exists (F32.of_f64 x). auto.
  - intros (w & Hw & <-). rewrite of_f64_to_f64 by exact Hw. auto.
Qed.

Lemma f32_exact_readback a :
  f32_exact a ->
  from_f4_bytes (to_f4_bytes a) = map F32.of_f64 a
  /\ map F32.to_f64 (map F32.of_f64 a) = a.
Proof.
  intros Ha. rewrite to_f4_bytes_eq. split.
  - apply from_f4_bytes_encode. apply Forall_map, Forall_forall.
    intros x Hx. apply representable_of_f64. intros Hf. apply Ha; assumption.
  - rewrite map_map. rewrite <- (map_id a) at 2. apply map_ext_Forall, Forall_forall.
    intros x Hx. apply representable_of_f64. intros Hf. apply Ha; assumption.
Qed.

Lemma chunks_map {A B} (f : A -> B) k n (a : list A) :
  Np.chunks k n (map f a) = map (map f) (Np.chunks k n a).
Proof.
  revert a. induction k as [|k IH]; intros a; simpl; [reflexivity|].
  rewrite <- !fmap_take, <- !fmap_drop. rewrite IH. reflexivity.
Qed.

Lemma reshape3_map {A B} (f : A -> B) l r c (a : list A) g :
  Np.reshape3 l r c a = Some g ->
  Np.reshape3 l r c (map f a) = Some (map (map (map f)) g).
Proof.
  unfold Np.reshape3. rewrite length_map.
  destruct (length a =? l * (r * c)); [|discriminate].
  intros [= <-]. f_equal. rewrite chunks_map, !map_map.
  apply map_ext. intros lev. apply chunks_map.
Qed.

Lemma reshape2_map {A B} (f : A -> B) r c (a : list A) m :
  Np.reshape2 r c a = Some m ->
  Np.reshape2 r c (map f a) = Some (map (map f) m).
Proof.
  unfold Np.reshape2. rewrite length_map.
  destruct (length a =? r * c); [|discriminate].
  intros [= <-]. f_equal. apply chunks_map.
Qed.

(** Write, read, reshape: a multi-level field. *)
Lemma f4_roundtrip3 path fs l r c (g : cube) :
  Np.rect3 l r c g -> f32_exact (Np.ravel3 g) ->
  exists g32,
    fromfile path (tofile path (Np.ravel3 g) fs) ≫= Np.reshape3 l r c = Some g32
    /\ map (map (map F32.to_f64)) g32 = g.
Proof.
  intros Hg Hx. destruct (f32_exact_readback _ Hx) as [Hread Hwiden].
  exists (map (map (map F32.of_f64)) g). split.
  - rewrite fromfile_tofile. simpl. rewrite Hread.
    apply reshape3_map, reshape3_ravel3. exact Hg.
  - pose proof (reshape3_ravel3 l r c g Hg) as Hr.
    apply (reshape3_map F32.of_f64) in Hr.
    apply (reshape3_map F32.to_f64) in Hr.
    rewrite Hwiden, (reshape3_ravel3 l r c g Hg) in Hr. congruence.
Qed.

(** Write, read, reshape: a single-level field read without its level
    dimension. *)
Lemma f4_roundtrip2 path fs r c (m : mat) :
  Np.rect2 r c m -> f32_exact (Np.ravel3 [m]) ->
  exists m32,
    fromfile path (tofile path (Np.ravel3 [m]) fs) ≫= Np.reshape2 r c = Some m32
    /\ map (map F32.to_f64) m32 = m.
Proof.
  intros Hm Hx. destruct (f32_exact_readback _ Hx) as [Hread Hwiden].
  assert (E : Np.ravel3 [m] = Np.ravel2 m).
  { unfold Np.ravel3. simpl. apply app_nil_r. }
  exists (map (map F32.of_f64) m). split.
  - rewrite fromfile_tofile. simpl. rewrite Hread, E.
    apply reshape2_map, reshape2_ravel2. exact Hm.
  - pose proof (reshape2_ravel2 r c m Hm) as Hr.
    apply (reshape2_map F32.of_f64) in Hr.
    apply (reshape2_map F32.to_f64) in Hr.
    rewrite <- E, Hwiden, E, (reshape2_ravel2 r c m Hm) in Hr. congruence.
Qed.

(** The position of every element in the file. *)
Lemma lookup_ravel3 {A} l r c (g : list (list (list A))) k i j lev row :
  Np.rect3 l r c g -> g !! k = Some lev -> lev !! i = Some row -> j < c ->
  Np.ravel3 g !! ((k * r + i) * c + j) = row !! j.
Proof.
  intros Hg Hk Hi Hj.
  pose proof (rect3_ravel_rows l r c g Hg) as Hrows.
  destruct Hg as [Hl Hg].
  pose proof (proj1 (Forall_lookup _ _) Hg k lev Hk) as [Hr Hc].
  pose proof (lookup_lt_Some _ _ _ Hi) as Hir. rewrite Hr in Hir.
  replace ((k * r + i) * c + j) with (k * (r * c) + (i * c + j)) by lia.
  unfold Np.ravel3.
  rewrite (lookup_concat_rect (r * c) _ k (i * c + j) (Np.ravel2 lev)).
  - unfold Np.ravel2. apply lookup_concat_rect; assumption.
  - exact Hrows.
  - rewrite list_lookup_fmap, Hk. reflexivity.
  - nia.
Qed.

Lemma f4_layout (a : list spec_float) n x :
  a !! n = Some x ->
  take 4 (drop (n * 4) (to_f4_bytes a)) = F32.be_bytes (F32.to_bits (F32.of_f64 x)).
Proof.
  intros Hn. unfold to_f4_bytes.
  apply (concat_row 4 (map (fun x => F32.encode (F32.of_f64 x)) a) n).
  - apply Forall_map, Forall_true. intros y. reflexivity.
  - rewrite list_lookup_fmap, Hn. reflexivity.
Qed.

Lemma length_to_f4_bytes a : length (to_f4_bytes a) = length a * 4.
Proof.
  unfold to_f4_bytes. rewrite (length_concat_rect 4).
  - rewrite length_map. reflexivity.
  - apply Forall_map, Forall_true. intros y. reflexivity.
Qed.

(** ** Boolean indexing *)

Section Select.
Context {A : Type}.

Lemma length_select_eq {B} (b : list bool) (a : list A) (a' : list B) :
  length b = length a -> length b = length a' ->
  length (Np.select b a) = length (Np.select b a').
Proof.
  revert a a'. induction b as [|[] b IH]; intros [|x a] [|y a'] Ha Ha';
    simpl in *; try lia; auto.
Qed.

Lemma positions_from_ge o (b : list bool) i :
  i ∈ Np.positions_from o b -> o <= i.
Proof.
  revert o. induction b as [|[] b IH]; intros o Hi; simpl in Hi.
  - apply elem_of_nil in Hi. contradiction.
  - apply elem_of_cons in Hi as [->|Hi]; [lia|]. apply IH in Hi. lia.
  - apply IH in Hi. lia.
Qed.

Lemma select_lookup_from o (b : list bool) (a : list A) j :
  length b = length a ->
  Np.select b a !! j = Np.positions_from o b !! j ≫= fun i => a !! (i - o).
Proof.
  revert o a j. induction b as [|[] b IH]; intros o [|x a] j Hlen;
    simpl in Hlen; try lia; simpl.
  - reflexivity.
  - destruct j as [|j]; simpl.
    + rewrite Nat.sub_diag. reflexivity.
    + rewrite (IH (S o)) by lia.
      destruct (Np.positions_from (S o) b !! j) as [i|] eqn:E; simpl; [|reflexivity].
      assert (S o <= i).
      { eapply positions_from_ge, list_elem_of_lookup. eauto. }
      replace (i - o) with (S (i - S o)) by lia. reflexivity.
  - rewrite (IH (S o)) by lia.
    destruct (Np.positions_from (S o) b !! j) as [i|] eqn:E; simpl; [|reflexivity].
    assert (S o <= i).
    { eapply positions_from_ge, list_elem_of_lookup. eauto. }
    replace (i - o) with (S (i - S o)) by lia. reflexivity.
Qed.

(** [a[b]] holds the entries of [a] at the index set of [b], in order. *)
Lemma bool_index_lookup (b : list bool) (a a' : list A) j :
  Np.bool_index b a = Some a' ->
  a' !! j = Np.positions b !! j ≫= fun i => a !! i.
Proof.
  unfold Np.bool_index, Np.positions.
  destruct (Nat.eqb_spec (length b) (length a)) as [Hlen|]; [|discriminate].
  intros [= <-]. rewrite (select_lookup_from 0) by exact Hlen.
  destruct (Np.positions_from 0 b !! j); simpl; [|reflexivity].
  rewrite Nat.sub_0_r. reflexivity.
Qed.

Lemma bool_index_cols_lookup (b : list bool) (a a' : list (list A)) k j :
  Np.bool_index_cols b a = Some a' ->
  Np.get2 a' k j = Np.positions b !! j ≫= fun i => Np.get2 a k i.
Proof.
  unfold Np.bool_index_cols. intros H. apply mapM_Some in H.
  unfold Np.get2.
  destruct (a !! k) as [row|] eqn:Ek.
  - destruct (Forall2_lookup_l _ _ _ _ _ H Ek) as (row' & -> & Hrow). simpl.
    apply bool_index_lookup. exact Hrow.
  - assert (a' !! k = None) as ->.
    { apply lookup_ge_None. apply lookup_ge_None in Ek.
      rewrite <- (Forall2_length _ _ _ H). exact Ek. }
    simpl. destruct (Np.positions b !! j); reflexivity.
Qed.
End Select.

Lemma select_self_lt0 (xs : list spec_float) :
  Forall (fun x => F64.lt0 x = true) (Np.select (map F64.lt0 xs) xs).
Proof.
  induction xs as [|x xs IH]; simpl; [constructor|].
  destruct (F64.lt0 x) eqn:E; [constructor; assumption|assumption].
Qed.

(** ** Velocity normalization *)

Lemma put_normalize (frow row : list spec_float) :
  length row = length frow ->
  InitialConditions.put (map F64.ne0 frow) row
    (zip_with F64.div (Np.select (map F64.ne0 frow) row) (Np.select (map F64.ne0 frow) frow))
  = zip_with (fun v f => if F64.ne0 f then F64.div v f else v) row frow.
Proof.
  revert row. induction frow as [|f frow IH]; intros [|v row] Hlen;
    simpl in Hlen; try lia; [reflexivity|].
  simpl. destruct (F64.ne0 f) eqn:E; simpl; rewrite IH by lia; reflexivity.
Qed.

Lemma normalize_level_row hFac k g g' :
  InitialConditions.normalize_level hFac k g = Some g' ->
  exists row row',
    g !! k = Some row
    /\ (frow ← hFac !! k;
       if length frow =? length row
       then Some (zip_with (fun v f => if F64.ne0 f then F64.div v f else v) row frow)
       else None) = Some row'
    /\ g' = <[k := row']> g.
Proof.
  unfold InitialConditions.normalize_level. intros H.
  destruct (hFac !! k) as [frow|]; [|discriminate]. simpl in H.
  destruct (g !! k) as [row|]; [|discriminate]. simpl in H.
  unfold Np.bool_index in H. rewrite length_map in H.
  destruct (Nat.eqb_spec (length frow) (length row)) as [Hlen|]; [|discriminate].
  simpl in H. rewrite Nat.eqb_refl in H. simpl in H.
  unfold InitialConditions.bool_assign in H. rewrite length_map in H.
  destruct (Nat.eqb_spec (length frow) (length row)); [|contradiction].
  unfold Np.broadcast in H.
  rewrite length_zip_with in H.
  rewrite (length_select_eq _ row frow) in H by (rewrite length_map; lia).
  rewrite Nat.min_id, Nat.eqb_refl in H. simpl in H.
  rewrite put_normalize in H by lia.
  injection H as <-. eexists _, _. split; [reflexivity|]. split; [|reflexivity].
  simpl. rewrite Hlen, Nat.eqb_refl. reflexivity.
Qed.

Lemma normalize_levels hFac nlev g g' :
  Np.for_each (Np.range nlev) (InitialConditions.normalize_level hFac) g = Some g' ->
  forall k i v f, k < nlev -> Np.get2 g k i = Some v -> Np.get2 hFac k i = Some f ->
    Np.get2 g' k i = Some (if F64.ne0 f then F64.div v f else v).
Proof.
  intros H k i v f Hk Hv Hf.
  apply (for_each_rows (fun k row =>
           frow ← hFac !! k;
           if length frow =? length row
           then Some (zip_with (fun v f => if F64.ne0 f then F64.div v f else v) row frow)
           else None)) in H; [|apply normalize_level_row].
  destruct H as (_ & Hin & _).
  destruct (Hin k) as (row & row' & Hrow & Hnorm & Hrow'); [lia|].
  unfold Np.get2 in *. rewrite Hrow' . rewrite Hrow in Hv. simpl in *.
  destruct (hFac !! k) as [frow|]; [|discriminate]. simpl in *.
  destruct (length frow =? length row); [|discriminate].
  injection Hnorm as <-. rewrite lookup_zip_with, Hv, Hf. reflexivity.
Qed.

(** ** Slice assignment *)

Section Slices.
Context {A : Type}.

Lemma broadcast_length n (v v' : list A) :
  Np.broadcast n v = Some v' -> length v' = n.
Proof.
  unfold Np.broadcast. destruct (Nat.eqb_spec (length v) n) as [E|_].
  - intros [= <-]. exact E.
  - destruct v as [|x [|y v]]; try discriminate.
    intros [= <-]. apply length_replicate.
Qed.

Lemma broadcast_exact n (v : list A) : length v = n -> Np.broadcast n v = Some v.
Proof. intros E. unfold Np.broadcast. rewrite E, Nat.eqb_refl. reflexivity. Qed.

(** A slice that lies inside the array. *)
Lemma set_slice_inside (row row' v : list A) pc N :
  Np.set_slice row pc N v = Some row' -> pc + N <= length row ->
  exists v', Np.broadcast N v = Some v'
    /\ length row' = length row
    /\ (forall i, i < N -> row' !! (pc + i) = v' !! i)
    /\ (forall i, i < pc \/ pc + N <= i -> row' !! i = row !! i).
Proof.
  unfold Np.set_slice. intros H Hlen.
  assert (Hw : length (take N (drop pc row)) = N).
  { rewrite length_take, length_drop. lia. }
  rewrite Hw in H. apply bind_Some in H as (v' & Hb & [= <-]).
  pose proof (broadcast_length _ _ _ Hb) as Hv'.
  exists v'. split; [exact Hb|]. split; [|split].
  - rewrite !length_app, length_take, length_drop. lia.
  - intros i Hi. rewrite lookup_app_r by (rewrite length_take; lia).
    rewrite length_take. replace (pc + i - pc `min` length row) with i by lia.
    apply lookup_app_l. lia.
  - intros i [Hi|Hi].
    + rewrite lookup_app_l by (rewrite length_take; lia).
      apply lookup_take_lt. exact Hi.
    + rewrite lookup_app_r by (rewrite length_take; lia).
      rewrite lookup_app_r by (rewrite length_take; lia).
      rewrite lookup_drop, length_take. f_equal. lia.
Qed.
End Slices.

(** ** The loop over the levels and the loop over the tiles *)

Section Fill.
Variable nlev N L : nat.

Lemma fill_from_spec (src : nat -> option (list spec_float)) pc G G2 :
  InitialConditions.fill_from src nlev pc N G = Some G2 ->
  Forall (fun row => length row = L) G -> pc + N <= L ->
  Forall (fun row => length row = L) G2
  /\ (forall k i, i < pc \/ pc + N <= i -> Np.get2 G2 k i = Np.get2 G k i)
  /\ (forall k i, k < nlev -> i < N ->
        exists v v', src k = Some v /\ Np.broadcast N v = Some v'
                     /\ Np.get2 G2 k (pc + i) = v' !! i).
Proof.
  unfold InitialConditions.fill_from. intros H HG Hpc.
  apply (for_each_rows (fun k row => v ← src k; Np.set_slice row pc N v)) in H.
  2:{ intros k G0 G' Hb. apply bind_Some in Hb as (v & Hv & Hb).
      unfold Np.set_row_slice in Hb.
      apply bind_Some in Hb as (row & Hrow & Hb).
      apply bind_Some in Hb as (row' & Hset & [= <-]).
      exists row, row'. rewrite Hv. simpl. auto. }
  destruct H as (Hlen & Hin & Hout).
  assert (Hrows : forall k, k < nlev ->
            exists row row' v v', G !! k = Some row /\ G2 !! k = Some row'
              /\ src k = Some v /\ Np.broadcast N v = Some v'
              /\ length row' = L
              /\ (forall i, i < N -> row' !! (pc + i) = v' !! i)
              /\ (forall i, i < pc \/ pc + N <= i -> row' !! i = row !! i)).
  { intros k Hk. destruct (Hin k) as (row & row' & Hrow & Hstep & Hrow'); [unfold Np.range; lia|].
    apply bind_Some in Hstep as (v & Hv & Hset).
    pose proof (proj1 (Forall_lookup _ _) HG k row Hrow) as HL. simpl in HL.
    apply set_slice_inside in Hset as (v' & Hb & Hl' & Hi & Ho); [|lia].
    exists row, row', v, v'. repeat split; auto; try lia. }
  split; [|split].
  - apply Forall_lookup. intros k row' Hk.
    destruct (decide (k < nlev)) as [Hlt|Hge].
    + destruct (Hrows k Hlt) as (row & row2 & v & v' & _ & Hrow2 & _ & _ & HL & _).
      congruence.
    + rewrite Hout in Hk by lia.
      exact (proj1 (Forall_lookup _ _) HG k row' Hk).
  - intros k i Hi. unfold Np.get2.
    destruct (decide (k < nlev)) as [Hlt|Hge].
    + destruct (Hrows k Hlt) as (row & row2 & v & v' & -> & -> & _ & _ & _ & _ & Ho).
      simpl. apply Ho. exact Hi.
    + rewrite Hout by lia. reflexivity.
  - intros k i Hk Hi.
    destruct (Hrows k Hk) as (row & row2 & v & v' & _ & Hrow2 & Hv & Hb & _ & Hin' & _).
    exists v, v'. split; [exact Hv|]. split; [exact Hb|].
    unfold Np.get2. rewrite Hrow2. simpl. apply Hin'. exact Hi.
Qed.

Variable src : Z -> nat -> option (list spec_float).

Lemma fill_tiles_spec tiles : forall pc0 G0 st',
  Np.for_each tiles
    (fun tile st => G2 ← InitialConditions.fill_from (src tile) nlev st.1 N st.2;
                    Some (st.1 + N, G2)) (pc0, G0) = Some st' ->
  Forall (fun row => length row = L) G0 -> pc0 + N * length tiles <= L ->
  Forall (fun row => length row = L) st'.2
  /\ (forall k i, i < pc0 -> Np.get2 st'.2 k i = Np.get2 G0 k i)
  /\ (forall t tile k i, tiles !! t = Some tile -> k < nlev -> i < N ->
        exists v v', src tile k = Some v /\ Np.broadcast N v = Some v'
                     /\ Np.get2 st'.2 k (pc0 + t * N + i) = v' !! i).
Proof.
  induction tiles as [|tile tiles IH]; intros pc0 G0 st' H HG Hpc.
  - simpl in H. injection H as <-. simpl. split; [exact HG|]. split; [reflexivity|].
    intros t tile k i Ht. rewrite lookup_nil in Ht. discriminate.
  - rewrite for_each_cons in H. apply bind_Some in H as ([pc1 G1] & Hstep & Hrest).
    simpl in Hstep.
    apply bind_Some in Hstep as (G2 & Hfill & [= <- <-]).
    simpl length in Hpc.
    apply fill_from_spec in Hfill as (HG2 & Hout & Hin); [|exact HG|lia].
    apply IH in Hrest as (HG' & Hlow & Hrest); [|exact HG2|lia].
    split; [exact HG'|]. split.
    + intros k i Hi. rewrite Hlow by lia. apply Hout. lia.
    + intros [|t] tile' k i Ht Hk Hi; simpl in Ht.
      * injection Ht as <-. destruct (Hin k i Hk Hi) as (v & v' & Hv & Hb & Hget).
        exists v, v'. split; [exact Hv|]. split; [exact Hb|].
        rewrite Hlow by lia. simpl. rewrite Nat.add_0_r. exact Hget.
      * destruct (Hrest t tile' k i Ht Hk Hi) as (v & v' & Hv & Hb & Hget).
        exists v, v'. split; [exact Hv|]. split; [exact Hb|].
        rewrite <- Hget. f_equal. lia.
Qed.
End Fill.

Lemma length_zeros2 r c : Forall (fun row => length row = c) (Np.zeros2 r c).
Proof.
  unfold Np.zeros2. apply Forall_replicate. apply length_replicate.
Qed.

(** ** Shapes *)

Lemma rect2b_spec {A} r c (a : list (list A)) : Np.rect2b r c a = true <-> Np.rect2 r c a.
Proof.
  unfold Np.rect2b, Np.rect2. rewrite andb_true_iff, Nat.eqb_eq, forallb_forall, Forall_forall.
  split; intros [H1 H2]; (split; [exact H1|]); intros row Hrow.
  - apply Nat.eqb_eq, H2, list_elem_of_In, Hrow.
  - apply Nat.eqb_eq, H2, list_elem_of_In, Hrow.
Qed.

Lemma rect2_cols {A} r (a b : list (list A)) :
  Np.rect2 r (Np.cols b) a -> length b = r -> Np.cols a = Np.cols b.
Proof.
  intros [Hr Hc] Hb. destruct a as [|row a].
  - simpl in Hr. subst r. destruct b; [reflexivity|discriminate].
  - simpl. apply Forall_cons in Hc as [Hrow _]. exact Hrow.
Qed.

Lemma rect2_get2 {A} r c (a : list (list A)) i j :
  Np.rect2 r c a -> i < r -> j < c -> is_Some (Np.get2 a i j).
Proof.
  intros [Hr Hc] Hi Hj. unfold Np.get2.
  destruct (lookup_lt_is_Some_2 a i ltac:(lia)) as [row Hrow]. rewrite Hrow. simpl.
  apply lookup_lt_is_Some_2.
  rewrite (proj1 (Forall_lookup _ _) Hc i row Hrow). exact Hj.
Qed.

Lemma get2_bounds {A} r c (a : list (list A)) i j x :
  Np.rect2 r c a -> Np.get2 a i j = Some x -> i < r /\ j < c.
Proof.
  intros [Hr Hc] H. unfold Np.get2 in H.
  apply bind_Some in H as (row & Hrow & Hx).
  pose proof (lookup_lt_Some _ _ _ Hrow). pose proof (lookup_lt_Some _ _ _ Hx) as Hj.
  rewrite (proj1 (Forall_lookup _ _) Hc i row Hrow) in Hj. lia.
Qed.

Lemma broadcast2_rect {A} r c (v : list (list A)) :
  Np.rect2 r c v -> Np.broadcast2 r c v = Some v.
Proof.
  intros [Hr Hc]. unfold Np.broadcast2. rewrite broadcast_exact by exact Hr. simpl.
  apply mapM_Some. apply Forall2_same_length_lookup. split; [reflexivity|].
  intros i x y Hx Hy. assert (x = y) as -> by congruence.
  apply broadcast_exact. exact (proj1 (Forall_lookup _ _) Hc i y Hy).
Qed.

(** ** The interpolator, one level *)

Section Interpolator.
Variable kernel : list (point * spec_float) -> point -> option spec_float.

Lemma interpolate_level_spec coords values mask XC YC tm out :
  Eccoseas.interpolate_level kernel coords values mask XC YC tm = Some out ->
  Np.rect2 (Np.rows tm) (Np.cols tm) out
  /\ Np.rows XC = Np.rows tm /\ Np.cols XC = Np.cols tm
  /\ (forall i j m, Np.get2 tm i j = Some m ->
        exists q, Np.get2 out i j
                  = Some (Eccoseas.interpolate_cell kernel
                            (Eccoseas.valid_subset coords values mask) q m)).
Proof.
  unfold Eccoseas.interpolate_level. intros H.
  destruct (_ && _) eqn:E in H; [|discriminate]. injection H as <-.
  repeat (apply andb_true_iff in E as [E ?]).
  repeat match goal with H : Np.rect2b _ _ _ = true |- _ => apply rect2b_spec in H end.
  match goal with
  | HT : Np.rect2 _ _ tm, HX : Np.rect2 _ _ XC, HY : Np.rect2 _ _ YC |- _ =>
      rename HT into Htm; rename HX into HXC; rename HY into HYC
  end.
  assert (Hcell : forall i j m, Np.get2 tm i j = Some m ->
            exists q, Np.get2 (zip_with (fun qs ms =>
                         zip_with (Eccoseas.interpolate_cell kernel
                                     (Eccoseas.valid_subset coords values mask)) qs ms)
                       (zip_with zip XC YC) tm) i j
                  = Some (Eccoseas.interpolate_cell kernel
                            (Eccoseas.valid_subset coords values mask) q m)).
  { intros i j m Hm.
    destruct (get2_bounds _ _ _ _ _ _ Htm Hm) as [Hi Hj].
    destruct (rect2_get2 _ _ XC i j HXC Hi Hj) as [x Hx].
    destruct (rect2_get2 _ _ YC i j HYC Hi Hj) as [y Hy].
    exists (x, y). unfold Np.get2 in *.
    apply bind_Some in Hm as (mrow & Hmrow & Hm).
    apply bind_Some in Hx as (xrow & Hxrow & Hx).
    apply bind_Some in Hy as (yrow & Hyrow & Hy).
    rewrite !lookup_zip_with, Hxrow, Hyrow, Hmrow. simpl.
    rewrite !lookup_zip_with, Hx, Hy, Hm. reflexivity. }
  split; [|split; [|split]]; [| |exact (rect2_cols _ XC tm HXC eq_refl)|exact Hcell].
  - destruct Htm as [_ Htm], HXC as [HXr HXc], HYC as [HYr HYc].
    split.
    + rewrite !length_zip_with. unfold Np.rows in *. lia.
    + apply Forall_lookup. intros i row Hrow.
      rewrite !lookup_zip_with in Hrow.
      destruct (XC !! i) as [xr|] eqn:Ex; [|discriminate].
      destruct (YC !! i) as [yr|] eqn:Ey; [|discriminate].
      destruct (tm !! i) as [mr|] eqn:Em; [|discriminate].
      simpl in Hrow. injection Hrow as <-.
      rewrite length_zip_with, length_zip.
      rewrite (proj1 (Forall_lookup _ _) HXc i xr Ex).
      rewrite (proj1 (Forall_lookup _ _) HYc i yr Ey).
      rewrite (proj1 (Forall_lookup _ _) Htm i mr Em). lia.
  - destruct HXC as [HXr _]. exact HXr.
Qed.

(** Step 4 of the interpolator: a closed target cell holds 0. *)
Lemma interpolate_level_masked coords values mask XC YC tm out i j m :
  Eccoseas.interpolate_level kernel coords values mask XC YC tm = Some out ->
  Np.get2 tm i j = Some m -> F64.ne0 m = false ->
  Np.get2 out i j = Some F64.zero.
Proof.
  intros H Hm Hz. apply interpolate_level_spec in H as (_ & _ & _ & Hcell).
  destruct (Hcell i j m Hm) as (q & ->).
  unfold Eccoseas.interpolate_cell. rewrite Hz. reflexivity.
Qed.

(** ** The interpolator, all levels *)

Lemma downscale_levels_spec coords values mask XC YC tmask : forall k0 g,
  Eccoseas.downscale_levels kernel coords values mask XC YC k0 tmask = Some g ->
  length g = length tmask
  /\ (forall k tm, tmask !! k = Some tm ->
        exists v m out, values !! (k0 + k) = Some v /\ mask !! (k0 + k) = Some m
          /\ Eccoseas.interpolate_level kernel coords v m XC YC tm = Some out
          /\ g !! k = Some out).
Proof.
  induction tmask as [|tm tmask IH]; intros k0 g H; simpl in H.
  - injection H as <-. split; [reflexivity|]. intros k tm Hk.
    rewrite lookup_nil in Hk. discriminate.
  - apply bind_Some in H as (v & Hv & H).
    apply bind_Some in H as (m & Hm & H).
    apply bind_Some in H as (out & Hout & H).
    apply bind_Some in H as (gs & Hgs & [= <-]).
    apply IH in Hgs as (Hlen & Hrest).
    split; [simpl; congruence|].
    intros [|k] tm' Hk; simpl in Hk.
    + injection Hk as <-. exists v, m, out. rewrite Nat.add_0_r. auto.
    + destruct (Hrest k tm' Hk) as (v' & m' & out' & ? & ? & ? & ?).
      exists v', m', out'. replace (k0 + S k) with (S k0 + k) by lia. auto.
Qed.
End Interpolator.

(** ** The loop over the timesteps *)

Section Timesteps.
Variable interp : interp2D.
Variables (pts : list point) (src_mask : list spec_float).
Variables (XC YC surface_mask : list (list spec_float)).

Lemma interpolate_timesteps_spec exf_grid G :
  ExternalForcing.interpolate_timesteps interp pts src_mask XC YC surface_mask exf_grid
    = Some G ->
  length G = length exf_grid
  /\ (forall t slice, exf_grid !! t = Some slice ->
        exists v v', interp pts (Np.ravel2 slice) src_mask XC YC surface_mask = Some v
          /\ Np.broadcast2 (Np.rows XC) (Np.cols XC) v = Some v'
          /\ G !! t = Some v').
Proof.
  unfold ExternalForcing.interpolate_timesteps. intros H.
  apply (for_each_rows (fun t (_ : list (list spec_float)) =>
           slice ← exf_grid !! t;
           v ← interp pts (Np.ravel2 slice) src_mask XC YC surface_mask;
           Np.broadcast2 (Np.rows XC) (Np.cols XC) v)) in H.
  2:{ intros t G0 G' Hb. unfold ExternalForcing.interpolate_timestep in Hb.
      apply bind_Some in Hb as (slice & Hs & Hb).
      apply bind_Some in Hb as (v & Hv & Hb).
      unfold Np.set_level in Hb.
      apply bind_Some in Hb as (old & Hold & Hb).
      apply bind_Some in Hb as (v' & Hv' & [= <-]).
      exists old, v'. rewrite Hs. simpl. rewrite Hv. simpl. auto. }
  destruct H as (Hlen & Hin & _).
  unfold Np.zeros3 in Hlen. rewrite length_replicate in Hlen.
  split; [exact Hlen|].
  intros t slice Hs. pose proof (lookup_lt_Some _ _ _ Hs) as Ht.
  destruct (Hin t) as (old & v' & _ & Hstep & HG); [lia|].
  rewrite Hs in Hstep. simpl in Hstep.
  apply bind_Some in Hstep as (v & Hv & Hv').
  exists v, v'. auto.
Qed.
End Timesteps.

(** ** The unit conversions, cell by cell *)

Lemma get3_map3 f g t i j :
  Np.get3 (ExternalForcing.map3 f g) t i j = f <$> Np.get3 g t i j.
Proof.
  unfold Np.get3, ExternalForcing.map3. rewrite list_lookup_fmap.
  destruct (g !! t) as [lev|]; [|reflexivity]. simpl.
  rewrite list_lookup_fmap. destruct (lev !! i) as [row|]; [|reflexivity]. simpl.
  apply list_lookup_fmap.
Qed.

Lemma lookup_map3 f (g : list (list (list spec_float))) t :
  ExternalForcing.map3 f g !! t = map (map f) <$> g !! t.
Proof. unfold ExternalForcing.map3. apply list_lookup_fmap. Qed.

(** ** The tile rotations *)

Lemma for_each_ext {S X} (xs : list X) (b1 b2 : X -> S -> option S) s :
  (forall x s, b1 x s = b2 x s) -> Np.for_each xs b1 s = Np.for_each xs b2 s.
Proof.
  intros E. revert s. induction xs as [|x xs IH]; intros s; simpl; [reflexivity|].
  rewrite E. destruct (b2 x s); simpl; auto.
Qed.

Lemma fill_init_tile_UVEL f grid nlev N tile st :
  InitialConditions.fill_init_tile f grid "UVEL" nlev N tile st
  = (G2 ← InitialConditions.fill_from
            (fun k => InitialConditions.tile5
                        (if (tile <? 7)%Z then InitialConditions.UVELMASS_nc f
                         else InitialConditions.VVELMASS_nc f) k tile)
            nlev st.1 N st.2;
     Some (st.1 + N, G2)).
Proof.
  destruct st as [pc G]. unfold InitialConditions.fill_init_tile.
  change (String.eqb "UVEL" "ETAN") with false.
  change (contains "VEL" "UVEL") with true.
  change (String.eqb "UVEL" "UVEL") with true.
  change (String.eqb "UVEL" "VVEL") with false.
  cbv iota. simpl fst. simpl snd.
  destruct (tile <? 7)%Z;
    destruct (InitialConditions.fill_from _ nlev pc N G); reflexivity.
Qed.

(** The masked product entry by entry: -1 where UVELMASS is missing, -1
    times the stored value elsewhere. *)
Lemma minus_u_spec f k tile v :
  InitialConditions.minus_u f k tile = Some v ->
  exists u,
    InitialConditions.tile5 (InitialConditions.UVELMASS_nc f) k tile = Some u
    /\ length v = length u
    /\ forall (n : nat) x, u !! n = Some x ->
         v !! n = Some (if InitialConditions.u_missing f k tile n then F64.minus_one
                        else F64.mul F64.minus_one x).
Proof.
  unfold InitialConditions.minus_u. intros H.
  apply bind_Some in H as (u & Hu & H). injection H as <-.
  exists u. split; [exact Hu|]. unfold InitialConditions.negate. split.
  - apply length_imap.
  - intros n x Hx. rewrite list_lookup_imap, Hx. reflexivity.
Qed.

Lemma fill_init_tile_VVEL f grid nlev N tile st :
  InitialConditions.fill_init_tile f grid "VVEL" nlev N tile st
  = (G2 ← InitialConditions.fill_from
            (fun k => if (tile <? 7)%Z
                      then InitialConditions.tile5 (InitialConditions.VVELMASS_nc f) k tile
                      else InitialConditions.minus_u f k tile)
            nlev st.1 N st.2;
     Some (st.1 + N, G2)).
Proof.
  destruct st as [pc G]. unfold InitialConditions.fill_init_tile.
  change (String.eqb "VVEL" "ETAN") with false.
  change (contains "VEL" "VVEL") with true.
  change (String.eqb "VVEL" "UVEL") with false.
  change (String.eqb "VVEL" "VVEL") with true.
  cbv iota. simpl fst. simpl snd. simpl mbind at 1.
  destruct (tile <? 7)%Z; reflexivity.
Qed.

(** C8. In the array filled for UVEL or VVEL, the entry of level [k] at
    point [i] of the [t]-th tile in use comes, for a tile numbered below 7,
    from UVELMASS (UVEL) or VVELMASS (VVEL) unmodified, and for a tile
    numbered 7 or above from VVELMASS unmodified (UVEL) or from the masked
    product [-1 * UVELMASS] (VVEL): -1 times the UVELMASS value where
    UVELMASS is not missing, and -1.0 where it is missing. *)
Theorem tile_rotation (f : InitialConditions.ecco_fields) (grid : InitialConditions.nc_grid)
    (nlev N : nat) (tiles : list Z) :
  (forall filled t tile k i,
     Np.for_each tiles (InitialConditions.fill_init_tile f grid "UVEL" nlev N)
       (0, Np.zeros2 nlev (N * length tiles)) = Some filled ->
     tiles !! t = Some tile -> k < nlev -> i < N ->
     exists v v',
       InitialConditions.tile5
         (if (tile <? 7)%Z then InitialConditions.UVELMASS_nc f
          else InitialConditions.VVELMASS_nc f) k tile = Some v
       /\ Np.broadcast N v = Some v'
       /\ Np.get2 filled.2 k (t * N + i) = v' !! i)
  /\ (forall filled t tile k i,
     Np.for_each tiles (InitialConditions.fill_init_tile f grid "VVEL" nlev N)
       (0, Np.zeros2 nlev (N * length tiles)) = Some filled ->
     tiles !! t = Some tile -> k < nlev -> i < N ->
     exists v v',
       (if (tile <? 7)%Z
        then InitialConditions.tile5 (InitialConditions.VVELMASS_nc f) k tile
        else InitialConditions.minus_u f k tile) = Some v
       /\ Np.broadcast N v = Some v'
       /\ Np.get2 filled.2 k (t * N + i) = v' !! i
       /\ ((tile <? 7)%Z = false ->
           exists u,
             InitialConditions.tile5 (InitialConditions.UVELMASS_nc f) k tile = Some u
             /\ length v = length u
             /\ forall (n : nat) x, u !! n = Some x ->
                  v !! n = Some (if InitialConditions.u_missing f k tile n
                                 then F64.minus_one
                                 else F64.mul F64.minus_one x))).
Proof.
  split; intros filled t tile k i Hrun Ht Hk Hi.
  - rewrite (for_each_ext _ _ _ _ (fill_init_tile_UVEL f grid nlev N)) in Hrun.
    eapply (fill_tiles_spec nlev N (N * length tiles)) in Hrun
      as (_ & _ & Hin); [|apply length_zeros2|lia].
    destruct (Hin t tile k i Ht Hk Hi) as (v & v' & Hv & Hb & Hget).
    exists v, v'. auto.
  - rewrite (for_each_ext _ _ _ _ (fill_init_tile_VVEL f grid nlev N)) in Hrun.
    eapply (fill_tiles_spec nlev N (N * length tiles)) in Hrun
      as (_ & _ & Hin); [|apply length_zeros2|lia].
    destruct (Hin t tile k i Ht Hk Hi) as (v & v' & Hv & Hb & Hget).
    exists v, v'. split; [exact Hv|]. split; [exact Hb|]. split; [exact Hget|].
    intros E. rewrite E in Hv. apply minus_u_spec. exact Hv.
Qed.

(** ** The corrections and the longitude filter *)

(** C2. After the corrections, entry (k, i) of the UVEL array is the raw
    value divided by hFacW(k, i) where that factor is non-zero and the raw
    value itself where it is zero; likewise for VVEL with hFacS. *)
Theorem velocity_normalization (p : InitialConditions.ecco_points) (nlev : nat)
    (g g' : list (list spec_float)) (k i : nat) (v f : spec_float) :
  k < nlev -> Np.get2 g k i = Some v ->
  (InitialConditions.apply_corrections p "UVEL" nlev g = Some g' ->
   Np.get2 (InitialConditions.ecco_hFacW_points p) k i = Some f ->
   Np.get2 g' k i = Some (if F64.ne0 f then F64.div v f else v))
  /\ (InitialConditions.apply_corrections p "VVEL" nlev g = Some g' ->
   Np.get2 (InitialConditions.ecco_hFacS_points p) k i = Some f ->
   Np.get2 g' k i = Some (if F64.ne0 f then F64.div v f else v)).
Proof.
  intros Hk Hv. unfold InitialConditions.apply_corrections. split.
  - change (String.eqb "UVEL" "UVEL") with true.
    change (String.eqb "UVEL" "VVEL") with false. cbv iota.
    intros H Hf. apply bind_Some in H as (g1 & H & [= <-]).
    eapply normalize_levels; eauto.
  - change (String.eqb "VVEL" "UVEL") with false.
    change (String.eqb "VVEL" "VVEL") with true. cbv iota.
    simpl mbind at 1. intros H Hf.
    eapply normalize_levels; eauto.
Qed.

(** The filter of step 4: every longitude kept is negative, and the
    coordinates, the per-level mask and hFac entries and the columns of any
    array indexed by [local_indices] are all taken at the same index set, the
    positions where the longitude is negative. *)
Lemma filter_index_set (p p' : InitialConditions.ecco_points) :
  InitialConditions.remove_positive_longitudes p = Some p' ->
  let idx := Np.positions (InitialConditions.local_indices p) in
  Forall (fun x => F64.lt0 x = true) (InitialConditions.ecco_XC_points p')
  /\ (forall j, InitialConditions.ecco_XC_points p' !! j
                = idx !! j ≫= fun i => InitialConditions.ecco_XC_points p !! i)
  /\ (forall j, InitialConditions.ecco_YC_points p' !! j
                = idx !! j ≫= fun i => InitialConditions.ecco_YC_points p !! i)
  /\ (forall k j, Np.get2 (InitialConditions.ecco_mask_points p') k j
                  = idx !! j ≫= fun i => Np.get2 (InitialConditions.ecco_mask_points p) k i)
  /\ (forall k j, Np.get2 (InitialConditions.ecco_hFacC_points p') k j
                  = idx !! j ≫= fun i => Np.get2 (InitialConditions.ecco_hFacC_points p) k i)
  /\ (forall k j, Np.get2 (InitialConditions.ecco_hFacW_points p') k j
                  = idx !! j ≫= fun i => Np.get2 (InitialConditions.ecco_hFacW_points p) k i)
  /\ (forall k j, Np.get2 (InitialConditions.ecco_hFacS_points p') k j
                  = idx !! j ≫= fun i => Np.get2 (InitialConditions.ecco_hFacS_points p) k i)
  /\ (forall (filled init_grid : list (list spec_float)) k j,
        Np.bool_index_cols (InitialConditions.local_indices p) filled = Some init_grid ->
        Np.get2 init_grid k j = idx !! j ≫= fun i => Np.get2 filled k i)
  /\ (forall pts,
        Np.column_stack (InitialConditions.ecco_XC_points p')
                        (InitialConditions.ecco_YC_points p') = Some pts ->
        Forall (fun q => F64.lt0 q.1 = true) pts).
Proof.
  intros H idx. unfold InitialConditions.remove_positive_longitudes in H.
  apply bind_Some in H as (m & Hm & H).
  apply bind_Some in H as (c & Hc & H).
  apply bind_Some in H as (w & Hw & H).
  apply bind_Some in H as (s & Hs & H).
  apply bind_Some in H as (ys & Hys & H).
  apply bind_Some in H as (xs & Hxs & [= <-]). simpl.
  assert (Hneg : Forall (fun x => F64.lt0 x = true) xs).
  { unfold Np.bool_index, InitialConditions.local_indices in Hxs.
    destruct (_ =? _) in Hxs; [|discriminate]. injection Hxs as <-.
    apply select_self_lt0. }
  repeat split.
  - exact Hneg.
  - intros j. eapply bool_index_lookup. exact Hxs.
  - intros j. eapply bool_index_lookup. exact Hys.
  - intros k j. eapply bool_index_cols_lookup. exact Hm.
  - intros k j. eapply bool_index_cols_lookup. exact Hc.
  - intros k j. eapply bool_index_cols_lookup. exact Hw.
  - intros k j. eapply bool_index_cols_lookup. exact Hs.
  - intros filled init_grid k j Hf. eapply bool_index_cols_lookup. exact Hf.
  - intros pts Hpts. unfold Np.column_stack in Hpts.
    destruct (_ =? _) in Hpts; [|discriminate]. injection Hpts as <-.
    apply Forall_lookup. intros j [x y] Hj. simpl.
    apply lookup_zip_with_Some in Hj as (x' & y' & [= <- <-] & Hx & _).
    exact (proj1 (Forall_lookup _ _) Hneg j x Hx).
Qed.

(** ** The interpolated fields *)

Lemma convert_lookup_Some name (g : list (list (list spec_float))) t lev :
  g !! t = Some lev ->
  ExternalForcing.convert name g !! t = ExternalForcing.convert name [lev] !! 0.
Proof.
  intros Hg. unfold ExternalForcing.convert.
  destruct (String.eqb name "ATEMP"), (existsb (String.eqb name) ["SWDOWN"; "LWDOWN"]);
    rewrite ?lookup_map3, ?Hg; reflexivity.
Qed.

Lemma convert_lookup_None name (g : list (list (list spec_float))) t :
  g !! t = None -> ExternalForcing.convert name g !! t = None.
Proof.
  intros Hg. unfold ExternalForcing.convert.
  destruct (String.eqb name "ATEMP"), (existsb (String.eqb name) ["SWDOWN"; "LWDOWN"]);
    rewrite ?lookup_map3, ?Hg; reflexivity.
Qed.

(** A closed cell of the surface mask holds 0 at every timestep of the
    array the interpolation loop fills. *)
Lemma timestep_masked_cell
    (kernel : list (point * spec_float) -> point -> option spec_float)
    pts src_mask XC YC surface_mask exf_grid g t i j m :
  ExternalForcing.interpolate_timesteps (Eccoseas.downscale_2D_points_with_zeros kernel)
    pts src_mask XC YC surface_mask exf_grid = Some g ->
  t < length exf_grid ->
  Np.get2 surface_mask i j = Some m ->
  F64.ne0 m = false ->
  Np.get3 g t i j = Some F64.zero.
Proof.
  intros Hrun Ht Hm Hz.
  apply interpolate_timesteps_spec in Hrun as (_ & Hsteps).
  destruct (lookup_lt_is_Some_2 exf_grid t Ht) as [slice Hslice].
  destruct (Hsteps t slice Hslice) as (v & v' & Hv & Hb & Hg).
  unfold Eccoseas.downscale_2D_points_with_zeros in Hv.
  pose proof (interpolate_level_spec kernel _ _ _ _ _ _ _ Hv) as (Hrect & Hr & Hc & _).
  rewrite Hr, Hc, broadcast2_rect in Hb by exact Hrect. injection Hb as <-.
  unfold Np.get3. rewrite Hg. simpl.
  exact (interpolate_level_masked kernel _ _ _ _ _ _ _ i j m Hv Hm Hz).
Qed.

(** C1. A target cell whose mask is false holds exactly 0 in the
    interpolated field, whatever the kernel: at every level of the initial
    conditions, and at every timestep of the forcing fields. *)
Theorem masked_cells_zero
    (kernel : list (point * spec_float) -> point -> option spec_float) :
  (forall p XC YC mask name init_grid g k i j m,
     InitialConditions.interpolate (Eccoseas.downscale_3D_points kernel)
       p XC YC mask name init_grid = Some g ->
     Np.get3 (InitialConditions.model_mask name mask) k i j = Some m ->
     F64.ne0 m = false ->
     Np.get3 g k i j = Some F64.zero)
  /\ (forall pts src_mask XC YC surface_mask exf_grid g t i j m,
     ExternalForcing.interpolate_timesteps (Eccoseas.downscale_2D_points_with_zeros kernel)
       pts src_mask XC YC surface_mask exf_grid = Some g ->
     t < length exf_grid ->
     Np.get2 surface_mask i j = Some m ->
     F64.ne0 m = false ->
     Np.get3 g t i j = Some F64.zero).
Proof.
  split.
  - intros p XC YC mask name init_grid g k i j m Hrun Hm Hz.
    unfold InitialConditions.interpolate in Hrun.
    apply bind_Some in Hrun as (pts & _ & Hrun).
    unfold Eccoseas.downscale_3D_points in Hrun.
    apply downscale_levels_spec in Hrun as (_ & Hlev).
    unfold Np.get3 in Hm. apply bind_Some in Hm as (tm & Htm & Hm).
    destruct (Hlev k tm Htm) as (v & sm & out & _ & _ & Hout & Hg).
    unfold Np.get3. rewrite Hg. simpl.
    eapply (interpolate_level_masked kernel) in Hout; [exact Hout| |exact Hz].
    exact Hm.
  - intros pts src_mask XC YC surface_mask exf_grid g t i j m.
    apply timestep_masked_cell.
Qed.

(** What the forcing file holds at a closed cell: the conversion comes after
    the masking, so ATEMP holds 273.15 there and SWDOWN and LWDOWN hold -0. *)
Lemma masked_cells_after_conversion
    (kernel : list (point * spec_float) -> point -> option spec_float)
    pts src_mask XC YC surface_mask name exf_grid W t i j m :
  ExternalForcing.forcing_field (Eccoseas.downscale_2D_points_with_zeros kernel)
    pts src_mask XC YC surface_mask name exf_grid = Some W ->
  t < length exf_grid ->
  Np.get2 surface_mask i j = Some m ->
  F64.ne0 m = false ->
  Np.get3 W t i j
  = Some (if String.eqb name "ATEMP" then F64.lit_273_15
          else if existsb (String.eqb name) ["SWDOWN"; "LWDOWN"] then S754_zero true
               else F64.zero).
Proof.
  unfold ExternalForcing.forcing_field. intros HW Ht Hm Hz.
  apply fmap_Some in HW as (G & HG & ->).
  pose proof (timestep_masked_cell kernel pts src_mask XC YC surface_mask
                exf_grid G t i j m HG Ht Hm Hz) as Hcell.
  unfold ExternalForcing.convert.
  destruct (String.eqb name "ATEMP") eqn:Ea.
  - apply String.eqb_eq in Ea as ->. simpl existsb. cbv iota.
    rewrite get3_map3, Hcell. reflexivity.
  - destruct (existsb (String.eqb name) ["SWDOWN"; "LWDOWN"]).
    + rewrite get3_map3, Hcell. reflexivity.
    + exact Hcell.
Qed.

(** C6. The output at timestep [t] depends on the source values at
    timestep [t] only: it is the conversion of the interpolation of that
    slice against the one target mask, so two runs that agree at [t] give the
    same output at [t]. *)
Theorem timesteps_independent (interp : interp2D)
    (pts : list point) (src_mask : list spec_float)
    (XC YC surface_mask : list (list spec_float)) (name : string)
    (exf1 exf2 out1 out2 : list (list (list spec_float))) (t : nat) :
  ExternalForcing.forcing_field interp pts src_mask XC YC surface_mask name exf1 = Some out1 ->
  ExternalForcing.forcing_field interp pts src_mask XC YC surface_mask name exf2 = Some out2 ->
  exf1 !! t = exf2 !! t ->
  out1 !! t = out2 !! t
  /\ (forall slice, exf1 !! t = Some slice ->
        exists v v',
          interp pts (Np.ravel2 slice) src_mask XC YC surface_mask = Some v
          /\ Np.broadcast2 (Np.rows XC) (Np.cols XC) v = Some v'
          /\ out1 !! t = ExternalForcing.convert name [v'] !! 0).
Proof.
  unfold ExternalForcing.forcing_field. intros H1 H2 Ht.
  apply fmap_Some in H1 as (G1 & H1 & ->). apply fmap_Some in H2 as (G2 & H2 & ->).
  apply interpolate_timesteps_spec in H1 as (Hl1 & Hs1).
  apply interpolate_timesteps_spec in H2 as (Hl2 & Hs2).
  assert (Hslice : forall slice, exf1 !! t = Some slice ->
            exists v v',
              interp pts (Np.ravel2 slice) src_mask XC YC surface_mask = Some v
              /\ Np.broadcast2 (Np.rows XC) (Np.cols XC) v = Some v'
              /\ G1 !! t = Some v' /\ G2 !! t = Some v').
  { intros slice Hs. destruct (Hs1 t slice Hs) as (v & v' & Hv & Hb & Hg1).
    rewrite Ht in Hs. destruct (Hs2 t slice Hs) as (w & w' & Hw & Hb' & Hg2).
    assert (w = v) as -> by congruence. assert (w' = v') as -> by congruence.
    exists v, v'. auto. }
  split.
  - destruct (exf1 !! t) as [slice|] eqn:E.
    + destruct (Hslice slice eq_refl) as (v & v' & _ & _ & Hg1 & Hg2).
      rewrite (convert_lookup_Some name G1 t v' Hg1), (convert_lookup_Some name G2 t v' Hg2).
      reflexivity.
    + rewrite !convert_lookup_None; [reflexivity| |].
      * apply lookup_ge_None. rewrite Hl2. apply lookup_ge_None. congruence.
      * apply lookup_ge_None. rewrite Hl1. apply lookup_ge_None. exact E.
  - intros slice Hs. destruct (Hslice slice Hs) as (v & v' & Hv & Hb & Hg1 & _).
    exists v, v'. split; [exact Hv|]. split; [exact Hb|].
    apply convert_lookup_Some. exact Hg1.
Qed.



(** C9. Between the interpolation and the write, every cell of every
    timestep of ATEMP has 273.15 added, every cell of SWDOWN and LWDOWN is
    multiplied by -1, and the cells of every other variable are written as
    interpolated. *)
Theorem unit_conversions (interp : interp2D)
    (pts : list point) (src_mask : list spec_float)
    (XC YC surface_mask : list (list spec_float)) (input_dir name : string)
    (exf_grid G : list (list (list spec_float))) (fs : gmap string (list byte)) :
  ExternalForcing.interpolate_timesteps interp pts src_mask XC YC surface_mask exf_grid
    = Some G ->
  exists W,
    ExternalForcing.interpolate_and_write interp pts src_mask XC YC surface_mask
      input_dir (name, exf_grid) fs
    = Some (tofile (ExternalForcing.output_file input_dir name) (Np.ravel3 W) fs)
    /\ (forall t i j,
          Np.get3 W t i j
          = (fun x => if decide (name = "ATEMP") then F64.add x F64.lit_273_15
                      else if decide (name = "SWDOWN" \/ name = "LWDOWN")
                           then F64.mul x F64.minus_one
                           else x) <$> Np.get3 G t i j).
Proof.
  intros HG. exists (ExternalForcing.convert name G). split.
  - unfold ExternalForcing.interpolate_and_write, ExternalForcing.forcing_field.
    simpl. rewrite HG. reflexivity.
  - intros t i j. unfold ExternalForcing.convert. simpl existsb.
    destruct (decide (name = "ATEMP")) as [->|Hne].
    + simpl. apply get3_map3.
    + apply String.eqb_neq in Hne as ->.
      destruct (decide (name = "SWDOWN" \/ name = "LWDOWN")) as [[->| ->]|Hno].
      * simpl. apply get3_map3.
      * simpl. apply get3_map3.
      * assert (String.eqb name "SWDOWN" = false) as ->
          by (apply String.eqb_neq; intros ->; tauto).
        assert (String.eqb name "LWDOWN" = false) as ->
          by (apply String.eqb_neq; intros ->; tauto).
        simpl. destruct (Np.get3 G t i j); reflexivity.
Qed.

(** ** Paths *)

Lemma path_join_inj dir a b :
  is_abs a = false -> is_abs b = false -> path_join dir a = path_join dir b -> a = b.
Proof.
  unfold path_join. intros -> ->. destruct (decide (dir = "")); [auto|].
  destruct (String.eqb _ "/").
  - apply (inj (String.app dir)).
  - intros H. apply (inj (String.app dir)) in H. apply (inj (String.app "/")) in H. exact H.
Qed.

Lemma path_join_ne dir a b :
  is_abs a = false -> is_abs b = false -> a <> b -> path_join dir a <> path_join dir b.
Proof. intros Ha Hb Hne H. apply Hne. eapply path_join_inj; eassumption. Qed.

(** ** The written file, whatever else the file system holds *)

Lemma tofile_lookup path a fs : tofile path a fs !! path = Some (to_f4_bytes a).
Proof. unfold tofile. apply lookup_insert_eq. Qed.

(** C3. Writing an interpolated field whose finite values are
    float32-representable and reading the file back as big-endian float32
    with the documented shape gives the same array: (levels, rows, cols) for
    a multi-level field of the initial conditions, (rows, cols) for ETAN, and
    (timesteps, rows, cols) for a forcing field. *)
Theorem f4_round_trip :
  (forall (ds : interp3D) p XC YC mask input_dir name init_grid fs fs' g,
     InitialConditions.interpolate ds p XC YC mask name init_grid = Some g ->
     InitialConditions.interpolate_and_write ds p XC YC mask input_dir (name, init_grid) fs
       = Some fs' ->
     f32_exact (Np.ravel3 g) ->
     (Np.rect3 (length InitialConditions.delR) (Np.rows XC) (Np.cols XC) g ->
      exists g32, InitialConditions.read_back input_dir name XC fs' = Some g32
                  /\ map (map (map F32.to_f64)) g32 = g)
     /\ (name = "ETAN" -> Np.rect3 1 (Np.rows XC) (Np.cols XC) g ->
         exists m32, InitialConditions.read_back_ETAN input_dir XC fs' = Some m32
                     /\ [map (map F32.to_f64) m32] = g))
  /\ (forall (interp : interp2D) pts src_mask XC YC surface_mask input_dir name exf_grid
        fs fs' W l r c,
     ExternalForcing.forcing_field interp pts src_mask XC YC surface_mask name exf_grid
       = Some W ->
     ExternalForcing.interpolate_and_write interp pts src_mask XC YC surface_mask
       input_dir (name, exf_grid) fs = Some fs' ->
     f32_exact (Np.ravel3 W) -> Np.rect3 l r c W ->
     exists W32,
       fromfile (ExternalForcing.output_file input_dir name) fs' ≫= Np.reshape3 l r c
         = Some W32
       /\ map (map (map F32.to_f64)) W32 = W).
Proof.
  split.
  - intros ds p XC YC mask input_dir name init_grid fs fs' g Hg Hw Hx.
    unfold InitialConditions.interpolate_and_write in Hw. simpl in Hw.
    rewrite Hg in Hw. simpl in Hw. injection Hw as <-. split.
    + intros Hrect. unfold InitialConditions.read_back.
      apply f4_roundtrip3; assumption.
    + intros -> Hrect. destruct Hrect as [Hl Hlev].
      destruct g as [|m [|m' g]]; try discriminate.
      apply Forall_cons in Hlev as [Hm _].
      destruct (f4_roundtrip2 (InitialConditions.output_file input_dir "ETAN") fs
                  _ _ m Hm Hx) as (m32 & Hread & Hwiden).
      exists m32. split; [exact Hread|]. rewrite Hwiden. reflexivity.
  - intros interp pts src_mask XC YC surface_mask input_dir name exf_grid fs fs' W l r c
      HW Hw Hx Hrect.
    unfold ExternalForcing.interpolate_and_write in Hw. simpl in Hw.
    rewrite HW in Hw. simpl in Hw. injection Hw as <-.
    apply f4_roundtrip3; assumption.
Qed.

Lemma f4_layout3 l r c (g : list (list (list spec_float))) :
  Np.rect3 l r c g ->
  length (to_f4_bytes (Np.ravel3 g)) = 4 * (l * (r * c))
  /\ (forall k i j x, Np.get3 g k i j = Some x ->
        take 4 (drop (4 * ((k * r + i) * c + j)) (to_f4_bytes (Np.ravel3 g)))
        = F32.be_bytes (F32.to_bits (F32.of_f64 x))).
Proof.
  intros Hg. split.
  - rewrite length_to_f4_bytes, (length_ravel3 l r c) by exact Hg. lia.
  - intros k i j x Hx. unfold Np.get3 in Hx.
    apply bind_Some in Hx as (lev & Hlev & Hx).
    apply bind_Some in Hx as (row & Hrow & Hx).
    rewrite Nat.mul_comm. apply f4_layout.
    assert (j < c).
    { destruct Hg as [_ Hg].
      destruct (proj1 (Forall_lookup _ _) Hg k lev Hlev) as [_ Hc].
      rewrite <- (proj1 (Forall_lookup _ _) Hc i row Hrow).
      eapply lookup_lt_Some. exact Hx. }
    rewrite (lookup_ravel3 l r c g k i j lev row) by assumption. exact Hx.
Qed.

(** C4. Every file written is flat and headerless: it holds 4 bytes per
    array element and nothing else, the element (k, i, j) of a field of shape
    (l, r, c) at byte offset 4*((k*r + i)*c + j), so that columns vary
    fastest, then rows, then levels (or timesteps), and the 4 bytes are the
    binary32 pattern of the element, most significant byte first. This holds
    for the initial-condition files, the forcing files and the zero-wind
    files. *)
Theorem flat_big_endian_layout :
  (forall (ds : interp3D) p XC YC mask input_dir name init_grid fs fs' g l r c,
     InitialConditions.interpolate ds p XC YC mask name init_grid = Some g ->
     InitialConditions.interpolate_and_write ds p XC YC mask input_dir (name, init_grid) fs
       = Some fs' ->
     Np.rect3 l r c g ->
     exists bytes,
       fs' !! InitialConditions.output_file input_dir name = Some bytes
       /\ length bytes = 4 * (l * (r * c))
       /\ (forall k i j x, Np.get3 g k i j = Some x ->
             take 4 (drop (4 * ((k * r + i) * c + j)) bytes)
             = F32.be_bytes (F32.to_bits (F32.of_f64 x))))
  /\ (forall (interp : interp2D) pts src_mask XC YC surface_mask input_dir name exf_grid
        fs fs' W l r c,
     ExternalForcing.forcing_field interp pts src_mask XC YC surface_mask name exf_grid
       = Some W ->
     ExternalForcing.interpolate_and_write interp pts src_mask XC YC surface_mask
       input_dir (name, exf_grid) fs = Some fs' ->
     Np.rect3 l r c W ->
     exists bytes,
       fs' !! ExternalForcing.output_file input_dir name = Some bytes
       /\ length bytes = 4 * (l * (r * c))
       /\ (forall k i j x, Np.get3 W k i j = Some x ->
             take 4 (drop (4 * ((k * r + i) * c + j)) bytes)
             = F32.be_bytes (F32.to_bits (F32.of_f64 x))))
  /\ (forall input_dir name fs fs' src,
     fromfile (ExternalForcing.output_file input_dir name) fs = Some src ->
     ExternalForcing.zero_wind input_dir name fs = Some fs' ->
     exists bytes,
       fs' !! ExternalForcing.zero_file input_dir name = Some bytes
       /\ length bytes = 4 * length src
       /\ (forall n x, src !! n = Some x ->
             take 4 (drop (4 * n) bytes)
             = F32.be_bytes (F32.to_bits (F32.mul x (F32.of_Z 0))))).
Proof.
  split; [|split].
  - intros ds p XC YC mask input_dir name init_grid fs fs' g l r c Hg Hw Hrect.
    unfold InitialConditions.interpolate_and_write in Hw. simpl in Hw.
    rewrite Hg in Hw. simpl in Hw. injection Hw as <-.
    exists (to_f4_bytes (Np.ravel3 g)). split; [apply tofile_lookup|].
    apply f4_layout3. exact Hrect.
  - intros interp pts src_mask XC YC surface_mask input_dir name exf_grid fs fs' W l r c
      HW Hw Hrect.
    unfold ExternalForcing.interpolate_and_write in Hw. simpl in Hw.
    rewrite HW in Hw. simpl in Hw. injection Hw as <-.
    exists (to_f4_bytes (Np.ravel3 W)). split; [apply tofile_lookup|].
    apply f4_layout3. exact Hrect.
  - intros input_dir name fs fs' src Hsrc Hw.
    unfold ExternalForcing.zero_wind in Hw. rewrite Hsrc in Hw. simpl in Hw.
    injection Hw as <-.
    exists (concat (map F32.encode (ExternalForcing.times_zero src))).
    split; [apply lookup_insert_eq|]. split.
    + rewrite (length_concat_rect 4).
      * unfold ExternalForcing.times_zero. rewrite !length_map. lia.
      * apply Forall_map, Forall_true. intros y. reflexivity.
    + intros n x Hn. rewrite Nat.mul_comm.
      apply (concat_row 4 (map F32.encode (ExternalForcing.times_zero src)) n).
      * apply Forall_map, Forall_true. intros y. reflexivity.
      * unfold ExternalForcing.times_zero. rewrite !list_lookup_fmap, Hn. reflexivity.
Qed.

(** ** The zero-wind files *)

Lemma times_zero_valid src :
  Forall (fun w => F32.valid w = true) (ExternalForcing.times_zero src).
Proof.
  unfold ExternalForcing.times_zero. apply Forall_map, Forall_true.
  intros [s|s| |s m e]; reflexivity.
Qed.

Lemma zero_wind_spec input_dir name fs fs' :
  ExternalForcing.zero_wind input_dir name fs = Some fs' ->
  exists wind,
    fs !! ExternalForcing.output_file input_dir name = Some wind
    /\ fs' = <[ExternalForcing.zero_file input_dir name
                := concat (map F32.encode
                             (ExternalForcing.times_zero (from_f4_bytes wind)))]> fs.
Proof.
  unfold ExternalForcing.zero_wind, fromfile. intros H.
  apply bind_Some in H as (src & Hsrc & [= <-]).
  apply bind_Some in Hsrc as (wind & Hwind & [= <-]).
  exists wind. split; [exact Hwind|reflexivity].
Qed.

Lemma fromfile_insert_ne path path' bs fs :
  path <> path' -> fromfile path' (<[path := bs]> fs) = fromfile path' fs.
Proof. intros Hne. unfold fromfile. rewrite lookup_insert_ne by exact Hne. reflexivity. Qed.

Lemma zero_file_ne_output input_dir name name' :
  (name = "UWIND" \/ name = "VWIND") -> (name' = "UWIND" \/ name' = "VWIND") ->
  ExternalForcing.zero_file input_dir name <> ExternalForcing.output_file input_dir name'.
Proof.
  intros [-> | ->] [-> | ->]; apply path_join_ne; vm_compute; congruence.
Qed.

Lemma zero_file_ne_zero input_dir :
  ExternalForcing.zero_file input_dir "UWIND" <> ExternalForcing.zero_file input_dir "VWIND".
Proof. apply path_join_ne; vm_compute; congruence. Qed.

(** The zero-wind files in general. A zero-wind file holds as many float32
    elements as the wind file it is made from (a quarter of its bytes), which
    stays as it was; each element is the float32 product of the wind value
    and 0: a zero of the wind value's sign for a finite wind value, a NaN
    for an infinite one or a NaN. *)
Lemma zero_wind_files (input_dir name : string) (fs fs' : gmap string (list byte)) :
  ExternalForcing.make_zero_winds input_dir fs = Some fs' ->
  name = "UWIND" \/ name = "VWIND" ->
  exists wind zero,
    fs !! ExternalForcing.output_file input_dir name = Some wind
    /\ fs' !! ExternalForcing.output_file input_dir name = Some wind
    /\ fs' !! ExternalForcing.zero_file input_dir name = Some zero
    /\ length (from_f4_bytes wind) = length wind / 4
    /\ length zero = 4 * (length wind / 4)
    /\ length (from_f4_bytes zero) = length (from_f4_bytes wind)
    /\ (forall n x, from_f4_bytes wind !! n = Some x ->
          from_f4_bytes zero !! n
          = Some (match x with
                  | S754_zero s | S754_finite s _ _ => S754_zero s
                  | _ => S754_nan
                  end)).
Proof.
  unfold ExternalForcing.make_zero_winds. intros H Hname.
  apply bind_Some in H as (fs1 & Hu & Hv).
  apply zero_wind_spec in Hu as (ubytes & Hus & ->).
  apply zero_wind_spec in Hv as (vbytes & Hvs & ->).
  rewrite lookup_insert_ne in Hvs by (apply zero_file_ne_output; auto).
  assert (Hout : forall wind,
            exists zero, zero = concat (map F32.encode
                                          (ExternalForcing.times_zero (from_f4_bytes wind)))
              /\ length (from_f4_bytes wind) = length wind / 4
              /\ length zero = 4 * (length wind / 4)
              /\ length (from_f4_bytes zero) = length (from_f4_bytes wind)
              /\ (forall n x, from_f4_bytes wind !! n = Some x ->
                    from_f4_bytes zero !! n
                    = Some (match x with
                            | S754_zero s | S754_finite s _ _ => S754_zero s
                            | _ => S754_nan
                            end))).
  { intros wind. eexists. split; [reflexivity|].
    rewrite from_f4_bytes_encode by apply times_zero_valid.
    split; [apply length_from_f4_bytes|]. split; [|split].
    - rewrite (length_concat_rect 4).
      + unfold ExternalForcing.times_zero.
        rewrite !length_map, length_from_f4_bytes. lia.
      + apply Forall_map, Forall_true. intros y. reflexivity.
    - unfold ExternalForcing.times_zero. apply length_map.
    - intros n x Hn. unfold ExternalForcing.times_zero.
      rewrite list_lookup_fmap, Hn. simpl.
      destruct x as [[]|[]| |[] m e]; reflexivity. }
  destruct Hname as [-> | ->].
  - destruct (Hout ubytes) as (zero & -> & Hrest).
    exists ubytes. eexists. split; [exact Hus|]. split; [|split; [|exact Hrest]].
    + rewrite !lookup_insert_ne by (apply zero_file_ne_output; auto). exact Hus.
    + rewrite lookup_insert_ne by (apply not_eq_sym, zero_file_ne_zero).
      apply lookup_insert_eq.
  - destruct (Hout vbytes) as (zero & -> & Hrest).
    exists vbytes. eexists. split; [exact Hvs|]. split; [|split; [|exact Hrest]].
    + rewrite !lookup_insert_ne by (apply zero_file_ne_output; auto). exact Hvs.
    + apply lookup_insert_eq.
Qed.

(* ===================================================================== *)
(** * Further properties of the two notebooks *)
(* ===================================================================== *)

(** ** Loops: invariants and failures *)

Lemma for_each_inv {S X} (P : S -> Prop) (xs : list X) (body : X -> S -> option S) s s' :
  (forall x s s', x ∈ xs -> P s -> body x s = Some s' -> P s') ->
  P s -> Np.for_each xs body s = Some s' -> P s'.
Proof.
  revert s. induction xs as [|x xs IH]; intros s Hstep Hs Hrun; simpl in Hrun.
  - injection Hrun as <-. exact Hs.
  - apply bind_Some in Hrun as (s1 & H1 & Hrun).
    apply (IH s1); [| |exact Hrun].
    + intros y t t' Hy. apply Hstep. right. exact Hy.
    + apply (Hstep x s s1); [left|exact Hs|exact H1].
Qed.

Lemma for_each_None {S X} (xs : list X) (body : X -> S -> option S) x s :
  x ∈ xs -> (forall s, body x s = None) -> Np.for_each xs body s = None.
Proof.
  intros Hx Hnone. revert s. induction xs as [|y xs IH]; intros s.
  - inversion Hx.
  - simpl. apply elem_of_cons in Hx as [<- | Hx].
    + rewrite Hnone. reflexivity.
    + destruct (body y s) as [s1|]; [|reflexivity]. simpl. apply IH. exact Hx.
Qed.

(** Every iteration of a loop that ends normally ran on a state the
    invariant holds of, and ended normally itself. *)
Lemma for_each_ran {S X} (P : S -> Prop) (xs : list X) (body : X -> S -> option S) s s' :
  (forall x s s', x ∈ xs -> P s -> body x s = Some s' -> P s') ->
  P s -> Np.for_each xs body s = Some s' ->
  forall x, x ∈ xs -> exists s1 s2, P s1 /\ body x s1 = Some s2.
Proof.
  revert s. induction xs as [|y xs IH]; intros s Hstep Hs Hrun x Hx.
  - inversion Hx.
  - simpl in Hrun. apply bind_Some in Hrun as (s1 & H1 & Hrun).
    apply elem_of_cons in Hx as [-> | Hx].
    + exists s, s1. auto.
    + apply (IH s1); [| |exact Hrun|exact Hx].
      * intros z t t' Hz. apply Hstep. right. exact Hz.
      * apply (Hstep y s s1); [left|exact Hs|exact H1].
Qed.

(** ** Slices of mapped arrays *)

Lemma broadcast_map {A B} (f : A -> B) n (v : list A) :
  Np.broadcast n (map f v) = map f <$> Np.broadcast n v.
Proof.
  unfold Np.broadcast. rewrite length_map.
  destruct (length v =? n); [reflexivity|].
  destruct v as [|x [|y v]]; simpl; try reflexivity.
  f_equal. symmetry. apply fmap_replicate.
Qed.

Lemma set_slice_map {A B} (f : A -> B) (a : list A) s n v :
  Np.set_slice (map f a) s n (map f v) = map f <$> Np.set_slice a s n v.
Proof.
  unfold Np.set_slice.
  rewrite <- !fmap_drop, <- !fmap_take, !length_fmap, broadcast_map.
  destruct (Np.broadcast _ v) as [v'|]; simpl; [|reflexivity].
  f_equal. rewrite !fmap_app, fmap_take, fmap_drop. reflexivity.
Qed.

Lemma set_row_slice_map {A B} (f : A -> B) (a : list (list A)) k s n v :
  Np.set_row_slice (map (map f) a) k s n (map f v)
  = map (map f) <$> Np.set_row_slice a k s n v.
Proof.
  unfold Np.set_row_slice. rewrite list_lookup_fmap.
  destruct (a !! k) as [row|]; simpl; [|reflexivity].
  rewrite set_slice_map. destruct (Np.set_slice row s n v) as [row'|]; simpl; [|reflexivity].
  f_equal. symmetry. apply (list_fmap_insert (map f)).
Qed.

Lemma select_map {A B} (f : A -> B) b (a : list A) :
  Np.select b (map f a) = map f (Np.select b a).
Proof.
  revert a. induction b as [|[] b IH]; intros [|x a]; simpl; try reflexivity.
  - f_equal. apply IH.
  - apply IH.
Qed.

Lemma bool_index_map {A B} (f : A -> B) b (a : list A) :
  Np.bool_index b (map f a) = map f <$> Np.bool_index b a.
Proof.
  unfold Np.bool_index. rewrite length_map.
  destruct (_ =? _); simpl; [|reflexivity]. f_equal. apply select_map.
Qed.

Lemma bool_index_cols_map {A B} (f : A -> B) b (a : list (list A)) :
  Np.bool_index_cols b (map (map f) a) = map (map f) <$> Np.bool_index_cols b a.
Proof.
  unfold Np.bool_index_cols. induction a as [|row a IH]; [reflexivity|].
  simpl. rewrite bool_index_map.
  destruct (Np.bool_index b row) as [row'|]; simpl; [|reflexivity].
  rewrite IH. destruct (mapM (Np.bool_index b) a); reflexivity.
Qed.

Lemma ravel2_map {A B} (f : A -> B) (a : list (list A)) :
  Np.ravel2 (map (map f) a) = map f (Np.ravel2 a).
Proof.
  unfold Np.ravel2. induction a as [|r a IH]; simpl; [reflexivity|].
  rewrite map_app, IH. reflexivity.
Qed.

Lemma to_mask2_zeros2 r c : to_mask2 (Np.zeros2 r c) = Np.zeros2 r c.
Proof.
  unfold to_mask2, Np.zeros2, Np.zeros.
  change map with (@fmap list _) at 1.
  rewrite fmap_replicate. f_equal.
  change (map to_mask1 (replicate c F64.zero)) with (to_mask1 <$> replicate c F64.zero).
  rewrite fmap_replicate. reflexivity.
Qed.

(** X1. The source mask is the mask of the source hFacC, point by point:
    after the tiles are gathered, and again after the points east of 0 are
    removed. *)
Theorem source_mask_of_hFacC (g : InitialConditions.ecco_grid) (tiles : list Z)
    (raw : InitialConditions.ecco_points) :
  InitialConditions.gather_points g tiles = Some raw ->
  InitialConditions.ecco_mask_points raw
  = to_mask2 (InitialConditions.ecco_hFacC_points raw)
  /\ (forall p, InitialConditions.remove_positive_longitudes raw = Some p ->
        InitialConditions.ecco_mask_points p
        = to_mask2 (InitialConditions.ecco_hFacC_points p)).
Proof.
  intros Hrun.
  assert (Hraw : InitialConditions.ecco_mask_points raw
                 = to_mask2 (InitialConditions.ecco_hFacC_points raw)).
  { unfold InitialConditions.gather_points in Hrun.
    apply bind_Some in Hrun as (total & _ & Hrun).
    apply bind_Some in Hrun as (rf1 & _ & Hrun).
    apply bind_Some in Hrun as (st & Hrun & [= <-]).
    revert Hrun.
    apply (for_each_inv
             (fun st : nat * InitialConditions.ecco_points =>
                InitialConditions.ecco_mask_points st.2
                = to_mask2 (InitialConditions.ecco_hFacC_points st.2))).
    - intros tile [pc p] [pc' p'] _ Hp Hstep. simpl in *.
      apply bind_Some in Hstep as (xc & _ & Hstep).
      apply bind_Some in Hstep as (xs & _ & Hstep).
      apply bind_Some in Hstep as (yc & _ & Hstep).
      apply bind_Some in Hstep as (ys & _ & Hstep).
      apply bind_Some in Hstep as (rf & _ & Hstep).
      apply bind_Some in Hstep as (p1 & Hlev & [= <- <-]).
      revert Hlev.
      apply (for_each_inv
               (fun q : InitialConditions.ecco_points =>
                  InitialConditions.ecco_mask_points q
                  = to_mask2 (InitialConditions.ecco_hFacC_points q))); [|exact Hp].
      intros k q q' _ Hq Hk. unfold InitialConditions.fill_level in Hk.
      apply bind_Some in Hk as (hc & _ & Hk).
      apply bind_Some in Hk as (lc & _ & Hk).
      apply bind_Some in Hk as (hw & _ & Hk).
      apply bind_Some in Hk as (lw & _ & Hk).
      apply bind_Some in Hk as (hs & _ & Hk).
      apply bind_Some in Hk as (ls & _ & Hk).
      apply bind_Some in Hk as (c & Hc & Hk).
      apply bind_Some in Hk as (w & _ & Hk).
      apply bind_Some in Hk as (s & _ & Hk).
      apply bind_Some in Hk as (m & Hm & [= <-]). simpl.
      rewrite Hq in Hm. unfold to_mask2 in Hm at 1 2.
      rewrite ravel2_map, set_row_slice_map, Hc in Hm.
      injection Hm as <-. reflexivity.
    - simpl. symmetry. apply to_mask2_zeros2. }
  split; [exact Hraw|].
  intros p Hp. unfold InitialConditions.remove_positive_longitudes in Hp.
  apply bind_Some in Hp as (m & Hm & Hp).
  apply bind_Some in Hp as (c & Hc & Hp).
  apply bind_Some in Hp as (w & _ & Hp).
  apply bind_Some in Hp as (s & _ & Hp).
  apply bind_Some in Hp as (ys & _ & Hp).
  apply bind_Some in Hp as (xs & _ & [= <-]). simpl.
  rewrite Hraw in Hm. unfold to_mask2 in Hm.
  rewrite bool_index_cols_map, Hc in Hm. injection Hm as <-. reflexivity.
Qed.

(** ** Gathering the source points *)

Lemma total_points_spec g tiles : forall total0 total,
  Np.for_each tiles
    (fun tile_number total => xc ← InitialConditions.ecco_XC_tiles g !! tile_number;
                              Some (total + Np.size2 xc)) total0 = Some total ->
  exists xcs, mapM (fun t => InitialConditions.ecco_XC_tiles g !! t) tiles = Some xcs
    /\ total = total0 + length (concat (map Np.ravel2 xcs)).
Proof.
  induction tiles as [|t tiles IH]; intros total0 total H; simpl in H.
  - injection H as <-. exists []. split; [reflexivity|]. simpl. lia.
  - apply bind_Some in H as (t1 & H1 & H).
    apply bind_Some in H1 as (xc & Hxc & [= <-]).
    apply IH in H as (xcs & Hxcs & ->).
    exists (xc :: xcs). split.
    + simpl. rewrite Hxc, Hxcs. reflexivity.
    + simpl. rewrite length_app. unfold Np.size2. lia.
Qed.

Lemma fill_levels_coords g tile pc N ks p p' :
  Np.for_each ks (InitialConditions.fill_level g tile pc N) p = Some p' ->
  InitialConditions.ecco_XC_points p' = InitialConditions.ecco_XC_points p
  /\ InitialConditions.ecco_YC_points p' = InitialConditions.ecco_YC_points p.
Proof.
  apply (for_each_inv
           (fun q => InitialConditions.ecco_XC_points q = InitialConditions.ecco_XC_points p
                     /\ InitialConditions.ecco_YC_points q = InitialConditions.ecco_YC_points p));
    [|split; reflexivity].
  intros k q q' _ Hq Hk. unfold InitialConditions.fill_level in Hk.
  repeat (apply bind_Some in Hk as (? & _ & Hk)).
  injection Hk as <-. exact Hq.
Qed.

Lemma set_slice_at {A} (a z v v' : list A) N :
  N <= length z -> Np.broadcast N v = Some v' ->
  Np.set_slice (a ++ z) (length a) N v = Some (a ++ v' ++ drop N z).
Proof.
  intros Hz Hv. unfold Np.set_slice.
  rewrite drop_app_length, length_take, Nat.min_l by exact Hz.
  rewrite Hv. simpl. rewrite take_app_length. f_equal. f_equal. f_equal.
  rewrite drop_app_add'; reflexivity.
Qed.

Lemma set_slice_at_inv {A} (a z v r : list A) N :
  N <= length z -> Np.set_slice (a ++ z) (length a) N v = Some r ->
  exists v', Np.broadcast N v = Some v' /\ r = a ++ v' ++ drop N z.
Proof.
  intros Hz H. destruct (Np.broadcast N v) as [v'|] eqn:Hv.
  - exists v'. split; [reflexivity|].
    rewrite (set_slice_at a z v v' N Hz Hv) in H. congruence.
  - unfold Np.set_slice in H.
    rewrite drop_app_length, length_take, Nat.min_l, Hv in H by exact Hz. discriminate.
Qed.

Lemma fill_tiles_coords g tiles : forall xcs pc p st' A B Zx Zy,
  mapM (fun t => InitialConditions.ecco_XC_tiles g !! t) tiles = Some xcs ->
  Np.for_each tiles (InitialConditions.fill_tile g) (pc, p) = Some st' ->
  InitialConditions.ecco_XC_points p = A ++ Zx -> length A = pc ->
  InitialConditions.ecco_YC_points p = B ++ Zy -> length B = pc ->
  length (concat (map Np.ravel2 xcs)) <= length Zx ->
  length (concat (map Np.ravel2 xcs)) <= length Zy ->
  InitialConditions.ecco_XC_points st'.2
  = A ++ concat (map Np.ravel2 xcs) ++ drop (length (concat (map Np.ravel2 xcs))) Zx
  /\ exists ycs,
       mapM (fun t => InitialConditions.ecco_YC_tiles g !! t) tiles = Some ycs
       /\ (Forall2 (fun xc yc => Np.size2 yc = Np.size2 xc) xcs ycs ->
           InitialConditions.ecco_YC_points st'.2
           = B ++ concat (map Np.ravel2 ycs)
               ++ drop (length (concat (map Np.ravel2 xcs))) Zy).
Proof.
  induction tiles as [|t tiles IH]; intros xcs pc p st' A B Zx Zy Hxcs Hrun HA HlA HB HlB Hx Hy.
  - simpl in Hxcs. injection Hxcs as <-. simpl in Hrun. injection Hrun as <-. simpl.
    rewrite drop_0. split; [exact HA|]. exists []. split; [reflexivity|].
    intros _. simpl. exact HB.
  - simpl in Hxcs. apply bind_Some in Hxcs as (xc & Hxc & Hxcs).
    apply bind_Some in Hxcs as (xcs' & Hxcs' & [= <-]).
    simpl in Hx, Hy. rewrite length_app in Hx, Hy.
    simpl in Hrun. apply bind_Some in Hrun as ([pc1 p1] & Hstep & Hrun).
    rewrite Hxc in Hstep. simpl in Hstep.
    apply bind_Some in Hstep as (xs & Hxs & Hstep).
    apply bind_Some in Hstep as (yc & Hyc & Hstep).
    apply bind_Some in Hstep as (ys & Hys & Hstep).
    apply bind_Some in Hstep as (rf & _ & Hstep).
    apply bind_Some in Hstep as (p' & Hlev & [= <- <-]).
    apply fill_levels_coords in Hlev as [Hx1 Hy1]. simpl in Hx1, Hy1.
    rewrite HA, <- HlA in Hxs. rewrite HB, <- HlB in Hys.
    unfold Np.size2 in Hxs, Hys.
    apply set_slice_at_inv in Hxs as (vx & Hvx & ->); [|lia].
    apply set_slice_at_inv in Hys as (vy & Hvy & ->); [|lia].
    rewrite broadcast_exact in Hvx by reflexivity. injection Hvx as <-.
    pose proof (broadcast_length _ _ _ Hvy) as Hlvy.
    rewrite !app_assoc in Hx1, Hy1.
    destruct (IH xcs' _ _ st' _ _ _ _ Hxcs' Hrun Hx1
                ltac:(rewrite length_app; unfold Np.size2; lia)
                Hy1 ltac:(rewrite length_app; unfold Np.size2; lia))
      as (HX & ycs & Hycs & HY).
    { rewrite length_drop. lia. }
    { rewrite length_drop. lia. }
    split.
    + rewrite HX. simpl. rewrite drop_drop, length_app, <- !app_assoc. reflexivity.
    + exists (yc :: ycs). split.
      * simpl. rewrite Hyc, Hycs. reflexivity.
      * intros HF. apply Forall2_cons in HF as [Hsz HF].
        rewrite (HY HF). simpl.
        rewrite broadcast_exact in Hvy by exact Hsz. injection Hvy as <-.
        rewrite drop_drop, length_app, <- !app_assoc. reflexivity.
Qed.

(** X2. The source coordinates are the tiles in use laid end to end: the
    longitudes are the ravelled XC tiles in the order of the tile list, and
    so are the latitudes when every YC tile has the size of its XC tile. No
    entry keeps the 0 the arrays were created with. *)
Theorem gathered_coordinates (g : InitialConditions.ecco_grid) (tiles : list Z)
    (raw : InitialConditions.ecco_points) :
  InitialConditions.gather_points g tiles = Some raw ->
  exists xcs ycs,
    mapM (fun t => InitialConditions.ecco_XC_tiles g !! t) tiles = Some xcs
    /\ mapM (fun t => InitialConditions.ecco_YC_tiles g !! t) tiles = Some ycs
    /\ InitialConditions.ecco_XC_points raw = concat (map Np.ravel2 xcs)
    /\ (Forall2 (fun xc yc => Np.size2 yc = Np.size2 xc) xcs ycs ->
        InitialConditions.ecco_YC_points raw = concat (map Np.ravel2 ycs)).
Proof.
  unfold InitialConditions.gather_points. intros Hrun.
  apply bind_Some in Hrun as (total & Htotal & Hrun).
  apply bind_Some in Hrun as (rf1 & _ & Hrun).
  apply bind_Some in Hrun as (st & Hrun & [= <-]).
  apply total_points_spec in Htotal as (xcs & Hxcs & ->). simpl in Hrun.
  destruct (fill_tiles_coords g tiles xcs 0 _ st [] []
              (Np.zeros (length (concat (map Np.ravel2 xcs))))
              (Np.zeros (length (concat (map Np.ravel2 xcs))))
              Hxcs Hrun eq_refl eq_refl eq_refl eq_refl)
    as (HX & ycs & Hycs & HY).
  { unfold Np.zeros. rewrite length_replicate. lia. }
  { unfold Np.zeros. rewrite length_replicate. lia. }
  exists xcs, ycs. split; [exact Hxcs|]. split; [exact Hycs|].
  assert (Hd : forall n, drop n (Np.zeros n) = []).
  { intros n. apply drop_ge. unfold Np.zeros. rewrite length_replicate. lia. }
  split.
  - rewrite HX, Hd, app_nil_r. reflexivity.
  - intros HF. rewrite (HY HF), Hd, app_nil_r. reflexivity.
Qed.

Lemma set_row_slice_rows {A} (a a' : list (list A)) k s n v :
  Np.set_row_slice a k s n v = Some a' -> length a' = length a /\ k < length a.
Proof.
  unfold Np.set_row_slice. intros H.
  apply bind_Some in H as (row & Hrow & H).
  apply bind_Some in H as (row' & _ & [= <-]).
  split; [apply length_insert|]. eapply lookup_lt_Some. exact Hrow.
Qed.

Lemma fill_level_rows g tile pc N k q q' :
  InitialConditions.fill_level g tile pc N k q = Some q' ->
  length (InitialConditions.ecco_hFacC_points q')
  = length (InitialConditions.ecco_hFacC_points q)
  /\ k < length (InitialConditions.ecco_hFacC_points q)
  /\ is_Some (InitialConditions.ecco_hFacC_tiles g !! tile ≫= (.!! k))
  /\ is_Some (InitialConditions.ecco_hFacW_tiles g !! tile ≫= (.!! k))
  /\ is_Some (InitialConditions.ecco_hFacS_tiles g !! tile ≫= (.!! k)).
Proof.
  unfold InitialConditions.fill_level. intros Hk.
  apply bind_Some in Hk as (hc & Hhc & Hk).
  apply bind_Some in Hk as (lc & Hlc & Hk).
  apply bind_Some in Hk as (hw & Hhw & Hk).
  apply bind_Some in Hk as (lw & Hlw & Hk).
  apply bind_Some in Hk as (hs & Hhs & Hk).
  apply bind_Some in Hk as (ls & Hls & Hk).
  apply bind_Some in Hk as (c & Hc & Hk).
  apply bind_Some in Hk as (w & _ & Hk).
  apply bind_Some in Hk as (s & _ & Hk).
  apply bind_Some in Hk as (m & _ & [= <-]). simpl.
  apply set_row_slice_rows in Hc as [Hlen Hlt].
  rewrite Hhc, Hhw, Hhs. simpl. rewrite Hlc, Hlw, Hls. eauto 6.
Qed.

(** X3. What gathering the source points needs of the ECCO grid: RF of tile
    1, which sizes the arrays whatever the tiles in use are, and for every
    tile in use its XC, YC and RF, an RF no longer than that of tile 1, and
    one hFacC, hFacW and hFacS level for every entry of its RF. *)
Theorem gather_points_needs (g : InitialConditions.ecco_grid) (tiles : list Z)
    (raw : InitialConditions.ecco_points) :
  InitialConditions.gather_points g tiles = Some raw ->
  exists rf1,
    InitialConditions.ecco_RF_tiles g !! 1%Z = Some rf1
    /\ forall t, t ∈ tiles ->
         is_Some (InitialConditions.ecco_XC_tiles g !! t)
         /\ is_Some (InitialConditions.ecco_YC_tiles g !! t)
         /\ exists rf,
              InitialConditions.ecco_RF_tiles g !! t = Some rf
              /\ length rf <= length rf1
              /\ forall k, k < length rf ->
                   is_Some (InitialConditions.ecco_hFacC_tiles g !! t ≫= (.!! k))
                   /\ is_Some (InitialConditions.ecco_hFacW_tiles g !! t ≫= (.!! k))
                   /\ is_Some (InitialConditions.ecco_hFacS_tiles g !! t ≫= (.!! k)).
Proof.
  unfold InitialConditions.gather_points. intros Hrun.
  apply bind_Some in Hrun as (total & _ & Hrun).
  apply bind_Some in Hrun as (rf1 & Hrf1 & Hrun).
  apply bind_Some in Hrun as (st & Hrun & _).
  exists rf1. split; [exact Hrf1|]. intros t Ht.
  set (P := fun q : InitialConditions.ecco_points =>
              length (InitialConditions.ecco_hFacC_points q) = length rf1).
  assert (Hlevels : forall tile pc N ks q q',
            P q -> Np.for_each ks (InitialConditions.fill_level g tile pc N) q = Some q' -> P q').
  { intros tile pc N ks q q' Hq. apply (for_each_inv P); [|exact Hq].
    intros k a a' _ Ha Hk. apply fill_level_rows in Hk as (Hlen & _). unfold P in *. lia. }
  assert (Hstep : forall x (s s' : nat * InitialConditions.ecco_points),
            x ∈ tiles -> P s.2 -> InitialConditions.fill_tile g x s = Some s' -> P s'.2).
  { intros x [pc p] [pc' p'] _ Hp H. simpl in *.
    apply bind_Some in H as (xc & _ & H).
    apply bind_Some in H as (xs & _ & H).
    apply bind_Some in H as (yc & _ & H).
    apply bind_Some in H as (ys & _ & H).
    apply bind_Some in H as (rf & _ & H).
    apply bind_Some in H as (p1 & Hlev & [= <- <-]).
    eapply Hlevels; [|exact Hlev]. exact Hp. }
  pose proof (fun H0 => for_each_ran (fun s => P s.2) tiles _ _ _ Hstep H0 Hrun t Ht) as Hran.
  destruct Hran as ([pc p] & s2 & Hp & Hbody).
  { unfold P. simpl. unfold Np.zeros2. apply length_replicate. }
  simpl in Hp, Hbody.
  apply bind_Some in Hbody as (xc & Hxc & Hbody).
  apply bind_Some in Hbody as (xs & _ & Hbody).
  apply bind_Some in Hbody as (yc & Hyc & Hbody).
  apply bind_Some in Hbody as (ys & _ & Hbody).
  apply bind_Some in Hbody as (rf & Hrf & Hbody).
  apply bind_Some in Hbody as (p' & Hlev & _).
  split; [eauto|]. split; [eauto|].
  exists rf. split; [exact Hrf|].
  assert (Hk : forall k, k < length rf ->
                 k < length rf1
                 /\ is_Some (InitialConditions.ecco_hFacC_tiles g !! t ≫= (.!! k))
                 /\ is_Some (InitialConditions.ecco_hFacW_tiles g !! t ≫= (.!! k))
                 /\ is_Some (InitialConditions.ecco_hFacS_tiles g !! t ≫= (.!! k))).
  { intros k Hk.
    assert (Hin : k ∈ Np.range (length rf)).
    { unfold Np.range. apply elem_of_seq. lia. }
    assert (Hpres : forall j (a a' : InitialConditions.ecco_points),
              j ∈ Np.range (length rf) -> P a ->
              InitialConditions.fill_level g t pc (Np.size2 xc) j a = Some a' -> P a').
    { intros j a a' _ Ha Hj. apply fill_level_rows in Hj as (Hlen & _).
      unfold P in *. lia. }
    pose proof (fun H0 => for_each_ran P (Np.range (length rf)) _ _ _ Hpres H0 Hlev k Hin)
      as Hran.
    destruct Hran as (q1 & q2 & Hq1 & Hq); [exact Hp|].
    apply fill_level_rows in Hq as (_ & Hlt & Hrest).
    unfold P in Hq1. split; [lia|exact Hrest]. }
  split.
  - destruct (length rf) as [|n] eqn:E; [lia|].
    destruct (Hk n) as [Hn _]; lia.
  - intros k Hlt. apply Hk. exact Hlt.
Qed.

(** ** Boolean indexing: shapes *)

Lemma select_all {A B} (f : B -> bool) (xs : list B) (a : list A) :
  Forall (fun x => f x = true) xs -> length xs = length a ->
  Np.select (map f xs) a = a.
Proof.
  intros HF. revert a. induction HF as [|x xs Hx HF IH]; intros [|y a] Hlen;
    simpl in *; try reflexivity; try discriminate.
  rewrite Hx. f_equal. apply IH. lia.
Qed.

Lemma bool_index_all {A B} (f : B -> bool) (xs : list B) (a : list A) :
  Forall (fun x => f x = true) xs -> length xs = length a ->
  Np.bool_index (map f xs) a = Some a.
Proof.
  intros HF Hlen. unfold Np.bool_index. rewrite length_map, Hlen, Nat.eqb_refl.
  f_equal. apply select_all; assumption.
Qed.

Lemma bool_index_Some {A} b (a a' : list A) :
  Np.bool_index b a = Some a' -> length b = length a /\ a' = Np.select b a.
Proof.
  unfold Np.bool_index. destruct (length b =? length a) eqn:E; [|discriminate].
  intros [= <-]. apply Nat.eqb_eq in E. auto.
Qed.

Lemma bool_index_cols_Some {A} b (a a' : list (list A)) :
  Np.bool_index_cols b a = Some a' ->
  length a' = length a
  /\ Forall (fun row => length b = length row) a
  /\ a' = map (Np.select b) a.
Proof.
  unfold Np.bool_index_cols. intros H. apply mapM_Some in H.
  induction H as [|row row' a a' Hrow _ IH]; [repeat split; constructor|].
  destruct IH as (Hlen & HF & ->). apply bool_index_Some in Hrow as [Hb ->].
  simpl. repeat split; [lia|constructor; assumption].
Qed.

Lemma bool_index_cols_all {A B} (f : B -> bool) (xs : list B) (a : list (list A)) :
  Forall (fun x => f x = true) xs -> Forall (fun row => length row = length xs) a ->
  Np.bool_index_cols (map f xs) a = Some a.
Proof.
  intros HF Ha. unfold Np.bool_index_cols. apply mapM_Some.
  apply Forall_Forall2_diag. eapply Forall_impl; [exact Ha|].
  intros row Hrow. simpl. apply bool_index_all; [exact HF|]. symmetry. exact Hrow.
Qed.

Lemma select_rows_length {A B} b (xs : list B) (a : list (list A)) :
  length b = length xs -> Forall (fun row => length b = length row) a ->
  Forall (fun row => length row = length (Np.select b xs)) (map (Np.select b) a).
Proof.
  intros Hxs Ha. apply Forall_map. eapply Forall_impl; [exact Ha|].
  intros row Hrow. simpl. apply length_select_eq; assumption.
Qed.

(** What the filter leaves: every array has one column per point kept. *)
Lemma remove_positive_longitudes_shape raw p :
  InitialConditions.remove_positive_longitudes raw = Some p ->
  let n := length (InitialConditions.ecco_XC_points p) in
  length (InitialConditions.local_indices raw) = length (InitialConditions.ecco_XC_points raw)
  /\ InitialConditions.ecco_XC_points p
     = Np.select (InitialConditions.local_indices raw) (InitialConditions.ecco_XC_points raw)
  /\ length (InitialConditions.ecco_YC_points p) = n
  /\ Forall (fun row => length row = n) (InitialConditions.ecco_mask_points p)
  /\ Forall (fun row => length row = n) (InitialConditions.ecco_hFacC_points p)
  /\ Forall (fun row => length row = n) (InitialConditions.ecco_hFacW_points p)
  /\ Forall (fun row => length row = n) (InitialConditions.ecco_hFacS_points p).
Proof.
  unfold InitialConditions.remove_positive_longitudes. intros H.
  apply bind_Some in H as (m & Hm & H).
  apply bind_Some in H as (c & Hc & H).
  apply bind_Some in H as (w & Hw & H).
  apply bind_Some in H as (s & Hs & H).
  apply bind_Some in H as (ys & Hys & H).
  apply bind_Some in H as (xs & Hxs & [= <-]). simpl.
  apply bool_index_Some in Hxs as [Hlx ->]. apply bool_index_Some in Hys as [Hly ->].
  apply bool_index_cols_Some in Hm as (_ & Hm & ->).
  apply bool_index_cols_Some in Hc as (_ & Hc & ->).
  apply bool_index_cols_Some in Hw as (_ & Hw & ->).
  apply bool_index_cols_Some in Hs as (_ & Hs & ->).
  split; [exact Hlx|]. split; [reflexivity|].
  split; [apply length_select_eq; assumption|].
  repeat split; apply select_rows_length; assumption.
Qed.

(** X4. Removing the points east of 0 a second time changes nothing: every
    longitude kept is negative, and every array kept has one column per
    longitude kept. *)
Theorem longitude_filter_idempotent (raw p : InitialConditions.ecco_points) :
  InitialConditions.remove_positive_longitudes raw = Some p ->
  InitialConditions.remove_positive_longitudes p = Some p.
Proof.
  intros H.
  pose proof (remove_positive_longitudes_shape raw p H) as (_ & Hxs & Hy & Hm & Hc & Hw & Hs).
  assert (Hneg : Forall (fun x => F64.lt0 x = true) (InitialConditions.ecco_XC_points p)).
  { rewrite Hxs. apply select_self_lt0. }
  unfold InitialConditions.remove_positive_longitudes, InitialConditions.local_indices.
  rewrite !bool_index_cols_all by assumption. simpl.
  rewrite !bool_index_all by (try exact Hneg; auto). simpl.
  destruct p; reflexivity.
Qed.

(** ** The arrays of the variables: shapes *)

Lemma fill_from_rows src nlev pc N G G' :
  InitialConditions.fill_from src nlev pc N G = Some G' -> length G' = length G.
Proof.
  unfold InitialConditions.fill_from.
  apply (for_each_inv (fun a : list (list spec_float) => length a = length G)); [|reflexivity].
  intros k a a' _ Ha H. apply bind_Some in H as (v & _ & H).
  apply bind_Some in H as (row & _ & H). apply bind_Some in H as (row' & _ & [= <-]).
  rewrite length_insert. exact Ha.
Qed.

Lemma fill_init_tile_rows f grid name nlev N tile st st' :
  InitialConditions.fill_init_tile f grid name nlev N tile st = Some st' ->
  length st'.2 = length st.2.
Proof.
  destruct st as [pc G]. unfold InitialConditions.fill_init_tile. intros H.
  apply bind_Some in H as (G' & H & [= <-]). simpl.
  destruct (String.eqb name "ETAN").
  - destruct grid as [a|a]; [|discriminate].
    apply bind_Some in H as (v & _ & H).
    apply bind_Some in H as (row & _ & H). apply bind_Some in H as (row' & _ & [= <-]).
    apply length_insert.
  - destruct (contains "VEL" name).
    + apply bind_Some in H as (G1 & H1 & H2).
      assert (length G1 = length G) as <-.
      { destruct (String.eqb name "UVEL"); [|injection H1 as <-; reflexivity].
        destruct (tile <? 7)%Z; eapply fill_from_rows; exact H1. }
      destruct (String.eqb name "VVEL"); [|injection H2 as <-; reflexivity].
      destruct (tile <? 7)%Z; eapply fill_from_rows; exact H2.
    + destruct grid as [a|a]; [discriminate|]. eapply fill_from_rows. exact H.
Qed.

Lemma normalize_levels_shape hFac n ks G G' :
  Forall (fun row : list spec_float => length row = n) G ->
  Np.for_each ks (InitialConditions.normalize_level hFac) G = Some G' ->
  length G' = length G /\ Forall (fun row => length row = n) G'.
Proof.
  intros HG.
  apply (for_each_inv (fun a : list (list spec_float) =>
                         length a = length G /\ Forall (fun row => length row = n) a));
    [|split; [reflexivity|exact HG]].
  intros k a a' _ [Hl Ha] H.
  apply normalize_level_row in H as (row & row' & Hrow & Hrow' & ->).
  split; [rewrite length_insert; exact Hl|].
  apply Forall_insert; [exact Ha|].
  apply bind_Some in Hrow' as (frow & _ & Hrow').
  destruct (length frow =? length row) eqn:E; [|discriminate].
  injection Hrow' as <-. apply Nat.eqb_eq in E.
  rewrite length_zip_with, E, Nat.min_id.
  exact (proj1 (Forall_lookup _ _) Ha k row Hrow).
Qed.

Lemma apply_corrections_shape p name nlev n G G' :
  Forall (fun row : list spec_float => length row = n) G ->
  InitialConditions.apply_corrections p name nlev G = Some G' ->
  length G' = length G /\ Forall (fun row => length row = n) G'.
Proof.
  unfold InitialConditions.apply_corrections. intros HG H.
  apply bind_Some in H as (G1 & H1 & H2).
  assert (length G1 = length G /\ Forall (fun row => length row = n) G1) as [Hl1 HG1].
  { destruct (String.eqb name "UVEL"); [|injection H1 as <-; auto].
    eapply normalize_levels_shape; eassumption. }
  rewrite <- Hl1.
  destruct (String.eqb name "VVEL"); [|injection H2 as <-; auto].
  eapply normalize_levels_shape; eassumption.
Qed.

Lemma read_init_grid_shape g f tiles raw p name grid acc st :
  InitialConditions.remove_positive_longitudes raw = Some p ->
  InitialConditions.read_init_grid g f tiles (InitialConditions.local_indices raw) p name
    (grid, acc) = Some st ->
  exists G rf1,
    st.2 = acc ++ [G]
    /\ InitialConditions.ecco_RF_tiles g !! 1%Z = Some rf1
    /\ length G = (if String.eqb name "ETAN" then 1 else length rf1)
    /\ Forall (fun row => length row = length (InitialConditions.ecco_XC_points p)) G.
Proof.
  intros Hp H. unfold InitialConditions.read_init_grid in H.
  apply bind_Some in H as (grid' & _ & H).
  apply bind_Some in H as (cur & _ & H).
  apply bind_Some in H as (rf1 & Hrf1 & H).
  apply bind_Some in H as (filled & Hfill & H).
  apply bind_Some in H as (G1 & HG1 & H).
  apply bind_Some in H as (G2 & HG2 & [= <-]). simpl.
  exists G2, rf1. split; [reflexivity|]. split; [exact Hrf1|].
  assert (Hrows : length filled.2 = (if String.eqb name "ETAN" then 1 else length rf1)).
  { revert Hfill.
    apply (for_each_inv (fun s : nat * list (list spec_float) =>
                           length s.2 = (if String.eqb name "ETAN" then 1 else length rf1))).
    - intros t s s' _ Hs Hstep. apply fill_init_tile_rows in Hstep. congruence.
    - simpl. destruct (String.eqb name "ETAN"); unfold Np.zeros2; apply length_replicate. }
  pose proof (remove_positive_longitudes_shape raw p Hp) as (Hli & Hxs & _).
  apply bool_index_cols_Some in HG1 as (Hl1 & HF1 & ->).
  pose proof (select_rows_length _ (InitialConditions.ecco_XC_points raw) _ Hli HF1) as Hsel.
  rewrite <- Hxs in Hsel.
  destruct (apply_corrections_shape _ _ _ _ _ _ Hsel HG2) as [Hl2 HF2].
  split; [|exact HF2]. rewrite Hl2, length_map. exact Hrows.
Qed.

(** X5. The arrays handed to the interpolator agree in shape: one array per
    variable, in the order of the variable names, each with one column per
    source point kept (as the source mask has) and with one row for ETAN and
    as many rows as RF of tile 1 has entries for every other variable. *)
Theorem init_grids_aligned (g : InitialConditions.ecco_grid) (f : InitialConditions.ecco_fields)
    (tiles : list Z) (raw p : InitialConditions.ecco_points) (names : list string)
    (grids : list (list (list spec_float))) :
  InitialConditions.remove_positive_longitudes raw = Some p ->
  InitialConditions.read_init_grids g f tiles (InitialConditions.local_indices raw) p names
    = Some grids ->
  length grids = length names
  /\ length (InitialConditions.ecco_YC_points p) = length (InitialConditions.ecco_XC_points p)
  /\ Forall (fun row => length row = length (InitialConditions.ecco_XC_points p))
       (InitialConditions.ecco_mask_points p)
  /\ (forall i name G, names !! i = Some name -> grids !! i = Some G ->
        Forall (fun row => length row = length (InitialConditions.ecco_XC_points p)) G
        /\ exists rf1,
             InitialConditions.ecco_RF_tiles g !! 1%Z = Some rf1
             /\ length G = (if String.eqb name "ETAN" then 1 else length rf1)).
Proof.
  intros Hp H. unfold InitialConditions.read_init_grids in H.
  apply bind_Some in H as (st & H & [= <-]).
  assert (Hloop : forall names grid acc st,
            Np.for_each names
              (InitialConditions.read_init_grid g f tiles
                 (InitialConditions.local_indices raw) p) (grid, acc) = Some st ->
            exists new,
              st.2 = acc ++ new
              /\ Forall2 (fun name G =>
                   Forall (fun row => length row
                                      = length (InitialConditions.ecco_XC_points p)) G
                   /\ exists rf1,
                        InitialConditions.ecco_RF_tiles g !! 1%Z = Some rf1
                        /\ length G = (if String.eqb name "ETAN" then 1 else length rf1))
                   names new).
  { clear H st names. induction names as [|name names IH]; intros grid acc st H; simpl in H.
    - injection H as <-. exists []. split; [symmetry; apply app_nil_r|constructor].
    - apply bind_Some in H as ([grid1 acc1] & H1 & H).
      destruct (read_init_grid_shape _ _ _ _ _ _ _ _ _ Hp H1) as (G & rf1 & Hacc & Hrf & Hl & HF).
      simpl in Hacc. subst acc1.
      apply IH in H as (new & -> & Hnew).
      exists (G :: new). split; [rewrite <- app_assoc; reflexivity|].
      constructor; [|exact Hnew]. split; [exact HF|]. exists rf1. auto. }
  apply Hloop in H as (new & Hst & Hnew). simpl in Hst. subst new.
  pose proof (remove_positive_longitudes_shape raw p Hp) as (_ & _ & Hy & Hm & _).
  split; [symmetry; eapply Forall2_length; exact Hnew|].
  split; [exact Hy|]. split; [exact Hm|].
  intros i name G Hi HG.
  exact (Forall2_lookup_lr _ _ _ _ _ _ Hnew Hi HG).
Qed.

(** X6. The loop over the variables fails when it starts with a velocity
    (the tile size is taken from [grid], which no iteration has assigned yet:
    it is still the imported module, whose shape is empty),
    and when it meets a name that is neither in the file dictionary nor a
    velocity. *)
Theorem read_init_grids_failures (g : InitialConditions.ecco_grid)
    (f : InitialConditions.ecco_fields) (tiles : list Z) (li : list bool)
    (p : InitialConditions.ecco_points) :
  (forall name rest, contains "VEL" name = true ->
     InitialConditions.read_init_grids g f tiles li p (name :: rest) = None)
  /\ (forall name names, name ∈ names ->
        name <> "ETAN" -> name <> "THETA" -> name <> "SALT" ->
        contains "VEL" name = false ->
        InitialConditions.read_init_grids g f tiles li p names = None).
Proof.
  split.
  - intros name rest Hvel.
    unfold InitialConditions.read_init_grids. simpl.
    unfold InitialConditions.read_init_grid at 1, InitialConditions.read_grid.
    destruct (String.eqb name "ETAN") eqn:E.
    + apply String.eqb_eq in E. subst name. discriminate Hvel.
    + rewrite Hvel. reflexivity.
  - intros name names Hin He Ht Hs Hvel.
    unfold InitialConditions.read_init_grids.
    rewrite (for_each_None names _ name); [reflexivity|exact Hin|].
    intros [grid acc]. unfold InitialConditions.read_init_grid, InitialConditions.read_grid.
    apply String.eqb_neq in He, Ht, Hs. rewrite He, Hvel, Ht, Hs. reflexivity.
Qed.

Lemma fill_init_tile_scalar f a name nlev N tile st :
  String.eqb name "ETAN" = false -> contains "VEL" name = false ->
  InitialConditions.fill_init_tile f (InitialConditions.Grid5 a) name nlev N tile st
  = (G2 ← InitialConditions.fill_from (fun k => InitialConditions.tile5 a k tile)
            nlev st.1 N st.2;
     Some (st.1 + N, G2)).
Proof.
  intros He Hv. destruct st as [pc G]. unfold InitialConditions.fill_init_tile.
  rewrite He, Hv. reflexivity.
Qed.

Lemma fill_init_tile_ETAN f a nlev N tile st :
  InitialConditions.fill_init_tile f (InitialConditions.Grid4 a) "ETAN" nlev N tile st
  = (G2 ← InitialConditions.fill_from (fun _ => InitialConditions.tile4 a tile)
            1 st.1 N st.2;
     Some (st.1 + N, G2)).
Proof.
  destruct st as [pc G]. unfold InitialConditions.fill_init_tile.
  change (String.eqb "ETAN" "ETAN") with true. cbv iota.
  unfold InitialConditions.fill_from. simpl.
  destruct (InitialConditions.tile4 a tile) as [v|]; simpl; [|reflexivity].
  destruct (Np.set_row_slice G 0 pc N v); reflexivity.
Qed.

Lemma fill_scalar_tiles f a name nlev N tiles filled t tile k i :
  name <> "ETAN" -> contains "VEL" name = false ->
  Np.for_each tiles
    (InitialConditions.fill_init_tile f (InitialConditions.Grid5 a) name nlev N)
    (0, Np.zeros2 nlev (N * length tiles)) = Some filled ->
  tiles !! t = Some tile -> k < nlev -> i < N ->
  exists v v',
    InitialConditions.tile5 a k tile = Some v
    /\ Np.broadcast N v = Some v'
    /\ Np.get2 filled.2 k (t * N + i) = v' !! i.
Proof.
  intros He Hv Hrun Ht Hk Hi. apply String.eqb_neq in He.
  rewrite (for_each_ext _ _ _ _ (fun x s => fill_init_tile_scalar f a name nlev N x s He Hv))
    in Hrun.
  eapply (fill_tiles_spec nlev N (N * length tiles)) in Hrun
    as (_ & _ & Hin); [|apply length_zeros2|lia].
  destruct (Hin t tile k i Ht Hk Hi) as (v & v' & Hv' & Hb & Hget).
  exists v, v'. auto.
Qed.

Lemma fill_ETAN_tiles f a nlev N tiles filled t tile i :
  Np.for_each tiles
    (InitialConditions.fill_init_tile f (InitialConditions.Grid4 a) "ETAN" nlev N)
    (0, Np.zeros2 1 (N * length tiles)) = Some filled ->
  tiles !! t = Some tile -> i < N ->
  exists v v',
    InitialConditions.tile4 a tile = Some v
    /\ Np.broadcast N v = Some v'
    /\ Np.get2 filled.2 0 (t * N + i) = v' !! i.
Proof.
  intros Hrun Ht Hi.
  rewrite (for_each_ext _ _ _ _ (fill_init_tile_ETAN f a nlev N)) in Hrun.
  eapply (fill_tiles_spec 1 N (N * length tiles)
            (fun tile (_ : nat) => InitialConditions.tile4 a tile)) in Hrun
    as (_ & _ & Hin); [|apply length_zeros2|lia].
  destruct (Hin t tile 0 i Ht ltac:(lia) Hi) as (v & v' & Hv' & Hb & Hget).
  exists v, v'. auto.
Qed.

(** X7. What the interpolator is given for a scalar variable. The array of
    THETA or SALT holds, at level [k] and at the [j]-th source point kept,
    the field's own entry of that level at the tile and position the point
    comes from, never rotated, negated or divided; the single row of the
    array of ETAN holds the ETAN entry of that tile and position. The tile
    size is that of the field just read. *)
Theorem scalar_init_grid (g : InitialConditions.ecco_grid) (f : InitialConditions.ecco_fields)
    (tiles : list Z) (li : list bool) (p : InitialConditions.ecco_points)
    (grid : option InitialConditions.nc_grid) (acc : list (list (list spec_float)))
    (st : option InitialConditions.nc_grid * list (list (list spec_float))) :
  (forall name a,
     name = "THETA" /\ a = InitialConditions.THETA_nc f
     \/ name = "SALT" /\ a = InitialConditions.SALT_nc f ->
     InitialConditions.read_init_grid g f tiles li p name (grid, acc) = Some st ->
     exists rf1 G,
       InitialConditions.ecco_RF_tiles g !! 1%Z = Some rf1
       /\ st = (Some (InitialConditions.Grid5 a), acc ++ [G])
       /\ forall j t tile i k,
            Np.positions li !! j
            = Some (t * InitialConditions.grid_N (InitialConditions.Grid5 a) + i) ->
            tiles !! t = Some tile ->
            i < InitialConditions.grid_N (InitialConditions.Grid5 a) ->
            k < length rf1 ->
            exists v v',
              InitialConditions.tile5 a k tile = Some v
              /\ Np.broadcast (InitialConditions.grid_N (InitialConditions.Grid5 a)) v
                 = Some v'
              /\ Np.get2 G k j = v' !! i)
  /\ (InitialConditions.read_init_grid g f tiles li p "ETAN" (grid, acc) = Some st ->
      exists G,
        st = (Some (InitialConditions.Grid4 (InitialConditions.ETAN_nc f)), acc ++ [G])
        /\ forall j t tile i,
             Np.positions li !! j
             = Some (t * InitialConditions.grid_N
                           (InitialConditions.Grid4 (InitialConditions.ETAN_nc f)) + i) ->
             tiles !! t = Some tile ->
             i < InitialConditions.grid_N
                   (InitialConditions.Grid4 (InitialConditions.ETAN_nc f)) ->
             exists v v',
               InitialConditions.tile4 (InitialConditions.ETAN_nc f) tile = Some v
               /\ Np.broadcast
                    (InitialConditions.grid_N
                       (InitialConditions.Grid4 (InitialConditions.ETAN_nc f))) v
                  = Some v'
               /\ Np.get2 G 0 j = v' !! i).
Proof.
  split.
  - intros name a Hname H.
    assert (Hread : InitialConditions.read_grid f name grid
                    = Some (Some (InitialConditions.Grid5 a))
                    /\ name <> "ETAN" /\ contains "VEL" name = false
                    /\ String.eqb name "UVEL" = false /\ String.eqb name "VVEL" = false).
    { destruct Hname as [[-> ->] | [-> ->]]; repeat split; discriminate. }
    destruct Hread as (Hread & He & Hv & Hu & Hvv).
    unfold InitialConditions.read_init_grid in H. rewrite Hread in H. simpl in H.
    apply bind_Some in H as (rf1 & Hrf1 & H).
    apply bind_Some in H as (filled & Hfill & H).
    apply bind_Some in H as (G1 & HG1 & H).
    apply bind_Some in H as (G2 & HG2 & [= <-]).
    unfold InitialConditions.apply_corrections in HG2. rewrite Hu, Hvv in HG2.
    simpl in HG2. injection HG2 as <-.
    pose proof He as He'. apply String.eqb_neq in He'. rewrite He' in Hfill.
    exists rf1, G1. split; [exact Hrf1|]. split; [reflexivity|].
    intros j t tile i k Hj Ht Hi Hk.
    destruct (fill_scalar_tiles f a name _ _ tiles filled t tile k i He Hv Hfill Ht Hk Hi)
      as (v & v' & Hv' & Hb & Hget).
    exists v, v'. split; [exact Hv'|]. split; [exact Hb|].
    rewrite (bool_index_cols_lookup _ _ _ k j HG1), Hj. exact Hget.
  - intros H. unfold InitialConditions.read_init_grid in H.
    change (InitialConditions.read_grid f "ETAN" grid)
      with (Some (Some (InitialConditions.Grid4 (InitialConditions.ETAN_nc f)))) in H.
    simpl in H.
    apply bind_Some in H as (rf1 & Hrf1 & H).
    apply bind_Some in H as (filled & Hfill & H).
    apply bind_Some in H as (G1 & HG1 & [= <-]).
    exists G1. split; [reflexivity|].
    intros j t tile i Hj Ht Hi.
    destruct (fill_ETAN_tiles f _ _ _ tiles filled t tile i Hfill Ht Hi)
      as (v & v' & Hv' & Hb & Hget).
    exists v, v'. split; [exact Hv'|]. split; [exact Hb|].
    rewrite (bool_index_cols_lookup _ _ _ 0 j HG1), Hj. exact Hget.
Qed.

(** X8. Tiles are numbered from 1: tile [n] of a level is entry [n-1] of
    the tile axis. A number beyond the tiles present is an error, but tile 0
    is not: index -1 reads the last tile. *)
Theorem tile_numbering (a : list (list (list (list (list spec_float))))) (k : nat)
    (t0 : list (list (list (list spec_float)))) (level : list (list (list spec_float))) :
  a !! 0 = Some t0 -> t0 !! k = Some level ->
  (forall n, (1 <= n <= Z.of_nat (length level))%Z ->
     InitialConditions.tile5 a k n = Np.ravel2 <$> level !! Z.to_nat (n - 1))
  /\ (forall n, (Z.of_nat (length level) < n)%Z -> InitialConditions.tile5 a k n = None)
  /\ InitialConditions.tile5 a k 0 = Np.ravel2 <$> last level.
Proof.
  intros Ha Hk. unfold InitialConditions.tile5. rewrite Ha. simpl. rewrite Hk. simpl.
  unfold Np.py_nth. split; [|split].
  - intros n Hn. destruct (n - 1 <? 0)%Z eqn:E; [apply Z.ltb_lt in E; lia|].
    destruct (level !! Z.to_nat (n - 1)); reflexivity.
  - intros n Hn. destruct (n - 1 <? 0)%Z eqn:E; [apply Z.ltb_lt in E; lia|].
    rewrite (proj2 (lookup_ge_None level (Z.to_nat (n - 1)))) by lia. reflexivity.
  - change (0 - 1 <? 0)%Z with true. cbv iota.
    rewrite last_lookup.
    destruct level as [|x level]; [reflexivity|].
    destruct (- (0 - 1) <=? Z.of_nat (length (x :: level)))%Z eqn:E.
    + replace (Z.to_nat (Z.of_nat (length (x :: level)) + (0 - 1)))
        with (pred (length (x :: level))) by (simpl length; lia).
      destruct ((x :: level) !! pred (length (x :: level))); reflexivity.
    + apply Z.leb_gt in E. simpl length in E. lia.
Qed.

Lemma velocity_cell (hFac G1 G : list (list spec_float)) (filled : nat * list (list spec_float))
    (li : list bool) (nlev N : nat) (v' : list spec_float) (j idx i k : nat) (h : spec_float) :
  Np.bool_index_cols li filled.2 = Some G1 ->
  Np.for_each (Np.range nlev) (InitialConditions.normalize_level hFac) G1 = Some G ->
  Np.positions li !! j = Some idx ->
  Np.get2 filled.2 k idx = v' !! i ->
  length v' = N -> i < N -> k < nlev ->
  Np.get2 hFac k j = Some h ->
  exists x, v' !! i = Some x
            /\ Np.get2 G k j = Some (if F64.ne0 h then F64.div x h else x).
Proof.
  intros HG1 HG Hj Hget Hlen Hi Hk Hh.
  destruct (lookup_lt_is_Some_2 v' i ltac:(lia)) as [x Hx].
  exists x. split; [exact Hx|].
  eapply normalize_levels; [exact HG|exact Hk| |exact Hh].
  rewrite (bool_index_cols_lookup _ _ _ k j HG1), Hj. simpl. rewrite Hget. exact Hx.
Qed.

(** X9. What the interpolator is given for a velocity. The loop body of
    UVEL or VVEL reads no grid of its own shape: it keeps [grid] as the last
    scalar variable left it and takes the tile size from it. At level [k] and
    at the [j]-th source point kept, the array holds the transport of the tile
    and position the point comes from (UVELMASS, or VVELMASS on a tile
    numbered 7 or above, for UVEL; VVELMASS, or the masked product
    -1 * UVELMASS on such a tile, for VVEL: -1 times the UVELMASS value where
    it is not missing and -1.0 where it is), divided by hFacW (UVEL) or hFacS
    (VVEL) of that source point where that factor is not 0. *)
Theorem velocity_init_grid (g : InitialConditions.ecco_grid) (f : InitialConditions.ecco_fields)
    (tiles : list Z) (li : list bool) (p : InitialConditions.ecco_points)
    (cur : InitialConditions.nc_grid) (acc : list (list (list spec_float)))
    (st : option InitialConditions.nc_grid * list (list (list spec_float))) :
  (InitialConditions.read_init_grid g f tiles li p "UVEL" (Some cur, acc) = Some st ->
   exists rf1 G,
     InitialConditions.ecco_RF_tiles g !! 1%Z = Some rf1
     /\ st = (Some cur, acc ++ [G])
     /\ forall j t tile i k h,
          Np.positions li !! j = Some (t * InitialConditions.grid_N cur + i) ->
          tiles !! t = Some tile -> i < InitialConditions.grid_N cur -> k < length rf1 ->
          Np.get2 (InitialConditions.ecco_hFacW_points p) k j = Some h ->
          exists v v' x,
            InitialConditions.tile5
              (if (tile <? 7)%Z then InitialConditions.UVELMASS_nc f
               else InitialConditions.VVELMASS_nc f) k tile = Some v
            /\ Np.broadcast (InitialConditions.grid_N cur) v = Some v'
            /\ v' !! i = Some x
            /\ Np.get2 G k j = Some (if F64.ne0 h then F64.div x h else x))
  /\ (InitialConditions.read_init_grid g f tiles li p "VVEL" (Some cur, acc) = Some st ->
   exists rf1 G,
     InitialConditions.ecco_RF_tiles g !! 1%Z = Some rf1
     /\ st = (Some cur, acc ++ [G])
     /\ forall j t tile i k h,
          Np.positions li !! j = Some (t * InitialConditions.grid_N cur + i) ->
          tiles !! t = Some tile -> i < InitialConditions.grid_N cur -> k < length rf1 ->
          Np.get2 (InitialConditions.ecco_hFacS_points p) k j = Some h ->
          exists v v' x,
            (if (tile <? 7)%Z
             then InitialConditions.tile5 (InitialConditions.VVELMASS_nc f) k tile
             else InitialConditions.minus_u f k tile) = Some v
            /\ Np.broadcast (InitialConditions.grid_N cur) v = Some v'
            /\ v' !! i = Some x
            /\ Np.get2 G k j = Some (if F64.ne0 h then F64.div x h else x)
            /\ ((tile <? 7)%Z = false ->
                exists u,
                  InitialConditions.tile5 (InitialConditions.UVELMASS_nc f) k tile = Some u
                  /\ length v = length u
                  /\ forall (n : nat) y, u !! n = Some y ->
                       v !! n = Some (if InitialConditions.u_missing f k tile n
                                      then F64.minus_one
                                      else F64.mul F64.minus_one y))).
Proof.
  split; intros H; unfold InitialConditions.read_init_grid in H.
  - change (InitialConditions.read_grid f "UVEL" (Some cur)) with (Some (Some cur)) in H.
    change (String.eqb "UVEL" "ETAN") with false in H. cbv iota in H.
    apply bind_Some in H as (grid' & [= <-] & H).
    apply bind_Some in H as (cur' & [= <-] & H).
    apply bind_Some in H as (rf1 & Hrf1 & H).
    apply bind_Some in H as (filled & Hfill & H).
    apply bind_Some in H as (G1 & HG1 & H).
    apply bind_Some in H as (G2 & HG2 & [= <-]).
    unfold InitialConditions.apply_corrections in HG2.
    change (String.eqb "UVEL" "UVEL") with true in HG2.
    change (String.eqb "UVEL" "VVEL") with false in HG2. cbv iota in HG2.
    apply bind_Some in HG2 as (G & HG & [= <-]).
    exists rf1, G. split; [exact Hrf1|]. split; [reflexivity|].
    intros j t tile i k h Hj Ht Hi Hk Hh.
    rewrite (for_each_ext _ _ _ _ (fill_init_tile_UVEL f cur _ _)) in Hfill.
    eapply (fill_tiles_spec _ _ (InitialConditions.grid_N cur * length tiles)) in Hfill
      as (_ & _ & Hin); [|apply length_zeros2|lia].
    destruct (Hin t tile k i Ht Hk Hi) as (v & v' & Hv & Hb & Hget).
    destruct (velocity_cell _ _ _ _ _ _ _ v' j _ i k h HG1 HG Hj Hget
                (broadcast_length _ _ _ Hb) Hi Hk Hh) as (x & Hx & HGx).
    exists v, v', x. auto.
  - change (InitialConditions.read_grid f "VVEL" (Some cur)) with (Some (Some cur)) in H.
    change (String.eqb "VVEL" "ETAN") with false in H. cbv iota in H.
    apply bind_Some in H as (grid' & [= <-] & H).
    apply bind_Some in H as (cur' & [= <-] & H).
    apply bind_Some in H as (rf1 & Hrf1 & H).
    apply bind_Some in H as (filled & Hfill & H).
    apply bind_Some in H as (G1 & HG1 & H).
    apply bind_Some in H as (G2 & HG2 & [= <-]).
    unfold InitialConditions.apply_corrections in HG2.
    change (String.eqb "VVEL" "UVEL") with false in HG2.
    change (String.eqb "VVEL" "VVEL") with true in HG2. cbv iota in HG2.
    simpl mbind in HG2.
    exists rf1, G2. split; [exact Hrf1|]. split; [reflexivity|].
    intros j t tile i k h Hj Ht Hi Hk Hh.
    rewrite (for_each_ext _ _ _ _ (fill_init_tile_VVEL f cur _ _)) in Hfill.
    eapply (fill_tiles_spec _ _ (InitialConditions.grid_N cur * length tiles)) in Hfill
      as (_ & _ & Hin); [|apply length_zeros2|lia].
    destruct (Hin t tile k i Ht Hk Hi) as (v & v' & Hv & Hb & Hget).
    destruct (velocity_cell _ _ _ _ _ _ _ v' j _ i k h HG1 HG2 Hj Hget
                (broadcast_length _ _ _ Hb) Hi Hk Hh) as (x & Hx & HGx).
    exists v, v', x. split; [exact Hv|]. split; [exact Hb|].
    split; [exact Hx|]. split; [exact HGx|].
    intros E. rewrite E in Hv. apply minus_u_spec. exact Hv.
Qed.

(** ** Slice assignment keeps the shape *)

Lemma set_slice_length {A} (a a' : list A) start n v :
  Np.set_slice a start n v = Some a' -> length a' = length a.
Proof.
  unfold Np.set_slice. intros H. apply bind_Some in H as (v' & Hv & [= <-]).
  apply broadcast_length in Hv.
  rewrite !length_app, Hv, length_take, !length_drop, length_take, length_drop. lia.
Qed.

Lemma set_row_slice_lengths {A} (a a' : list (list A)) k start n v L :
  Forall (fun row => length row = L) a ->
  Np.set_row_slice a k start n v = Some a' ->
  Forall (fun row => length row = L) a'.
Proof.
  unfold Np.set_row_slice. intros Ha H.
  apply bind_Some in H as (row & Hrow & H).
  apply bind_Some in H as (row' & Hrow' & [= <-]).
  apply Forall_insert; [exact Ha|].
  rewrite (set_slice_length _ _ _ _ _ Hrow').
  exact (proj1 (Forall_lookup _ _) Ha k row Hrow).
Qed.

Lemma fill_from_lengths src nlev pc N G G' L :
  Forall (fun row : list spec_float => length row = L) G ->
  InitialConditions.fill_from src nlev pc N G = Some G' ->
  Forall (fun row => length row = L) G'.
Proof.
  unfold InitialConditions.fill_from. intros HG.
  apply (for_each_inv (fun a : list (list spec_float) => Forall (fun row => length row = L) a));
    [|exact HG].
  intros k a a' _ Ha H. apply bind_Some in H as (v & _ & H).
  eapply set_row_slice_lengths; eassumption.
Qed.

Lemma fill_init_tile_lengths f grid name nlev N tile st st' L :
  Forall (fun row : list spec_float => length row = L) st.2 ->
  InitialConditions.fill_init_tile f grid name nlev N tile st = Some st' ->
  Forall (fun row => length row = L) st'.2.
Proof.
  destruct st as [pc G]. unfold InitialConditions.fill_init_tile. simpl. intros HG H.
  apply bind_Some in H as (G' & H & [= <-]). simpl.
  destruct (String.eqb name "ETAN").
  - destruct grid as [a|a]; [|discriminate].
    apply bind_Some in H as (v & _ & H). eapply set_row_slice_lengths; eassumption.
  - destruct (contains "VEL" name).
    + apply bind_Some in H as (G1 & H1 & H2).
      assert (HG1 : Forall (fun row => length row = L) G1).
      { destruct (String.eqb name "UVEL"); [|injection H1 as <-; exact HG].
        destruct (tile <? 7)%Z; eapply fill_from_lengths; eassumption. }
      destruct (String.eqb name "VVEL"); [|injection H2 as <-; exact HG1].
      destruct (tile <? 7)%Z; eapply fill_from_lengths; eassumption.
    + destruct grid as [a|a]; [discriminate|]. eapply fill_from_lengths; eassumption.
Qed.

(** X10. The fields must match the grid tile for tile: for a variable whose
    array has at least one row, the loop body ends normally only if the tile
    size taken from [grid], times the number of tiles in use, is the number of
    source points gathered (the length of [local_indices]); with fields of
    another resolution the boolean index raises. *)
Theorem init_grid_needs_matching_tiles (g : InitialConditions.ecco_grid)
    (f : InitialConditions.ecco_fields) (tiles : list Z) (li : list bool)
    (p : InitialConditions.ecco_points) (name : string)
    (grid : option InitialConditions.nc_grid) (acc : list (list (list spec_float)))
    (st : option InitialConditions.nc_grid * list (list (list spec_float))) :
  InitialConditions.read_init_grid g f tiles li p name (grid, acc) = Some st ->
  exists cur rf1,
    InitialConditions.read_grid f name grid = Some (Some cur)
    /\ InitialConditions.ecco_RF_tiles g !! 1%Z = Some rf1
    /\ (name = "ETAN" \/ rf1 <> [] ->
        InitialConditions.grid_N cur * length tiles = length li).
Proof.
  unfold InitialConditions.read_init_grid. intros H.
  apply bind_Some in H as (grid' & Hread & H).
  apply bind_Some in H as (cur & -> & H).
  apply bind_Some in H as (rf1 & Hrf1 & H).
  apply bind_Some in H as (filled & Hfill & H).
  apply bind_Some in H as (G1 & HG1 & _).
  exists cur, rf1. split; [exact Hread|]. split; [exact Hrf1|]. intros Hrows.
  set (L := InitialConditions.grid_N cur * length tiles) in *.
  set (rows := if String.eqb name "ETAN" then 1 else length rf1).
  assert (Hshape : length filled.2 = rows
                   /\ Forall (fun row => length row = L) filled.2).
  { revert Hfill.
    apply (for_each_inv (fun s : nat * list (list spec_float) =>
                           length s.2 = rows /\ Forall (fun row => length row = L) s.2)).
    - intros t s s' _ [Hl HF] Hstep. split.
      + rewrite (fill_init_tile_rows _ _ _ _ _ _ _ _ Hstep). exact Hl.
      + eapply fill_init_tile_lengths; eassumption.
    - simpl. unfold rows. destruct (String.eqb name "ETAN"); split;
        try (unfold Np.zeros2; apply length_replicate); apply length_zeros2. }
  destruct Hshape as [Hl HF].
  apply bool_index_cols_Some in HG1 as (_ & Hli & _).
  assert (Hpos : 0 < length filled.2).
  { rewrite Hl. unfold rows. destruct Hrows as [-> | Hne]; [simpl; lia|].
    destruct (String.eqb name "ETAN"); [lia|]. destruct rf1; [contradiction|simpl; lia]. }
  destruct filled.2 as [|row rest]; [simpl in Hpos; lia|].
  apply Forall_cons in Hli as [Hli _]. apply Forall_cons in HF as [HF _]. congruence.
Qed.

(** ** The shape of a forcing field *)

Lemma broadcast2_Some_rect {A} r c (m m' : list (list A)) :
  Np.broadcast2 r c m = Some m' -> Np.rect2 r c m'.
Proof.
  unfold Np.broadcast2. intros H. apply bind_Some in H as (rows & Hrows & H).
  apply broadcast_length in Hrows. apply mapM_Some in H.
  split.
  - rewrite <- (Forall2_length _ _ _ H). exact Hrows.
  - clear Hrows. induction H as [|row row' rows m' Hrow _ IH]; constructor; [|exact IH].
    eapply broadcast_length. exact Hrow.
Qed.

Lemma interpolate_timesteps_rect interp pts src_mask XC YC surface_mask exf_grid G :
  ExternalForcing.interpolate_timesteps interp pts src_mask XC YC surface_mask exf_grid
    = Some G ->
  Np.rect3 (length exf_grid) (Np.rows XC) (Np.cols XC) G.
Proof.
  intros H. apply interpolate_timesteps_spec in H as (Hlen & Hsteps).
  split; [exact Hlen|]. apply Forall_lookup. intros t lev Hlev.
  pose proof (lookup_lt_Some _ _ _ Hlev) as Ht. rewrite Hlen in Ht.
  destruct (lookup_lt_is_Some_2 exf_grid t Ht) as [slice Hslice].
  destruct (Hsteps t slice Hslice) as (v & v' & _ & Hb & Hg).
  assert (lev = v') as -> by congruence.
  eapply broadcast2_Some_rect. exact Hb.
Qed.

Lemma map3_rect f l r c g : Np.rect3 l r c g -> Np.rect3 l r c (ExternalForcing.map3 f g).
Proof.
  intros [Hl Hg]. unfold ExternalForcing.map3. split; [rewrite length_map; exact Hl|].
  apply Forall_map. eapply Forall_impl; [exact Hg|].
  intros lev [Hr Hc]. simpl. split; [rewrite length_map; exact Hr|].
  apply Forall_map. eapply Forall_impl; [exact Hc|].
  intros row Hrow. simpl. rewrite length_map. exact Hrow.
Qed.

Lemma convert_rect name l r c g :
  Np.rect3 l r c g -> Np.rect3 l r c (ExternalForcing.convert name g).
Proof.
  intros Hg. unfold ExternalForcing.convert.
  destruct (String.eqb name "ATEMP"), (existsb (String.eqb name) ["SWDOWN"; "LWDOWN"]);
    repeat apply map3_rect; exact Hg.
Qed.

Lemma forcing_field_rect interp pts src_mask XC YC surface_mask name exf_grid W :
  ExternalForcing.forcing_field interp pts src_mask XC YC surface_mask name exf_grid = Some W ->
  Np.rect3 (length exf_grid) (Np.rows XC) (Np.cols XC) W.
Proof.
  unfold ExternalForcing.forcing_field. intros H. apply fmap_Some in H as (G & HG & ->).
  apply convert_rect. eapply interpolate_timesteps_rect. exact HG.
Qed.

(** X11. Whatever the interpolator returns, a forcing field has the shape
    (timesteps of the source field, rows of XC, columns of XC): the result of
    each timestep is assigned into an array of that shape, and a result of
    another shape is broadcast or refused. Its file therefore has 4 bytes for
    each of timesteps * rows * columns elements. *)
Theorem forcing_file_size (interp : interp2D) (pts : list point) (src_mask : list spec_float)
    (XC YC surface_mask : list (list spec_float)) (input_dir name : string)
    (exf_grid : list (list (list spec_float))) (fs fs' : gmap string (list byte)) :
  ExternalForcing.interpolate_and_write interp pts src_mask XC YC surface_mask input_dir
    (name, exf_grid) fs = Some fs' ->
  exists W bytes,
    ExternalForcing.forcing_field interp pts src_mask XC YC surface_mask name exf_grid = Some W
    /\ Np.rect3 (length exf_grid) (Np.rows XC) (Np.cols XC) W
    /\ fs' !! ExternalForcing.output_file input_dir name = Some bytes
    /\ length bytes = 4 * (length exf_grid * (Np.rows XC * Np.cols XC)).
Proof.
  unfold ExternalForcing.interpolate_and_write. simpl. intros H.
  apply bind_Some in H as (W & HW & [= <-]).
  pose proof (forcing_field_rect _ _ _ _ _ _ _ _ _ HW) as Hrect.
  exists W, (to_f4_bytes (Np.ravel3 W)). split; [exact HW|]. split; [exact Hrect|].
  split; [apply tofile_lookup|].
  rewrite length_to_f4_bytes, (length_ravel3 _ _ _ _ Hrect). lia.
Qed.

(** ** Loops that write one file per item *)

Lemma for_each_zip_writes {A B} (out : A -> string) (data : A -> B -> option (list byte))
    (body : A * B -> gmap string (list byte) -> option (gmap string (list byte))) :
  (forall a b fs, body (a, b) fs = d ← data a b; Some (<[out a := d]> fs)) ->
  forall names grids fs fs',
    NoDup (map out names) ->
    Np.for_each (zip names grids) body fs = Some fs' ->
    (forall i a b, names !! i = Some a -> grids !! i = Some b ->
       exists d, data a b = Some d /\ fs' !! out a = Some d)
    /\ (forall path, (forall a, a ∈ names -> path <> out a) -> fs' !! path = fs !! path).
Proof.
  intros Hbody. induction names as [|a names IH]; intros grids fs fs' Hnd Hrun.
  - simpl in Hrun. injection Hrun as <-. split; [intros i a b Hi; discriminate|auto].
  - destruct grids as [|b grids].
    + simpl in Hrun. injection Hrun as <-.
      split; [intros i a' b' _ Hb; discriminate|auto].
    + simpl in Hrun, Hnd. apply NoDup_cons in Hnd as [Hnotin Hnd].
      rewrite Hbody in Hrun. apply bind_Some in Hrun as (fs1 & H1 & Hrun).
      apply bind_Some in H1 as (d & Hd & [= <-]).
      destruct (IH grids _ _ Hnd Hrun) as [Hcontent Hframe]. split.
      * intros [|i] a' b' Ha' Hb'; simpl in Ha', Hb'.
        -- injection Ha' as <-. injection Hb' as <-. exists d. split; [exact Hd|].
           rewrite Hframe; [apply lookup_insert_eq|].
           intros a' Ha' E. apply Hnotin. rewrite E.
           apply list_elem_of_fmap. exists a'. auto.
        -- eapply Hcontent; eassumption.
      * intros path Hpath. rewrite Hframe.
        -- apply lookup_insert_ne. apply not_eq_sym, Hpath. left.
        -- intros a' Ha'. apply Hpath. right. exact Ha'.
Qed.

Lemma NoDup_outputs (out : string -> string) (names : list string) :
  (forall a b, a ∈ names -> b ∈ names -> out a = out b -> a = b) ->
  NoDup names -> NoDup (map out names).
Proof. intros Hinj Hnd. apply NoDup_fmap_2_strong; assumption. Qed.

Lemma IC_output_inj dir a b :
  a ∈ InitialConditions.variable_names -> b ∈ InitialConditions.variable_names ->
  InitialConditions.output_file dir a = InitialConditions.output_file dir b -> a = b.
Proof.
  intros Ha Hb. unfold InitialConditions.output_file.
  vm_compute in Ha, Hb.
  repeat (apply elem_of_cons in Ha as [-> | Ha]);
    repeat (apply elem_of_cons in Hb as [-> | Hb]);
    try (inversion Ha; fail); try (inversion Hb; fail);
    intros H; apply path_join_inj in H; try reflexivity; try discriminate H.
Qed.

(** ** The files of the initial conditions *)

Lemma read_init_grids_length g f tiles li p names : forall grid acc st,
  Np.for_each names (InitialConditions.read_init_grid g f tiles li p) (grid, acc) = Some st ->
  length st.2 = length acc + length names.
Proof.
  induction names as [|name names IH]; intros grid acc st H; simpl in H.
  - injection H as <-. simpl. lia.
  - apply bind_Some in H as ([grid1 acc1] & H1 & H).
    apply IH in H. rewrite H. simpl.
    unfold InitialConditions.read_init_grid in H1.
    repeat (apply bind_Some in H1 as (? & _ & H1)).
    injection H1 as _ <-. rewrite length_app. simpl. lia.
Qed.

(** ** What reaches the interpolator *)

Lemma elem_of_positions_from (b : list bool) : forall o i,
  i ∈ Np.positions_from o b <-> o <= i /\ b !! (i - o) = Some true.
Proof.
  induction b as [|x b IH]; intros o i; simpl.
  - rewrite elem_of_nil. split; [contradiction|]. intros [_ H]. discriminate.
  - destruct x.
    + rewrite elem_of_cons, IH. split.
      * intros [-> | [Ho Hb]]; [rewrite Nat.sub_diag; split; [lia|reflexivity]|].
        split; [lia|]. replace (i - o) with (S (i - S o)) by lia. exact Hb.
      * intros [Ho Hb]. destruct (decide (i = o)) as [->|Hne]; [left; reflexivity|].
        right. split; [lia|]. replace (i - o) with (S (i - S o)) in Hb by lia. exact Hb.
    + rewrite IH. split.
      * intros [Ho Hb]. split; [lia|]. replace (i - o) with (S (i - S o)) by lia. exact Hb.
      * intros [Ho Hb]. destruct (decide (i = o)) as [->|Hne].
        { rewrite Nat.sub_diag in Hb. discriminate. }
        split; [lia|]. replace (i - o) with (S (i - S o)) in Hb by lia. exact Hb.
Qed.

(** The index set of [xs < 0]: the positions of the negative entries. *)
Lemma elem_of_positions_lt0 (xs : list spec_float) i :
  i ∈ Np.positions (map F64.lt0 xs) <-> exists x, xs !! i = Some x /\ F64.lt0 x = true.
Proof.
  unfold Np.positions. rewrite elem_of_positions_from, Nat.sub_0_r.
  change (map F64.lt0 xs) with (F64.lt0 <$> xs). rewrite list_lookup_fmap. split.
  - intros [_ H]. apply fmap_Some in H as (x & Hx & Hlt). exists x. auto.
  - intros (x & Hx & Hlt). split; [lia|]. rewrite Hx. simpl. rewrite Hlt. reflexivity.
Qed.

Lemma length_positions_from {A} (b : list bool) (a : list A) : forall o,
  length b = length a -> length (Np.positions_from o b) = length (Np.select b a).
Proof.
  revert a. induction b as [|[] b IH]; intros [|x a] o Hlen; simpl in *; try lia; auto.
Qed.

(** Every iteration of the loop over the variables appends one array. *)
Lemma read_init_grids_steps g f tiles li p names : forall grid acc st,
  Np.for_each names (InitialConditions.read_init_grid g f tiles li p) (grid, acc) = Some st ->
  exists new,
    st.2 = acc ++ new
    /\ Forall2 (fun name G =>
                  exists grid0 acc0 grid1,
                    InitialConditions.read_init_grid g f tiles li p name (grid0, acc0)
                    = Some (grid1, acc0 ++ [G])) names new.
Proof.
  induction names as [|name names IH]; intros grid acc st H; simpl in H.
  - injection H as <-. exists []. split; [symmetry; apply app_nil_r|constructor].
  - apply bind_Some in H as ([grid1 acc1] & H1 & H).
    assert (exists G, acc1 = acc ++ [G]) as [G ->].
    { unfold InitialConditions.read_init_grid in H1.
      repeat (apply bind_Some in H1 as (? & _ & H1)).
      injection H1 as _ <-. eauto. }
    apply IH in H as (new & -> & Hnew).
    exists (G :: new). split; [rewrite <- app_assoc; reflexivity|].
    constructor; [|exact Hnew]. exists grid, acc, grid1. exact H1.
Qed.

(** One iteration: the tile loop fills an array over all the source points,
    the array is indexed by [li], and the corrections run on what is left. *)
Lemma read_init_grid_filtered g f tiles li p name grid0 acc0 grid1 G :
  InitialConditions.read_init_grid g f tiles li p name (grid0, acc0)
  = Some (grid1, acc0 ++ [G]) ->
  exists cur rf1 filled G1,
    InitialConditions.ecco_RF_tiles g !! 1%Z = Some rf1
    /\ Np.for_each tiles
         (InitialConditions.fill_init_tile f cur name (length rf1)
            (InitialConditions.grid_N cur))
         (0, Np.zeros2 (if String.eqb name "ETAN" then 1 else length rf1)
               (InitialConditions.grid_N cur * length tiles)) = Some filled
    /\ Np.bool_index_cols li filled.2 = Some G1
    /\ InitialConditions.apply_corrections p name (length rf1) G1 = Some G.
Proof.
  intros H. unfold InitialConditions.read_init_grid in H.
  apply bind_Some in H as (grid' & _ & H).
  apply bind_Some in H as (cur & _ & H).
  apply bind_Some in H as (rf1 & Hrf1 & H).
  apply bind_Some in H as (filled & Hfill & H).
  apply bind_Some in H as (G1 & HG1 & H).
  apply bind_Some in H as (G2 & HG2 & H).
  injection H as _ H. apply app_inv_head in H. injection H as <-.
  exists cur, rf1, filled, G1. split; [exact Hrf1|]. split; [|auto].
  destruct (String.eqb name "ETAN"); exact Hfill.
Qed.

(** The corrections, entry by entry. *)
Lemma apply_corrections_cell p name nlev G1 G k j x :
  InitialConditions.apply_corrections p name nlev G1 = Some G ->
  Np.get2 G1 k j = Some x ->
  if String.eqb name "UVEL"
  then k < nlev -> forall h, Np.get2 (InitialConditions.ecco_hFacW_points p) k j = Some h ->
         Np.get2 G k j = Some (if F64.ne0 h then F64.div x h else x)
  else if String.eqb name "VVEL"
  then k < nlev -> forall h, Np.get2 (InitialConditions.ecco_hFacS_points p) k j = Some h ->
         Np.get2 G k j = Some (if F64.ne0 h then F64.div x h else x)
  else Np.get2 G k j = Some x.
Proof.
  unfold InitialConditions.apply_corrections. intros H Hx.
  destruct (String.eqb name "UVEL") eqn:EU.
  - apply String.eqb_eq in EU. subst name.
    change (String.eqb "UVEL" "VVEL") with false in H. cbv iota in H.
    apply bind_Some in H as (G2 & H & [= <-]).
    intros Hk h Hh. eapply normalize_levels; eauto.
  - simpl in H. destruct (String.eqb name "VVEL").
    + intros Hk h Hh. eapply normalize_levels; eauto.
    + injection H as <-. exact Hx.
Qed.

(** C5. In a run that ends normally the source points are filtered before
    the interpolation. The interpolator is called, for every variable, on
    the coordinates, the source mask and the values of the points at one
    index set, the positions of the negative longitudes, in increasing
    order: the [j]-th coordinate pair, the [j]-th column of the mask and of
    the hFac arrays, and the [j]-th column of the variable's array all
    belong to the [j]-th such position, the values being those the tile
    loop filled in there (divided by hFacW or hFacS of that point for the
    velocities); every longitude passed is negative, and no array passed has
    a column beyond the index set. *)
Theorem longitude_filter (downscale_3D_points : interp3D)
    (g : InitialConditions.ecco_grid) (f : InitialConditions.ecco_fields)
    (XC YC : list (list spec_float)) (hFacC : list (list (list spec_float)))
    (input_dir : string) (fs fs' : gmap string (list byte)) :
  InitialConditions.run downscale_3D_points g f XC YC hFacC input_dir fs = Some fs' ->
  exists (raw p : InitialConditions.ecco_points) (pts : list point)
         (init_grids : list (list (list spec_float))) (idx : list nat),
    InitialConditions.gather_points g InitialConditions.tile_list = Some raw
    /\ InitialConditions.remove_positive_longitudes raw = Some p
    /\ InitialConditions.read_init_grids g f InitialConditions.tile_list
         (InitialConditions.local_indices raw) p InitialConditions.variable_names
       = Some init_grids
    /\ Np.column_stack (InitialConditions.ecco_XC_points p)
                       (InitialConditions.ecco_YC_points p) = Some pts
    /\ idx = Np.positions (InitialConditions.local_indices raw)
    /\ (forall i, i ∈ idx <-> exists x, InitialConditions.ecco_XC_points raw !! i = Some x
                                        /\ F64.lt0 x = true)
    /\ length pts = length idx
    /\ Forall (fun q => F64.lt0 q.1 = true) pts
    /\ (forall j, pts !! j
                  = idx !! j ≫= fun i =>
                      x ← InitialConditions.ecco_XC_points raw !! i;
                      y ← InitialConditions.ecco_YC_points raw !! i;
                      Some (x, y))
    /\ Forall (fun row => length row = length idx) (InitialConditions.ecco_mask_points p)
    /\ (forall k j, Np.get2 (InitialConditions.ecco_mask_points p) k j
                    = idx !! j ≫= fun i => Np.get2 (InitialConditions.ecco_mask_points raw) k i)
    /\ (forall k j, Np.get2 (InitialConditions.ecco_hFacC_points p) k j
                    = idx !! j ≫= fun i => Np.get2 (InitialConditions.ecco_hFacC_points raw) k i)
    /\ (forall k j, Np.get2 (InitialConditions.ecco_hFacW_points p) k j
                    = idx !! j ≫= fun i => Np.get2 (InitialConditions.ecco_hFacW_points raw) k i)
    /\ (forall k j, Np.get2 (InitialConditions.ecco_hFacS_points p) k j
                    = idx !! j ≫= fun i => Np.get2 (InitialConditions.ecco_hFacS_points raw) k i)
    /\ length init_grids = length InitialConditions.variable_names
    /\ forall n name G,
         InitialConditions.variable_names !! n = Some name -> init_grids !! n = Some G ->
         (exists field,
            downscale_3D_points pts G (InitialConditions.ecco_mask_points p) XC YC
              (InitialConditions.model_mask name (to_mask3 hFacC)) = Some field
            /\ fs' !! InitialConditions.output_file input_dir name
               = Some (to_f4_bytes (Np.ravel3 field)))
         /\ Forall (fun row => length row = length idx) G
         /\ exists cur rf1 filled,
              InitialConditions.ecco_RF_tiles g !! 1%Z = Some rf1
              /\ Np.for_each InitialConditions.tile_list
                   (InitialConditions.fill_init_tile f cur name (length rf1)
                      (InitialConditions.grid_N cur))
                   (0, Np.zeros2 (if String.eqb name "ETAN" then 1 else length rf1)
                         (InitialConditions.grid_N cur
                          * length InitialConditions.tile_list)) = Some filled
              /\ forall k j i x,
                   idx !! j = Some i -> Np.get2 filled.2 k i = Some x ->
                   if String.eqb name "UVEL"
                   then k < length rf1 ->
                        forall h, Np.get2 (InitialConditions.ecco_hFacW_points p) k j = Some h ->
                          Np.get2 G k j = Some (if F64.ne0 h then F64.div x h else x)
                   else if String.eqb name "VVEL"
                   then k < length rf1 ->
                        forall h, Np.get2 (InitialConditions.ecco_hFacS_points p) k j = Some h ->
                          Np.get2 G k j = Some (if F64.ne0 h then F64.div x h else x)
                   else Np.get2 G k j = Some x.
Proof.
  unfold InitialConditions.run. intros H.
  apply bind_Some in H as (raw & Hraw & H).
  apply bind_Some in H as (p & Hp & H).
  apply bind_Some in H as (grids & Hgrids & H).
  pose proof (filter_index_set raw p Hp) as Hidx. simpl in Hidx.
  destruct Hidx as (Hneg & Hxs & Hys & Hm & Hc & Hw & Hs & Hcols & Hstack).
  pose proof (remove_positive_longitudes_shape raw p Hp) as Hshape. simpl in Hshape.
  destruct Hshape as (Hli & Hsel & Hylen & Hmlen & _).
  assert (Hn : length (InitialConditions.ecco_XC_points p)
               = length (Np.positions (InitialConditions.local_indices raw))).
  { rewrite Hsel. symmetry. apply length_positions_from. exact Hli. }
  (* the interpolation loop *)
  unfold InitialConditions.write_initial_conditions in H.
  destruct (for_each_zip_writes (InitialConditions.output_file input_dir)
              (fun name G => (fun field => to_f4_bytes (Np.ravel3 field))
                               <$> InitialConditions.interpolate downscale_3D_points p XC YC
                                     (to_mask3 hFacC) name G)
              (InitialConditions.interpolate_and_write downscale_3D_points p XC YC
                 (to_mask3 hFacC) input_dir))
    with (names := InitialConditions.variable_names) (grids := grids) (fs := fs) (fs' := fs')
    as [Hcontent _].
  { intros a b fs0. unfold InitialConditions.interpolate_and_write. simpl.
    destruct (InitialConditions.interpolate downscale_3D_points p XC YC (to_mask3 hFacC) a b);
      reflexivity. }
  { apply NoDup_outputs; [apply IC_output_inj|]. vm_compute. repeat constructor;
      rewrite ?elem_of_cons, elem_of_nil; intuition discriminate. }
  { exact H. }
  (* the loop over the variables *)
  pose proof Hgrids as Hgrids0.
  unfold InitialConditions.read_init_grids in Hgrids.
  apply bind_Some in Hgrids as (st & Hst & [= <-]).
  pose proof (read_init_grids_length _ _ _ _ _ _ _ _ _ Hst) as Hlen. simpl in Hlen.
  pose proof (read_init_grids_steps _ _ _ _ _ _ _ _ _ Hst) as (new & Hnew & Hsteps).
  simpl in Hnew. subst new.
  (* the coordinate pairs *)
  assert (Hpts : exists pts,
            Np.column_stack (InitialConditions.ecco_XC_points p)
                            (InitialConditions.ecco_YC_points p) = Some pts).
  { unfold Np.column_stack. rewrite Hylen, Nat.eqb_refl. eauto. }
  destruct Hpts as [pts Hpts].
  exists raw, p, pts, st.2, (Np.positions (InitialConditions.local_indices raw)).
  split; [exact Hraw|]. split; [exact Hp|]. split; [exact Hgrids0|].
  split; [exact Hpts|]. split; [reflexivity|].
  split; [intros i; apply elem_of_positions_lt0|].
  assert (Hzip : pts = zip (InitialConditions.ecco_XC_points p)
                           (InitialConditions.ecco_YC_points p)).
  { unfold Np.column_stack in Hpts.
    destruct (_ =? _) in Hpts; [|discriminate]. injection Hpts as <-. reflexivity. }
  split; [rewrite Hzip, length_zip, Hylen, Nat.min_id; exact Hn|].
  split; [exact (Hstack pts Hpts)|].
  split.
  { intros j. rewrite Hzip, lookup_zip_with, Hxs, Hys.
    destruct (Np.positions (InitialConditions.local_indices raw) !! j) as [i|];
      [|reflexivity].
    simpl. destruct (InitialConditions.ecco_XC_points raw !! i); [|reflexivity].
    simpl. destruct (InitialConditions.ecco_YC_points raw !! i); reflexivity. }
  split; [rewrite <- Hn; exact Hmlen|].
  split; [exact Hm|]. split; [exact Hc|]. split; [exact Hw|]. split; [exact Hs|].
  split; [exact Hlen|].
  intros n name G Hname HG.
  destruct (Hcontent n name G Hname HG) as (d & Hd & Hfile).
  apply fmap_Some in Hd as (field & Hfield & ->).
  unfold InitialConditions.interpolate in Hfield. rewrite Hpts in Hfield. simpl in Hfield.
  split; [exists field; split; [exact Hfield|exact Hfile]|].
  destruct (Forall2_lookup_lr _ _ _ _ _ _ Hsteps Hname HG) as (grid0 & acc0 & grid1 & Hstep).
  pose proof (read_init_grid_shape _ _ _ _ _ _ _ _ _ Hp Hstep)
    as (G' & rf1' & HG' & _ & _ & Hrows).
  simpl in HG'. apply app_inv_head in HG'. injection HG' as <-.
  split; [rewrite <- Hn; exact Hrows|].
  destruct (read_init_grid_filtered _ _ _ _ _ _ _ _ _ _ Hstep)
    as (cur & rf1 & filled & G1 & Hrf1 & Hfill & HG1 & Hcorr).
  exists cur, rf1, filled. split; [exact Hrf1|]. split; [exact Hfill|].
  intros k j i x Hj Hx.
  apply (apply_corrections_cell _ _ _ _ _ _ _ _ Hcorr).
  rewrite (Hcols _ _ k j HG1), Hj. exact Hx.
Qed.

(** X12. A run of the initial-conditions notebook that ends normally has
    written one file per variable, <VAR>_IC.bin, holding the interpolation of
    that variable's own array against the source points west of 0 and the
    mask of hFacC; no later variable overwrites it, and every other file is
    as it was. *)
Theorem initial_condition_files (ds : interp3D) (g : InitialConditions.ecco_grid)
    (f : InitialConditions.ecco_fields) (XC YC : list (list spec_float))
    (hFacC : list (list (list spec_float))) (input_dir : string)
    (fs fs' : gmap string (list byte)) :
  InitialConditions.run ds g f XC YC hFacC input_dir fs = Some fs' ->
  exists raw p grids,
    InitialConditions.gather_points g InitialConditions.tile_list = Some raw
    /\ InitialConditions.remove_positive_longitudes raw = Some p
    /\ InitialConditions.read_init_grids g f InitialConditions.tile_list
         (InitialConditions.local_indices raw) p InitialConditions.variable_names
       = Some grids
    /\ length grids = length InitialConditions.variable_names
    /\ (forall i name G,
          InitialConditions.variable_names !! i = Some name -> grids !! i = Some G ->
          exists field,
            InitialConditions.interpolate ds p XC YC (to_mask3 hFacC) name G = Some field
            /\ fs' !! InitialConditions.output_file input_dir name
               = Some (to_f4_bytes (Np.ravel3 field)))
    /\ (forall path,
          (forall name, name ∈ InitialConditions.variable_names ->
                        path <> InitialConditions.output_file input_dir name) ->
          fs' !! path = fs !! path).
Proof.
  unfold InitialConditions.run. intros H.
  apply bind_Some in H as (raw & Hraw & H).
  apply bind_Some in H as (p & Hp & H).
  apply bind_Some in H as (grids & Hgrids & H).
  exists raw, p, grids. split; [exact Hraw|]. split; [exact Hp|]. split; [exact Hgrids|].
  split.
  { unfold InitialConditions.read_init_grids in Hgrids.
    apply bind_Some in Hgrids as (st & Hst & [= <-]).
    apply read_init_grids_length in Hst. exact Hst. }
  unfold InitialConditions.write_initial_conditions in H.
  destruct (for_each_zip_writes (InitialConditions.output_file input_dir)
              (fun name G => (fun field => to_f4_bytes (Np.ravel3 field))
                               <$> InitialConditions.interpolate ds p XC YC
                                     (to_mask3 hFacC) name G)
              (InitialConditions.interpolate_and_write ds p XC YC (to_mask3 hFacC) input_dir))
    with (names := InitialConditions.variable_names) (grids := grids) (fs := fs) (fs' := fs')
    as [Hcontent Hframe].
  - intros a b fs0. unfold InitialConditions.interpolate_and_write. simpl.
    destruct (InitialConditions.interpolate ds p XC YC (to_mask3 hFacC) a b); reflexivity.
  - apply NoDup_outputs; [apply IC_output_inj|]. vm_compute. repeat constructor;
      rewrite ?elem_of_cons, elem_of_nil; intuition discriminate.
  - exact H.
  - split; [|exact Hframe].
    intros i name G Hi HG. destruct (Hcontent i name G Hi HG) as (d & Hd & Hfile).
    apply fmap_Some in Hd as (field & Hfield & ->). exists field. auto.
Qed.

(** ** The files of the external forcing *)

Lemma read_exf_grids_spec rd names : forall st0 st,
  Np.for_each names (ExternalForcing.read_exf_grid rd) st0 = Some st ->
  exists files,
    Forall2 (fun name file =>
               exists prefix, ExternalForcing.prefix_of name = Some prefix
                              /\ rd prefix ExternalForcing.year = Some file) names files
    /\ st.2 = st0.2 ++ map ExternalForcing.exf_grid files
    /\ st.1 = match last files with
              | Some file => Some (ExternalForcing.exf_lon file, ExternalForcing.exf_lat file)
              | None => st0.1
              end.
Proof.
  induction names as [|name names IH]; intros st0 st H; simpl in H.
  - injection H as <-. exists []. simpl. rewrite app_nil_r. auto.
  - apply bind_Some in H as (st1 & H1 & H).
    unfold ExternalForcing.read_exf_grid in H1.
    apply bind_Some in H1 as (prefix & Hprefix & H1).
    apply bind_Some in H1 as (file & Hfile & [= <-]).
    apply IH in H as (files & HF & H2 & H1). simpl in H1, H2.
    exists (file :: files). split; [constructor; eauto|]. split.
    + rewrite H2, <- app_assoc. reflexivity.
    + rewrite H1, (last_cons file). destruct (last files); reflexivity.
Qed.

Lemma EXF_output_inj dir a b :
  a ∈ ExternalForcing.variable_names -> b ∈ ExternalForcing.variable_names ->
  ExternalForcing.output_file dir a = ExternalForcing.output_file dir b -> a = b.
Proof.
  intros Ha Hb. unfold ExternalForcing.output_file.
  vm_compute in Ha, Hb.
  repeat (apply elem_of_cons in Ha as [-> | Ha]);
    repeat (apply elem_of_cons in Hb as [-> | Hb]);
    try (inversion Ha; fail); try (inversion Hb; fail);
    intros H; apply path_join_inj in H; try reflexivity; try discriminate H.
Qed.

Lemma write_forcing_spec interp pts src_mask XC YC surface_mask input_dir grids fs fs' :
  ExternalForcing.write_forcing interp pts src_mask XC YC surface_mask input_dir
    ExternalForcing.variable_names grids fs = Some fs' ->
  (forall i name G,
     ExternalForcing.variable_names !! i = Some name -> grids !! i = Some G ->
     exists W,
       ExternalForcing.forcing_field interp pts src_mask XC YC surface_mask name G = Some W
       /\ fs' !! ExternalForcing.output_file input_dir name
          = Some (to_f4_bytes (Np.ravel3 W)))
  /\ (forall path,
        (forall name, name ∈ ExternalForcing.variable_names ->
                      path <> ExternalForcing.output_file input_dir name) ->
        fs' !! path = fs !! path).
Proof.
  unfold ExternalForcing.write_forcing. intros H.
  destruct (for_each_zip_writes (ExternalForcing.output_file input_dir)
              (fun name G => (fun W => to_f4_bytes (Np.ravel3 W))
                               <$> ExternalForcing.forcing_field interp pts src_mask
                                     XC YC surface_mask name G)
              (ExternalForcing.interpolate_and_write interp pts src_mask
                 XC YC surface_mask input_dir))
    with (names := ExternalForcing.variable_names) (grids := grids) (fs := fs) (fs' := fs')
    as [Hcontent Hframe].
  - intros a b fs0. unfold ExternalForcing.interpolate_and_write. simpl.
    destruct (ExternalForcing.forcing_field _ _ _ _ _ _ a b); reflexivity.
  - apply NoDup_outputs; [apply EXF_output_inj|]. vm_compute. repeat constructor;
      rewrite ?elem_of_cons, elem_of_nil; intuition discriminate.
  - exact H.
  - split; [|exact Hframe].
    intros i name G Hi HG. destruct (Hcontent i name G Hi HG) as (d & Hd & Hout).
    apply fmap_Some in Hd as (W & HW & ->). exists W. auto.
Qed.

(** X13. A run of the external-forcing notebook that ends normally has read
    one file per variable and written one file per variable, exf/<VAR>_2008,
    holding that variable's own field; the source points of every variable
    are the longitudes and latitudes of the last file read; no later variable
    overwrites a file, and every other file is as it was. *)
Theorem forcing_files (rd : string -> nat -> option ExternalForcing.exf_file)
    (interp : interp2D) (XC YC surface_mask : list (list spec_float)) (input_dir : string)
    (fs fs' : gmap string (list byte)) :
  ExternalForcing.run rd interp XC YC surface_mask input_dir fs = Some fs' ->
  exists files lastf pts,
    Forall2 (fun name file =>
               exists prefix, ExternalForcing.prefix_of name = Some prefix
                              /\ rd prefix ExternalForcing.year = Some file)
      ExternalForcing.variable_names files
    /\ last files = Some lastf
    /\ ExternalForcing.ecco_points (ExternalForcing.exf_lon lastf)
         (ExternalForcing.exf_lat lastf) = Some pts
    /\ (forall i name file,
          ExternalForcing.variable_names !! i = Some name -> files !! i = Some file ->
          exists W,
            ExternalForcing.forcing_field interp pts
              (ExternalForcing.ecco_mask (ExternalForcing.exf_lon lastf)
                 (ExternalForcing.exf_lat lastf))
              XC YC surface_mask name (ExternalForcing.exf_grid file) = Some W
            /\ fs' !! ExternalForcing.output_file input_dir name
               = Some (to_f4_bytes (Np.ravel3 W)))
    /\ (forall path,
          (forall name, name ∈ ExternalForcing.variable_names ->
                        path <> ExternalForcing.output_file input_dir name) ->
          fs' !! path = fs !! path).
Proof.
  unfold ExternalForcing.run. intros H.
  apply bind_Some in H as (st & Hst & H).
  apply bind_Some in H as ([lon lat] & Hll & H).
  apply bind_Some in H as (pts & Hpts & H). simpl in Hpts, H.
  apply read_exf_grids_spec in Hst as (files & HF & Hgrids & Hlast). simpl in Hgrids, Hlast.
  destruct (last files) as [lastf|] eqn:El; [|congruence].
  rewrite Hll in Hlast. injection Hlast as -> ->.
  exists files, lastf, pts. split; [exact HF|]. split; [exact El|]. split; [exact Hpts|].
  rewrite Hgrids in H. apply write_forcing_spec in H as [Hcontent Hframe].
  split; [|exact Hframe].
  intros i name file Hi Hfile. apply (Hcontent i name); [exact Hi|].
  change map with (@fmap list _). rewrite list_lookup_fmap, Hfile. reflexivity.
Qed.

(** ** The zero-wind files *)

Lemma zero_wind_Some input_dir name fs wind :
  fs !! ExternalForcing.output_file input_dir name = Some wind ->
  ExternalForcing.zero_wind input_dir name fs
  = Some (<[ExternalForcing.zero_file input_dir name
             := concat (map F32.encode (ExternalForcing.times_zero (from_f4_bytes wind)))]> fs).
Proof. intros H. unfold ExternalForcing.zero_wind, fromfile. rewrite H. reflexivity. Qed.

Lemma make_zero_winds_Some input_dir fs u v :
  fs !! ExternalForcing.output_file input_dir "UWIND" = Some u ->
  fs !! ExternalForcing.output_file input_dir "VWIND" = Some v ->
  ExternalForcing.make_zero_winds input_dir fs
  = Some (<[ExternalForcing.zero_file input_dir "VWIND"
             := concat (map F32.encode (ExternalForcing.times_zero (from_f4_bytes v)))]>
            (<[ExternalForcing.zero_file input_dir "UWIND"
                := concat (map F32.encode (ExternalForcing.times_zero (from_f4_bytes u)))]> fs)).
Proof.
  intros Hu Hv. unfold ExternalForcing.make_zero_winds.
  rewrite (zero_wind_Some _ _ _ _ Hu). simpl.
  apply zero_wind_Some. rewrite lookup_insert_ne by (apply zero_file_ne_output; auto).
  exact Hv.
Qed.

(** X14. The zero-wind step ends normally exactly when both wind files
    exist; a missing UWIND_2008 or VWIND_2008 makes it fail. *)
Theorem zero_winds_need_wind_files (input_dir : string) (fs : gmap string (list byte)) :
  is_Some (ExternalForcing.make_zero_winds input_dir fs)
  <-> is_Some (fs !! ExternalForcing.output_file input_dir "UWIND")
      /\ is_Some (fs !! ExternalForcing.output_file input_dir "VWIND").
Proof.
  split.
  - intros [fs' H]. unfold ExternalForcing.make_zero_winds in H.
    apply bind_Some in H as (fs1 & Hu & Hv).
    apply zero_wind_spec in Hu as (u & Hu & ->).
    apply zero_wind_spec in Hv as (v & Hv & _).
    rewrite lookup_insert_ne in Hv by (apply zero_file_ne_output; auto).
    eauto.
  - intros [[u Hu] [v Hv]]. rewrite (make_zero_winds_Some _ _ _ _ Hu Hv). eauto.
Qed.

(** X15. The zero-wind step changes no file but the two it writes, and
    running it again gives the same files. *)
Theorem zero_winds_idempotent (input_dir : string) (fs fs' : gmap string (list byte)) :
  ExternalForcing.make_zero_winds input_dir fs = Some fs' ->
  ExternalForcing.make_zero_winds input_dir fs' = Some fs'
  /\ (forall path,
        path <> ExternalForcing.zero_file input_dir "UWIND" ->
        path <> ExternalForcing.zero_file input_dir "VWIND" ->
        fs' !! path = fs !! path).
Proof.
  intros H. unfold ExternalForcing.make_zero_winds in H.
  apply bind_Some in H as (fs1 & Hu & Hv).
  apply zero_wind_spec in Hu as (u & Hu & ->).
  apply zero_wind_spec in Hv as (v & Hv & ->).
  rewrite lookup_insert_ne in Hv by (apply zero_file_ne_output; auto).
  split.
  - rewrite (make_zero_winds_Some input_dir _ u v).
    + f_equal. apply map_eq. intros path.
      destruct (decide (path = ExternalForcing.zero_file input_dir "VWIND")) as [->|HV].
      { rewrite !lookup_insert_eq. reflexivity. }
      rewrite !(lookup_insert_ne _ (ExternalForcing.zero_file input_dir "VWIND"))
        by (apply not_eq_sym; exact HV).
      destruct (decide (path = ExternalForcing.zero_file input_dir "UWIND")) as [->|HU].
      { rewrite !lookup_insert_eq. reflexivity. }
      rewrite !(lookup_insert_ne _ (ExternalForcing.zero_file input_dir "UWIND"))
        by (apply not_eq_sym; exact HU).
      rewrite !(lookup_insert_ne _ (ExternalForcing.zero_file input_dir "VWIND"))
        by (apply not_eq_sym; exact HV).
      rewrite !(lookup_insert_ne _ (ExternalForcing.zero_file input_dir "UWIND"))
        by (apply not_eq_sym; exact HU).
      reflexivity.
    + rewrite !lookup_insert_ne by (apply zero_file_ne_output; auto). exact Hu.
    + rewrite !lookup_insert_ne by (apply zero_file_ne_output; auto). exact Hv.
  - intros path HU HV. rewrite !lookup_insert_ne by (apply not_eq_sym; assumption).
    reflexivity.
Qed.

(** ** Masks *)

Lemma to_mask1_idem x : to_mask1 (to_mask1 x) = to_mask1 x.
Proof.
  unfold to_mask1. destruct (F64.gt0 x) eqn:E; [reflexivity|]. rewrite E. reflexivity.
Qed.

Lemma to_mask1_ne0 x : F64.ne0 (to_mask1 x) = F64.ne0 x.
Proof.
  unfold to_mask1. destruct (F64.gt0 x) eqn:E; [|reflexivity].
  destruct x as [s|[]| |[] m e]; try discriminate E; reflexivity.
Qed.

Lemma to_mask1_binary x :
  x <> S754_nan -> F64.lt0 x = false ->
  to_mask1 x = F64.one \/ exists s, to_mask1 x = S754_zero s.
Proof.
  intros Hnan Hlt. unfold to_mask1. destruct (F64.gt0 x) eqn:E; [left; reflexivity|].
  right. destruct x as [s|s| |s m e].
  - exists s. reflexivity.
  - destruct s; discriminate.
  - contradiction.
  - destruct s; discriminate.
Qed.

(** X16. The mask made of an hFac field: a cell is 1 where hFac is above
    0 and keeps the hFac value elsewhere, so it is non-zero exactly where
    hFac is, it is 0 or 1 wherever hFac is neither negative nor NaN, and
    masking a mask changes nothing. *)
Theorem mask_of_hFac (h : list (list (list spec_float))) :
  to_mask3 (to_mask3 h) = to_mask3 h
  /\ (forall k i j, Np.get3 (to_mask3 h) k i j = to_mask1 <$> Np.get3 h k i j)
  /\ (forall k i j m, Np.get3 (to_mask3 h) k i j = Some m ->
        exists x, Np.get3 h k i j = Some x
          /\ F64.ne0 m = F64.ne0 x
          /\ (F64.gt0 x = true -> m = F64.one)
          /\ (x <> S754_nan -> F64.lt0 x = false ->
              m = F64.one \/ exists s, m = S754_zero s)).
Proof.
  assert (Hget : forall k i j, Np.get3 (to_mask3 h) k i j = to_mask1 <$> Np.get3 h k i j).
  { intros k i j. unfold Np.get3, to_mask3, to_mask2.
    change map with (@fmap list _). rewrite list_lookup_fmap.
    destruct (h !! k) as [lev|]; [|reflexivity]. simpl.
    change map with (@fmap list _). rewrite list_lookup_fmap.
    destruct (lev !! i) as [row|]; [|reflexivity]. simpl.
    change map with (@fmap list _). apply list_lookup_fmap. }
  split; [|split; [exact Hget|]].
  - unfold to_mask3, to_mask2. rewrite map_map. apply map_ext. intros lev.
    rewrite map_map. apply map_ext. intros row.
    rewrite map_map. apply map_ext. apply to_mask1_idem.
  - intros k i j m Hm. rewrite Hget in Hm. apply fmap_Some in Hm as (x & Hx & ->).
    exists x. split; [exact Hx|]. split; [apply to_mask1_ne0|]. split.
    + intros Hgt. unfold to_mask1. rewrite Hgt. reflexivity.
    + apply to_mask1_binary.
Qed.

(** ** The source points of the forcing fields *)

Lemma ecco_points_Some lon lat :
  exists pts,
    ExternalForcing.ecco_points lon lat = Some pts
    /\ length pts = length lat * length lon
    /\ pts = zip (Np.ravel2 (Np.meshgrid lon lat).1) (Np.ravel2 (Np.meshgrid lon lat).2).
Proof.
  unfold ExternalForcing.ecco_points, Np.meshgrid, Np.column_stack, Np.ravel2. simpl.
  assert (H1 : length (concat (map (fun _ : spec_float => lon) lat))
               = length lat * length lon).
  { rewrite (length_concat_rect (length lon)), length_map; [reflexivity|].
    apply Forall_map, Forall_true. reflexivity. }
  assert (H2 : length (concat (map (fun yv : spec_float => map (fun _ => yv) lon) lat))
               = length lat * length lon).
  { rewrite (length_concat_rect (length lon)), length_map; [reflexivity|].
    apply Forall_map, Forall_true. intros y. simpl. apply length_map. }
  rewrite H1, H2, Nat.eqb_refl. eexists. split; [reflexivity|]. split; [|reflexivity].
  rewrite length_zip_with. lia.
Qed.

(** X17. The source points of a forcing field line up with its values: for
    a field of one row per latitude and one column per longitude, entry
    [i * nlon + j] of the points is (longitude j, latitude i) and entry
    [i * nlon + j] of the ravelled values is the value at row i, column j; the
    source mask is 1 at every point. There is always a point array, of
    nlat * nlon points. *)
Theorem exf_points_aligned (lon lat : list spec_float) (slice : list (list spec_float))
    (i j : nat) (x : spec_float) :
  Np.rect2 (length lat) (length lon) slice ->
  Np.get2 slice i j = Some x ->
  exists pts lo la,
    ExternalForcing.ecco_points lon lat = Some pts
    /\ length pts = length (Np.ravel2 slice)
    /\ ExternalForcing.ecco_mask lon lat = replicate (length pts) F64.one
    /\ lon !! j = Some lo /\ lat !! i = Some la
    /\ pts !! (i * length lon + j) = Some (lo, la)
    /\ Np.ravel2 slice !! (i * length lon + j) = Some x.
Proof.
  intros Hrect Hx.
  destruct (get2_bounds _ _ _ _ _ _ Hrect Hx) as [Hi Hj].
  destruct (ecco_points_Some lon lat) as (pts & Hpts & Hlen & Heq).
  destruct (lookup_lt_is_Some_2 lon j Hj) as [lo Hlo].
  destruct (lookup_lt_is_Some_2 lat i Hi) as [la Hla].
  exists pts, lo, la. split; [exact Hpts|].
  destruct Hrect as [Hr Hc].
  assert (Hsl : length (Np.ravel2 slice) = length lat * length lon).
  { unfold Np.ravel2. rewrite (length_concat_rect _ _ Hc), Hr. reflexivity. }
  assert (Hmesh : length (Np.ravel2 (Np.meshgrid lon lat).1) = length lat * length lon).
  { unfold Np.meshgrid, Np.ravel2. simpl.
    rewrite (length_concat_rect (length lon)), length_map; [reflexivity|].
    apply Forall_map, Forall_true. reflexivity. }
  split; [congruence|]. split.
  { unfold ExternalForcing.ecco_mask, Np.ones, Np.size2. rewrite Hmesh, Hlen. reflexivity. }
  split; [exact Hlo|]. split; [exact Hla|]. split.
  - rewrite Heq. apply lookup_zip_with_Some. exists lo, la. split; [reflexivity|].
    unfold Np.meshgrid, Np.ravel2. simpl. split.
    + rewrite (lookup_concat_rect (length lon) _ i j lon); [exact Hlo| | |exact Hj].
      * apply Forall_map, Forall_true. reflexivity.
      * change map with (@fmap list _). rewrite list_lookup_fmap, Hla. reflexivity.
    + rewrite (lookup_concat_rect (length lon) _ i j (map (fun _ => la) lon)); [| | |exact Hj].
      * change map with (@fmap list _). rewrite list_lookup_fmap, Hlo. reflexivity.
      * apply Forall_map, Forall_true. intros y. simpl. apply length_map.
      * change map with (@fmap list _). rewrite list_lookup_fmap, Hla. reflexivity.
  - unfold Np.get2 in Hx. apply bind_Some in Hx as (row & Hrow & Hx).
    unfold Np.ravel2. rewrite (lookup_concat_rect (length lon) _ i j row); assumption.
Qed.

Lemma length_zero_bytes wind :
  length (concat (map F32.encode (ExternalForcing.times_zero (from_f4_bytes wind))))
  = 4 * (length wind / 4).
Proof.
  rewrite (length_concat_rect 4).
  - unfold ExternalForcing.times_zero. rewrite !length_map, length_from_f4_bytes. lia.
  - apply Forall_map, Forall_true. intros y. reflexivity.
Qed.

(** X18. After a run of the forcing notebook that ends normally the
    zero-wind step ends normally too, and each zero-wind file is exactly as
    long as the wind file it is made from. *)
Theorem zero_winds_after_run (rd : string -> nat -> option ExternalForcing.exf_file)
    (interp : interp2D) (XC YC surface_mask : list (list spec_float)) (input_dir : string)
    (fs fs1 : gmap string (list byte)) :
  ExternalForcing.run rd interp XC YC surface_mask input_dir fs = Some fs1 ->
  exists fs2,
    ExternalForcing.make_zero_winds input_dir fs1 = Some fs2
    /\ forall name, name = "UWIND" \/ name = "VWIND" ->
         exists wind zero,
           fs2 !! ExternalForcing.output_file input_dir name = Some wind
           /\ fs2 !! ExternalForcing.zero_file input_dir name = Some zero
           /\ length zero = length wind.
Proof.
  unfold ExternalForcing.run. intros Hrun.
  apply bind_Some in Hrun as (st & Hst & Hrun).
  apply bind_Some in Hrun as (lonlat & _ & Hrun).
  apply bind_Some in Hrun as (pts & _ & Hrun).
  apply read_exf_grids_spec in Hst as (files & HF & Hgrids & _). simpl in Hgrids.
  apply write_forcing_spec in Hrun as [Hcontent _].
  pose proof (Forall2_length _ _ _ HF) as Hlen.
  change (length ExternalForcing.variable_names) with 7 in Hlen.
  assert (Hl : length st.2 = 7) by (rewrite Hgrids, length_map; lia).
  destruct (lookup_lt_is_Some_2 st.2 4 ltac:(lia)) as [gu Hgu].
  destruct (lookup_lt_is_Some_2 st.2 5 ltac:(lia)) as [gv Hgv].
  destruct (Hcontent 4 "UWIND" gu eq_refl Hgu) as (Wu & _ & Hu).
  destruct (Hcontent 5 "VWIND" gv eq_refl Hgv) as (Wv & _ & Hv).
  eexists. split; [exact (make_zero_winds_Some _ _ _ _ Hu Hv)|].
  assert (Hquarter : forall a, 4 * (length (to_f4_bytes a) / 4) = length (to_f4_bytes a)).
  { intros a. rewrite length_to_f4_bytes, Nat.div_mul by lia. lia. }
  intros name [-> | ->]; eexists; eexists.
  - split; [|split].
    + rewrite !lookup_insert_ne by (apply zero_file_ne_output; auto). exact Hu.
    + rewrite lookup_insert_ne by (apply not_eq_sym, zero_file_ne_zero).
      apply lookup_insert_eq.
    + rewrite length_zero_bytes. apply Hquarter.
  - split; [|split].
    + rewrite !lookup_insert_ne by (apply zero_file_ne_output; auto). exact Hv.
    + apply lookup_insert_eq.
    + rewrite length_zero_bytes. apply Hquarter.
Qed.

(** ** Reading a file back for a plot *)

Lemma length_chunks {A} k n (a : list A) : length (Np.chunks k n a) = k.
Proof. revert a. induction k as [|k IH]; intros a; simpl; [reflexivity|]. rewrite IH. reflexivity. Qed.

Lemma length_readback a : length (from_f4_bytes (to_f4_bytes a)) = length a.
Proof. rewrite length_from_f4_bytes, length_to_f4_bytes. apply Nat.div_mul. lia. Qed.

Lemma reshape3_first {A} l r c (a : list A) :
  is_Some (Np.reshape3 l r c a ≫= (.!! 0)) <-> length a = l * (r * c) /\ 0 < l.
Proof.
  unfold Np.reshape3. destruct (_ =? _) eqn:E.
  - apply Nat.eqb_eq in E. simpl. rewrite lookup_lt_is_Some, length_map, length_chunks. tauto.
  - apply Nat.eqb_neq in E. simpl. split; [intros [x Hx]; discriminate|tauto].
Qed.

(** X19. The plot of a forcing field reads its file back as 366 * 4
    timesteps: on a grid with at least one cell it ends normally exactly when
    the field written has 1464 timesteps, whatever the values. *)
Theorem forcing_plot_needs_1464 (interp : interp2D) (pts : list point)
    (src_mask : list spec_float) (XC YC surface_mask : list (list spec_float))
    (input_dir name : string) (exf_grid : list (list (list spec_float)))
    (fs fs' : gmap string (list byte)) :
  ExternalForcing.interpolate_and_write interp pts src_mask XC YC surface_mask input_dir
    (name, exf_grid) fs = Some fs' ->
  (is_Some (ExternalForcing.plot_grid input_dir name XC fs')
   <-> length exf_grid * (Np.rows XC * Np.cols XC) = 1464 * (Np.rows XC * Np.cols XC))
  /\ (0 < Np.rows XC * Np.cols XC ->
      is_Some (ExternalForcing.plot_grid input_dir name XC fs') <-> length exf_grid = 1464).
Proof.
  unfold ExternalForcing.interpolate_and_write. simpl. intros H.
  apply bind_Some in H as (W & HW & [= <-]).
  pose proof (forcing_field_rect _ _ _ _ _ _ _ _ _ HW) as Hrect.
  assert (Hiff : is_Some (ExternalForcing.plot_grid input_dir name XC
                            (tofile (ExternalForcing.output_file input_dir name)
                               (Np.ravel3 W) fs))
                 <-> length exf_grid * (Np.rows XC * Np.cols XC)
                     = 1464 * (Np.rows XC * Np.cols XC)).
  { unfold ExternalForcing.plot_grid. rewrite fromfile_tofile.
    change (is_Some (Np.reshape3 (366 * 4) (Np.rows XC) (Np.cols XC)
                       (from_f4_bytes (to_f4_bytes (Np.ravel3 W))) ≫= (.!! 0))
            <-> length exf_grid * (Np.rows XC * Np.cols XC)
                = 1464 * (Np.rows XC * Np.cols XC)).
    rewrite reshape3_first, length_readback, (length_ravel3 _ _ _ _ Hrect).
    change (366 * 4) with 1464. split; [tauto|]. intros E. split; [exact E|lia]. }
  split; [exact Hiff|]. intros Hpos. rewrite Hiff. split; [|intros ->; reflexivity].
  intros E. apply Nat.mul_cancel_r in E; [exact E|lia].
Qed.

(** X20. The plot of an initial-condition field other than ETAN shows
    level 10 of the field written (the eleventh level, not the surface):
    with float32-representable values, the array plotted widens to that
    level. *)
Theorem plotted_level (ds : interp3D) (p : InitialConditions.ecco_points)
    (XC YC : list (list spec_float)) (mask : list (list (list spec_float)))
    (input_dir name : string) (init_grid : list (list spec_float))
    (fs fs' : gmap string (list byte)) (g : list (list (list spec_float))) :
  name <> "ETAN" ->
  InitialConditions.interpolate ds p XC YC mask name init_grid = Some g ->
  InitialConditions.interpolate_and_write ds p XC YC mask input_dir (name, init_grid) fs
    = Some fs' ->
  f32_exact (Np.ravel3 g) ->
  Np.rect3 (length InitialConditions.delR) (Np.rows XC) (Np.cols XC) g ->
  exists lev m32,
    g !! 10 = Some lev
    /\ InitialConditions.plot_grid input_dir name XC fs' = Some m32
    /\ map (map F32.to_f64) m32 = lev.
Proof.
  intros Hne Hg Hw Hx Hrect.
  unfold InitialConditions.interpolate_and_write in Hw. simpl in Hw.
  rewrite Hg in Hw. simpl in Hw. injection Hw as <-.
  destruct (f4_roundtrip3 (InitialConditions.output_file input_dir name) fs _ _ _ g Hrect Hx)
    as (g32 & Hread & Hwiden).
  unfold InitialConditions.plot_grid. apply String.eqb_neq in Hne. rewrite Hne.
  assert (Hrb : InitialConditions.read_back input_dir name XC
                  (tofile (InitialConditions.output_file input_dir name) (Np.ravel3 g) fs)
                = Some g32) by exact Hread.
  rewrite Hrb. simpl.
  assert (Hl : 10 < length g).
  { destruct Hrect as [-> _]. unfold InitialConditions.delR. rewrite length_map.
    vm_compute. lia. }
  destruct (lookup_lt_is_Some_2 g 10 Hl) as [lev Hlev].
  rewrite <- Hwiden in Hlev. change map with (@fmap list _) in Hlev at 1.
  rewrite list_lookup_fmap in Hlev. apply fmap_Some in Hlev as (m32 & Hm & ->).
  exists (map (map F32.to_f64) m32), m32. rewrite <- Hwiden.
  change map with (@fmap list _) at 1. rewrite list_lookup_fmap, Hm. auto.
Qed.

(** X21. What a forcing file holds where the interpolation gave 0, as it
    does at a closed cell: the conversion comes after the interpolation, so
    the four bytes of the cell are those of 273.15 in the ATEMP file, of -0 in
    the SWDOWN and LWDOWN files, and of 0 in every other file. *)
Theorem zero_cell_bytes (interp : interp2D) (pts : list point) (src_mask : list spec_float)
    (XC YC surface_mask : list (list spec_float)) (input_dir name : string)
    (exf_grid G : list (list (list spec_float))) (fs fs' : gmap string (list byte))
    (t i j : nat) :
  ExternalForcing.interpolate_timesteps interp pts src_mask XC YC surface_mask exf_grid
    = Some G ->
  Np.get3 G t i j = Some F64.zero ->
  ExternalForcing.interpolate_and_write interp pts src_mask XC YC surface_mask input_dir
    (name, exf_grid) fs = Some fs' ->
  exists bytes,
    fs' !! ExternalForcing.output_file input_dir name = Some bytes
    /\ take 4 (drop (4 * ((t * Np.rows XC + i) * Np.cols XC + j)) bytes)
       = (if String.eqb name "ATEMP" then [x43; x88; x93; x33]
          else if existsb (String.eqb name) ["SWDOWN"; "LWDOWN"] then [x80; x00; x00; x00]
               else [x00; x00; x00; x00]).
Proof.
  intros HG Hcell Hw.
  unfold ExternalForcing.interpolate_and_write, ExternalForcing.forcing_field in Hw.
  simpl in Hw. rewrite HG in Hw. simpl in Hw. injection Hw as <-.
  exists (to_f4_bytes (Np.ravel3 (ExternalForcing.convert name G))).
  split; [apply tofile_lookup|].
  pose proof (convert_rect name _ _ _ _ (interpolate_timesteps_rect _ _ _ _ _ _ _ _ HG))
    as Hrect.
  destruct (f4_layout3 _ _ _ _ Hrect) as [_ Hbytes].
  clear Hrect. revert Hbytes. unfold ExternalForcing.convert.
  destruct (String.eqb name "ATEMP") eqn:Ea.
  - apply String.eqb_eq in Ea. subst name.
    change (existsb (String.eqb "ATEMP") ["SWDOWN"; "LWDOWN"]) with false.
    cbv iota. intros Hbytes.
    rewrite (Hbytes t i j (F64.add F64.zero F64.lit_273_15))
      by (rewrite get3_map3, Hcell; reflexivity).
    vm_compute. reflexivity.
  - destruct (existsb (String.eqb name) ["SWDOWN"; "LWDOWN"]); intros Hbytes.
    + rewrite (Hbytes t i j (F64.mul F64.zero F64.minus_one))
        by (rewrite get3_map3, Hcell; reflexivity).
      vm_compute. reflexivity.
    + rewrite (Hbytes t i j F64.zero) by exact Hcell.
      vm_compute. reflexivity.
Qed.

(** ** Reading a flat file *)

Lemma from_f4_bytes_fuel_lookup n : forall bs k,
  length bs / 4 <= n -> k < length bs / 4 ->
  exists b0 b1 b2 b3,
    take 4 (drop (4 * k) bs) = [b0; b1; b2; b3]
    /\ from_f4_bytes_fuel n bs !! k = Some (F32.decode b0 b1 b2 b3).
Proof.
  induction n as [|n IH]; intros bs k Hn Hk; [lia|].
  destruct bs as [|b0 [|b1 [|b2 [|b3 rest]]]];
    try (exfalso; revert Hk; vm_compute; lia).
  change (length (b0 :: b1 :: b2 :: b3 :: rest)) with (1 * 4 + length rest) in *.
  rewrite Nat.div_add_l in Hn, Hk by lia.
  destruct k as [|k].
  - exists b0, b1, b2, b3. split; reflexivity.
  - destruct (IH rest k ltac:(lia) ltac:(lia)) as (c0 & c1 & c2 & c3 & Htake & Hget).
    exists c0, c1, c2, c3. split; [|exact Hget].
    replace (4 * S k) with (4 + 4 * k) by lia. exact Htake.
Qed.

Lemma from_f4_bytes_lookup bs k :
  k < length bs / 4 ->
  exists b0 b1 b2 b3,
    take 4 (drop (4 * k) bs) = [b0; b1; b2; b3]
    /\ from_f4_bytes bs !! k = Some (F32.decode b0 b1 b2 b3).
Proof.
  intros Hk. unfold from_f4_bytes. apply from_f4_bytes_fuel_lookup; [|exact Hk].
  apply Nat.Div0.div_le_upper_bound. lia.
Qed.

Lemma chunks_lookup {A} k n : forall (a : list A) i,
  i < k -> Np.chunks k n a !! i = Some (take n (drop (i * n) a)).
Proof.
  induction k as [|k IH]; intros a i Hi; [lia|].
  destruct i as [|i]; simpl; [reflexivity|].
  rewrite IH by lia. rewrite drop_drop. reflexivity.
Qed.

Lemma reshape2_get2 {A} r c (a : list A) m i j :
  Np.reshape2 r c a = Some m -> i < r -> j < c ->
  length a = r * c /\ length m = r /\ Np.get2 m i j = a !! (i * c + j).
Proof.
  unfold Np.reshape2. destruct (_ =? _) eqn:E; [|discriminate].
  intros [= <-] Hi Hj. apply Nat.eqb_eq in E.
  split; [exact E|]. split; [apply length_chunks|].
  unfold Np.get2. rewrite chunks_lookup by exact Hi. simpl.
  rewrite lookup_take_lt by exact Hj. rewrite lookup_drop. reflexivity.
Qed.

(** X22. The bathymetry is read as a flat, headerless file of big-endian
    float32 in row-major order: the read ends normally only when the file
    holds exactly rows * columns whole items, and then entry (i, j) is decoded
    from the four bytes at offset 4 * (i * columns + j). *)
Theorem bathymetry_layout (input_dir : string) (XC : list (list spec_float))
    (fs : gmap string (list byte)) (bathy : list (list spec_float)) :
  read_bathymetry input_dir XC fs = Some bathy ->
  exists bytes,
    fs !! path_join input_dir "CA_bathymetry.bin" = Some bytes
    /\ length bytes / 4 = Np.rows XC * Np.cols XC
    /\ length bathy = Np.rows XC
    /\ forall i j, i < Np.rows XC -> j < Np.cols XC ->
         exists b0 b1 b2 b3,
           take 4 (drop (4 * (i * Np.cols XC + j)) bytes) = [b0; b1; b2; b3]
           /\ Np.get2 bathy i j = Some (F32.decode b0 b1 b2 b3).
Proof.
  unfold read_bathymetry, fromfile. intros H.
  apply bind_Some in H as (a & Ha & H).
  apply bind_Some in Ha as (bytes & Hbytes & [= <-]).
  exists bytes. split; [exact Hbytes|].
  assert (Hlen : length bytes / 4 = Np.rows XC * Np.cols XC).
  { unfold Np.reshape2 in H. destruct (_ =? _) eqn:E; [|discriminate].
    apply Nat.eqb_eq in E. rewrite length_from_f4_bytes in E. exact E. }
  split; [exact Hlen|]. split.
  { unfold Np.reshape2 in H. destruct (_ =? _); [|discriminate].
    injection H as <-. apply length_chunks. }
  intros i j Hi Hj.
  destruct (reshape2_get2 _ _ _ _ i j H Hi Hj) as (_ & _ & Hget).
  destruct (from_f4_bytes_lookup bytes (i * Np.cols XC + j)) as (b0 & b1 & b2 & b3 & Ht & Hd).
  { rewrite Hlen. nia. }
  exists b0, b1, b2, b3. split; [exact Ht|]. rewrite Hget. exact Hd.
Qed.

(* ===================================================================== *)
(** * The worked example, run *)
(* ===================================================================== *)

(** The pipeline pieces evaluated on the example. *)
Example demo_gather :
  InitialConditions.gather_points Demo.grid InitialConditions.tile_list
  = Some Demo.raw_points.
Proof. vm_compute. reflexivity. Qed.

Example demo_filter :
  InitialConditions.remove_positive_longitudes Demo.raw_points = Some Demo.points.
Proof. vm_compute. reflexivity. Qed.

Example demo_init_grids :
  InitialConditions.read_init_grids Demo.grid Demo.fields InitialConditions.tile_list
    (InitialConditions.local_indices Demo.raw_points) Demo.points
    InitialConditions.variable_names
  = Some [Demo.ETAN_points; Demo.THETA_points; Demo.SALT_points;
          Demo.UVEL_points; Demo.VVEL_points].
Proof. vm_compute. reflexivity. Qed.

Example demo_mask : Demo.mask = [[[F64.one; F64.zero]]; [[F64.one; F64.zero]]].
Proof. vm_compute. reflexivity. Qed.

Example demo_interp :
  InitialConditions.interpolate (Eccoseas.downscale_3D_points Demo.no_kernel)
    Demo.points Demo.XC Demo.YC Demo.mask "THETA" Demo.THETA_points
  = Some [[[Demo.f 38; F64.zero]]; [[Demo.f 1038; F64.zero]]].
Proof. vm_compute. reflexivity. Qed.

(** The whole of the first notebook: ETAN is written as 28.0 (0x41E00000)
    and 0, and the five files hold 2, 4, 4, 4 and 4 elements. *)
Example demo_initial_conditions :
  InitialConditions.run (Eccoseas.downscale_3D_points Demo.no_kernel)
    Demo.grid Demo.fields Demo.XC Demo.YC Demo.hFacC "" ∅
    ≫= (fun fs => fs !! "ETAN_IC.bin")
  = Some [x41; xe0; x00; x00; x00; x00; x00; x00].
Proof. vm_compute. reflexivity. Qed.

Example demo_initial_conditions_files :
  InitialConditions.run (Eccoseas.downscale_3D_points Demo.no_kernel)
    Demo.grid Demo.fields Demo.XC Demo.YC Demo.hFacC "" ∅
    ≫= (fun fs => mapM (fun name => length <$> fs !! (name +:+ "_IC.bin"))
                    InitialConditions.variable_names)
  = Some [8; 16; 16; 16; 16].
Proof. vm_compute. reflexivity. Qed.

(** The whole of the second notebook: ATEMP is written as 274.15, 273.15,
    275.15, 273.15. *)
Example demo_forcing :
  ExternalForcing.run Demo.read_exf (Eccoseas.downscale_2D_points_with_zeros Demo.no_kernel)
    Demo.XC Demo.YC Demo.surface_mask "" ∅
    ≫= fromfile "exf/ATEMP_2008"
  = Some (map F32.of_f64
            [F64.add (Demo.f 1) F64.lit_273_15; F64.lit_273_15;
             F64.add (Demo.f 2) F64.lit_273_15; F64.lit_273_15]).
Proof. vm_compute. reflexivity. Qed.

Example demo_zero_wind :
  (ExternalForcing.make_zero_winds "" Demo.wind_files
     ≫= fromfile (ExternalForcing.zero_file "" "UWIND"))
  = Some [S754_zero false; S754_zero true; S754_nan].
Proof. vm_compute. reflexivity. Qed.

Example lit_273_15_bits :
  F32.to_bits (F32.of_f64 F64.lit_273_15) = 0x43889333%Z.
Proof. vm_compute. reflexivity. Qed.

Example roundtrip_one :
  F32.to_f64 (F32.of_bits (F32.to_bits (F32.of_f64 F64.one))) = F64.one.
Proof. vm_compute. reflexivity. Qed.

Example output_file_name :
  ExternalForcing.output_file "input" "UWIND" = "input/exf/UWIND_2008".
Proof. vm_compute. reflexivity. Qed.

(** The second target cell is land: it holds 0 at level 1 of THETA and at
    timestep 1 of the forcing field. *)
Lemma masked_cells_zero_witness :
  (exists g,
     InitialConditions.interpolate (Eccoseas.downscale_3D_points Demo.no_kernel)
       Demo.points Demo.XC Demo.YC Demo.mask "THETA" Demo.THETA_points = Some g
     /\ Np.get3 (InitialConditions.model_mask "THETA" Demo.mask) 1 0 1 = Some F64.zero
     /\ Np.get3 g 1 0 1 = Some F64.zero)
  /\ (exists g,
     ExternalForcing.interpolate_timesteps
       (Eccoseas.downscale_2D_points_with_zeros Demo.no_kernel)
       Demo.exf_points [F64.one] Demo.XC Demo.YC Demo.surface_mask Demo.exf_grid1 = Some g
     /\ Np.get2 Demo.surface_mask 0 1 = Some F64.zero
     /\ Np.get3 g 1 0 1 = Some F64.zero).
Proof.
  split.
  - eexists. split; [reflexivity|]. split; [reflexivity|].
    apply (proj1 (masked_cells_zero Demo.no_kernel) Demo.points Demo.XC Demo.YC Demo.mask
             "THETA" Demo.THETA_points _ 1 0 1 F64.zero); reflexivity.
  - eexists. split; [reflexivity|]. split; [reflexivity|].
    apply (proj2 (masked_cells_zero Demo.no_kernel) Demo.exf_points [F64.one]
             Demo.XC Demo.YC Demo.surface_mask Demo.exf_grid1 _ 1 0 1 F64.zero);
      [reflexivity|simpl; lia|reflexivity|reflexivity].
Defined.

(** hFacW is 0 at point 1 of level 0 and 4 at point 1 of level 1: the first
    value passes through, the second is divided. *)
Lemma velocity_normalization_witness :
  exists g',
    InitialConditions.apply_corrections Demo.points "UVEL" 2 Demo.UVEL_raw = Some g'
    /\ Np.get2 g' 0 1 = Some (Demo.f 61)
    /\ Np.get2 g' 1 1 = Some (F64.div (Demo.f 1061) (Demo.f 4)).
Proof.
  eexists. split; [reflexivity|]. split.
  - apply (proj1 (velocity_normalization Demo.points 2 Demo.UVEL_raw _ 0 1
                    (Demo.f 61) (Demo.f 0) ltac:(lia) eq_refl)); reflexivity.
  - apply (proj1 (velocity_normalization Demo.points 2 Demo.UVEL_raw _ 1 1
                    (Demo.f 1061) (Demo.f 4) ltac:(lia) eq_refl)); reflexivity.
Defined.

(** The example run: of the four source points gathered, the one at
    longitude 3 (position 1) is not passed on. The interpolator is called on
    three points, the second of them the point of position 2, with its
    coordinates, its mask entry and its THETA value. *)
Lemma longitude_filter_witness :
  exists fs' p pts field,
    InitialConditions.run (Eccoseas.downscale_3D_points Demo.no_kernel)
      Demo.grid Demo.fields Demo.XC Demo.YC Demo.hFacC "" ∅ = Some fs'
    /\ Np.positions (InitialConditions.local_indices Demo.raw_points) = [0; 2; 3]
    /\ length pts = 3
    /\ Forall (fun q => F64.lt0 q.1 = true) pts
    /\ pts !! 1 = Some (Demo.f (-1), Demo.f 3)
    /\ Np.get2 (InitialConditions.ecco_mask_points p) 1 1 = Some (Demo.f 0)
    /\ Forall (fun row => length row = 3) Demo.THETA_points
    /\ Eccoseas.downscale_3D_points Demo.no_kernel pts Demo.THETA_points
         (InitialConditions.ecco_mask_points p) Demo.XC Demo.YC
         (InitialConditions.model_mask "THETA" (to_mask3 Demo.hFacC)) = Some field
    /\ fs' !! InitialConditions.output_file "" "THETA" = Some (to_f4_bytes (Np.ravel3 field)).
Proof.
  pose (FS := default ∅
                (InitialConditions.run (Eccoseas.downscale_3D_points Demo.no_kernel)
                   Demo.grid Demo.fields Demo.XC Demo.YC Demo.hFacC "" ∅)).
  assert (H : InitialConditions.run (Eccoseas.downscale_3D_points Demo.no_kernel)
                Demo.grid Demo.fields Demo.XC Demo.YC Demo.hFacC "" ∅ = Some FS)
    by (vm_compute; reflexivity).
  destruct (longitude_filter _ _ _ _ _ _ _ _ _ H)
    as (raw & p & pts & grids & idx & Hraw & Hp & Hgrids & _ & Hidx & _ & Hlen & Hneg
        & Hpts & _ & Hmask & _ & _ & _ & _ & Hcall).
  assert (Eraw : InitialConditions.gather_points Demo.grid InitialConditions.tile_list
                 = Some Demo.raw_points) by (vm_compute; reflexivity).
  rewrite Eraw in Hraw. apply (inj Some) in Hraw. subst raw.
  assert (Eidx : Np.positions (InitialConditions.local_indices Demo.raw_points) = [0; 2; 3])
    by (vm_compute; reflexivity).
  rewrite Eidx in Hidx. subst idx.
  assert (Ep : InitialConditions.remove_positive_longitudes Demo.raw_points
               = Some Demo.points) by (vm_compute; reflexivity).
  assert (Eg : InitialConditions.read_init_grids Demo.grid Demo.fields
                 InitialConditions.tile_list
                 (InitialConditions.local_indices Demo.raw_points) Demo.points
                 InitialConditions.variable_names
               = Some [Demo.ETAN_points; Demo.THETA_points; Demo.SALT_points;
                       Demo.UVEL_points; Demo.VVEL_points]) by (vm_compute; reflexivity).
  rewrite Ep in Hp. apply (inj Some) in Hp. subst p.
  rewrite Eg in Hgrids. apply (inj Some) in Hgrids. subst grids.
  destruct (Hcall 1 "THETA" Demo.THETA_points eq_refl eq_refl)
    as ((field & Hfield & Hfile) & Hrows & _).
  exists FS, Demo.points, pts, field.
  split; [exact H|]. split; [exact Eidx|]. split; [exact Hlen|]. split; [exact Hneg|].
  split; [rewrite Hpts; reflexivity|].
  split; [rewrite Hmask; reflexivity|].
  split; [exact Hrows|]. split; [exact Hfield|exact Hfile].
Defined.

(** Two forcing fields that agree at timestep 0 and differ at timestep 1. *)
Lemma timesteps_independent_witness :
  exists out1 out2,
    ExternalForcing.forcing_field (Eccoseas.downscale_2D_points_with_zeros Demo.no_kernel)
      Demo.exf_points [F64.one] Demo.XC Demo.YC Demo.surface_mask "AQH" Demo.exf_grid1
      = Some out1
    /\ ExternalForcing.forcing_field (Eccoseas.downscale_2D_points_with_zeros Demo.no_kernel)
      Demo.exf_points [F64.one] Demo.XC Demo.YC Demo.surface_mask "AQH" Demo.exf_grid2
      = Some out2
    /\ Demo.exf_grid1 !! 0 = Demo.exf_grid2 !! 0
    /\ out1 !! 0 = out2 !! 0.
Proof.
  eexists _, _. split; [reflexivity|]. split; [reflexivity|]. split; [reflexivity|].
  apply (timesteps_independent (Eccoseas.downscale_2D_points_with_zeros Demo.no_kernel)
           Demo.exf_points [F64.one] Demo.XC Demo.YC Demo.surface_mask "AQH"
           Demo.exf_grid1 Demo.exf_grid2 _ _ 0); reflexivity.
Defined.


(** Tiles 1 and 9, two points each: UVEL takes UVELMASS on tile 1 and
    VVELMASS on tile 9; VVEL takes VVELMASS on tile 1 and, on tile 9 at
    level 0, -1.0 at the first point, where UVELMASS is missing, and
    -1 * UVELMASS at the second. *)
Lemma tile_rotation_witness :
  (exists filled,
     Np.for_each [1; 9]%Z
       (InitialConditions.fill_init_tile Demo.fields
          (InitialConditions.Grid5 (InitialConditions.SALT_nc Demo.fields)) "UVEL" 2 2)
       (0, Np.zeros2 2 (2 * 2)) = Some filled
     /\ Np.get2 filled.2 1 (0 * 2 + 1) = Some (Demo.f 1101)
     /\ Np.get2 filled.2 1 (1 * 2 + 0) = Some (Demo.f 1059))
  /\ (exists filled,
     Np.for_each [1; 9]%Z
       (InitialConditions.fill_init_tile Demo.fields
          (InitialConditions.Grid5 (InitialConditions.SALT_nc Demo.fields)) "VVEL" 2 2)
       (0, Np.zeros2 2 (2 * 2)) = Some filled
     /\ Np.get2 filled.2 1 (0 * 2 + 1) = Some (Demo.f 1151)
     /\ Np.get2 filled.2 0 (1 * 2 + 0) = Some F64.minus_one
     /\ Np.get2 filled.2 0 (1 * 2 + 1) = Some (F64.mul F64.minus_one (Demo.f 109))).
Proof.
  pose (grid := InitialConditions.Grid5 (InitialConditions.SALT_nc Demo.fields)).
  split.
  - eexists. split; [reflexivity|]. split.
    + destruct (proj1 (tile_rotation Demo.fields grid 2 2 [1; 9]%Z)
                  _ 0 1%Z 1 1 eq_refl eq_refl ltac:(lia) ltac:(lia))
        as (v & v' & Hv & Hb & Hget).
      injection Hv as <-. injection Hb as <-. exact Hget.
    + destruct (proj1 (tile_rotation Demo.fields grid 2 2 [1; 9]%Z)
                  _ 1 9%Z 1 0 eq_refl eq_refl ltac:(lia) ltac:(lia))
        as (v & v' & Hv & Hb & Hget).
      injection Hv as <-. injection Hb as <-. exact Hget.
  - eexists. split; [reflexivity|]. split; [|split].
    + destruct (proj2 (tile_rotation Demo.fields grid 2 2 [1; 9]%Z)
                  _ 0 1%Z 1 1 eq_refl eq_refl ltac:(lia) ltac:(lia))
        as (v & v' & Hv & Hb & Hget & _).
      injection Hv as <-. injection Hb as <-. exact Hget.
    + destruct (proj2 (tile_rotation Demo.fields grid 2 2 [1; 9]%Z)
                  _ 1 9%Z 0 0 eq_refl eq_refl ltac:(lia) ltac:(lia))
        as (v & v' & Hv & Hb & Hget & Hm).
      destruct (Hm eq_refl) as (u & Hu & _ & Hcell).
      injection Hu as <-.
      pose proof (Hcell 0 _ eq_refl) as Hc.
      injection Hv as <-. injection Hb as <-. exact (eq_trans Hget Hc).
    + destruct (proj2 (tile_rotation Demo.fields grid 2 2 [1; 9]%Z)
                  _ 1 9%Z 0 1 eq_refl eq_refl ltac:(lia) ltac:(lia))
        as (v & v' & Hv & Hb & Hget & Hm).
      destruct (Hm eq_refl) as (u & Hu & _ & Hcell).
      injection Hu as <-.
      pose proof (Hcell 1 _ eq_refl) as Hc.
      injection Hv as <-. injection Hb as <-. exact (eq_trans Hget Hc).
Defined.

(** Tile 9 alone: at the first point of level 0 UVELMASS is missing and
    stores 9; the VVEL array holds -1.0 there, not 9 multiplied by -1. *)
Lemma tile_rotation_counterexample :
  exists filled u x,
    Np.for_each [9]%Z
      (InitialConditions.fill_init_tile Demo.fields
         (InitialConditions.Grid5 (InitialConditions.SALT_nc Demo.fields)) "VVEL" 2 2)
      (0, Np.zeros2 2 (2 * 1)) = Some filled
    /\ InitialConditions.tile5 (InitialConditions.UVELMASS_nc Demo.fields) 0 9 = Some u
    /\ u !! 0 = Some x
    /\ x = Demo.f 9
    /\ Np.get2 filled.2 0 (0 * 2 + 0) = Some F64.minus_one
    /\ Np.get2 filled.2 0 (0 * 2 + 0) <> Some (F64.mul F64.minus_one x).
Proof.
  eexists _, _, _. split; [reflexivity|]. split; [reflexivity|].
  split; [reflexivity|]. split; [reflexivity|]. split; [reflexivity|].
  vm_compute. discriminate.
Qed.

(** ATEMP: the closed cell, 0 after the interpolation, is written as
    273.15. *)
Lemma unit_conversions_witness :
  exists W,
    ExternalForcing.interpolate_and_write
      (Eccoseas.downscale_2D_points_with_zeros Demo.no_kernel)
      Demo.exf_points [F64.one] Demo.XC Demo.YC Demo.surface_mask "" ("ATEMP", Demo.exf_grid1) ∅
    = Some (tofile (ExternalForcing.output_file "" "ATEMP") (Np.ravel3 W) ∅)
    /\ Np.get3 W 1 0 0 = Some (F64.add (Demo.f 2) F64.lit_273_15)
    /\ Np.get3 W 1 0 1 = Some F64.lit_273_15.
Proof.
  destruct (unit_conversions (Eccoseas.downscale_2D_points_with_zeros Demo.no_kernel)
              Demo.exf_points [F64.one] Demo.XC Demo.YC Demo.surface_mask "" "ATEMP"
              Demo.exf_grid1 _ ∅ eq_refl) as (W & Hw & Hcells).
  exists W. split; [exact Hw|]. rewrite !Hcells. split; reflexivity.
Defined.

(** An array that passes the executable test entry by entry has
    float32-representable values. *)
Lemma f32_exact_forallb (a : list spec_float) :
  forallb representable_b a = true -> f32_exact a.
Proof.
  intros Ha x Hx _. apply representable_b_spec.
  apply (proj1 (forallb_forall _ _) Ha), list_elem_of_In, Hx.
Qed.

(** A 50-level field, the ETAN field and a two-timestep forcing field, each
    written and read back. *)
Lemma f4_round_trip_witness :
  (exists fs' g32,
     InitialConditions.interpolate_and_write
       (fun _ _ _ _ _ _ => Some (replicate 50 [[Demo.f 38; F64.zero]]))
       Demo.points Demo.XC Demo.YC Demo.mask "" ("THETA", Demo.THETA_points) ∅ = Some fs'
     /\ InitialConditions.read_back "" "THETA" Demo.XC fs' = Some g32
     /\ map (map (map F32.to_f64)) g32 = replicate 50 [[Demo.f 38; F64.zero]])
  /\ (exists fs' m32,
     InitialConditions.interpolate_and_write (Eccoseas.downscale_3D_points Demo.no_kernel)
       Demo.points Demo.XC Demo.YC Demo.mask "" ("ETAN", Demo.ETAN_points) ∅ = Some fs'
     /\ InitialConditions.read_back_ETAN "" Demo.XC fs' = Some m32
     /\ [map (map F32.to_f64) m32] = [[[Demo.f 28; F64.zero]]])
  /\ (exists fs' W32,
     ExternalForcing.interpolate_and_write
       (Eccoseas.downscale_2D_points_with_zeros Demo.no_kernel)
       Demo.exf_points [F64.one] Demo.XC Demo.YC Demo.surface_mask ""
       ("AQH", Demo.exf_grid1) ∅ = Some fs'
     /\ fromfile (ExternalForcing.output_file "" "AQH") fs' ≫= Np.reshape3 2 1 2 = Some W32
     /\ map (map (map F32.to_f64)) W32 = [[[Demo.f 1; F64.zero]]; [[Demo.f 2; F64.zero]]]).
Proof.
  split; [|split].
  - pose (G := replicate 50 [[Demo.f 38; F64.zero]]).
    pose (FS := tofile (InitialConditions.output_file "" "THETA") (Np.ravel3 G) ∅).
    assert (Hx : f32_exact (Np.ravel3 G)).
    { apply f32_exact_forallb. vm_compute. reflexivity. }
    assert (Hr : Np.rect3 (length InitialConditions.delR) (Np.rows Demo.XC)
                   (Np.cols Demo.XC) G).
    { split; [reflexivity|]. apply Forall_forall. intros lev Hlev.
      apply elem_of_replicate in Hlev as [-> _]. split; [reflexivity|repeat constructor]. }
    destruct (proj1 (proj1 f4_round_trip (fun _ _ _ _ _ _ => Some G)
                Demo.points Demo.XC Demo.YC Demo.mask "" "THETA" Demo.THETA_points ∅ FS G
                eq_refl eq_refl Hx) Hr) as (g32 & Hread & Hwiden).
    exists FS, g32. split; [reflexivity|]. split; [exact Hread|exact Hwiden].
  - pose (G := [[[Demo.f 28; F64.zero]]]).
    pose (FS := tofile (InitialConditions.output_file "" "ETAN") (Np.ravel3 G) ∅).
    assert (Hx : f32_exact (Np.ravel3 G)).
    { apply f32_exact_forallb. vm_compute. reflexivity. }
    assert (Hr : Np.rect3 1 (Np.rows Demo.XC) (Np.cols Demo.XC) G).
    { split; [reflexivity|]. repeat constructor. }
    destruct (proj2 (proj1 f4_round_trip (Eccoseas.downscale_3D_points Demo.no_kernel)
                Demo.points Demo.XC Demo.YC Demo.mask "" "ETAN" Demo.ETAN_points ∅ FS G
                eq_refl eq_refl Hx) eq_refl Hr) as (m32 & Hread & Hwiden).
    exists FS, m32. split; [reflexivity|]. split; [exact Hread|exact Hwiden].
  - pose (W := [[[Demo.f 1; F64.zero]]; [[Demo.f 2; F64.zero]]]).
    pose (FS := tofile (ExternalForcing.output_file "" "AQH") (Np.ravel3 W) ∅).
    assert (Hx : f32_exact (Np.ravel3 W)).
    { apply f32_exact_forallb. vm_compute. reflexivity. }
    assert (Hr : Np.rect3 2 1 2 W).
    { split; [reflexivity|]. repeat constructor. }
    destruct (proj2 f4_round_trip (Eccoseas.downscale_2D_points_with_zeros Demo.no_kernel)
                Demo.exf_points [F64.one] Demo.XC Demo.YC Demo.surface_mask "" "AQH"
                Demo.exf_grid1 ∅ FS W 2 1 2 eq_refl eq_refl Hx Hr)
      as (W32 & Hread & Hwiden).
    exists FS, W32. split; [reflexivity|]. split; [exact Hread|exact Hwiden].
Defined.

(** THETA: 1038.0 (0x4481C000) at level 1 sits at byte 8. ATEMP: 273.15
    (0x43889333) at timestep 1, column 1 sits at byte 12. Zero wind: -0
    (0x80000000) made from -2.0 sits at byte 4. *)
Lemma flat_big_endian_layout_witness :
  (exists fs' bytes,
     InitialConditions.interpolate_and_write (Eccoseas.downscale_3D_points Demo.no_kernel)
       Demo.points Demo.XC Demo.YC Demo.mask "" ("THETA", Demo.THETA_points) ∅ = Some fs'
     /\ fs' !! InitialConditions.output_file "" "THETA" = Some bytes
     /\ length bytes = 4 * (2 * (1 * 2))
     /\ take 4 (drop (4 * ((1 * 1 + 0) * 2 + 0)) bytes) = [x44; x81; xc0; x00])
  /\ (exists fs' bytes,
     ExternalForcing.interpolate_and_write
       (Eccoseas.downscale_2D_points_with_zeros Demo.no_kernel)
       Demo.exf_points [F64.one] Demo.XC Demo.YC Demo.surface_mask ""
       ("ATEMP", Demo.exf_grid1) ∅ = Some fs'
     /\ fs' !! ExternalForcing.output_file "" "ATEMP" = Some bytes
     /\ length bytes = 4 * (2 * (1 * 2))
     /\ take 4 (drop (4 * ((1 * 1 + 0) * 2 + 1)) bytes) = [x43; x88; x93; x33])
  /\ (exists fs' bytes,
     ExternalForcing.zero_wind "" "UWIND" Demo.wind_files = Some fs'
     /\ fs' !! ExternalForcing.zero_file "" "UWIND" = Some bytes
     /\ length bytes = 4 * 3
     /\ take 4 (drop (4 * 1) bytes) = [x80; x00; x00; x00]).
Proof.
  split; [|split].
  - destruct (proj1 flat_big_endian_layout (Eccoseas.downscale_3D_points Demo.no_kernel)
                Demo.points Demo.XC Demo.YC Demo.mask "" "THETA" Demo.THETA_points ∅ _ _
                2 1 2 eq_refl eq_refl) as (bytes & Hfile & Hlen & Hcells).
    { split; [reflexivity|]. repeat constructor. }
    eexists _, bytes. split; [reflexivity|]. split; [exact Hfile|]. split; [exact Hlen|].
    exact (Hcells 1 0 0 (Demo.f 1038) eq_refl).
  - destruct (proj1 (proj2 flat_big_endian_layout)
                (Eccoseas.downscale_2D_points_with_zeros Demo.no_kernel)
                Demo.exf_points [F64.one] Demo.XC Demo.YC Demo.surface_mask "" "ATEMP"
                Demo.exf_grid1 ∅ _ _ 2 1 2 eq_refl eq_refl) as (bytes & Hfile & Hlen & Hcells).
    { split; [reflexivity|]. repeat constructor. }
    eexists _, bytes. split; [reflexivity|]. split; [exact Hfile|]. split; [exact Hlen|].
    exact (Hcells 1 0 1 F64.lit_273_15 eq_refl).
  - destruct (proj2 (proj2 flat_big_endian_layout) "" "UWIND" Demo.wind_files _
                [F32.of_Z 1; F32.of_Z (-2); S754_nan] eq_refl eq_refl)
      as (bytes & Hfile & Hlen & Hcells).
    eexists _, bytes. split; [reflexivity|]. split; [exact Hfile|]. split; [exact Hlen|].
    exact (Hcells 1 (F32.of_Z (-2)) eq_refl).
Defined.

(** A wind file of twelve bytes, three elements, gives a zero-wind file of
    twelve bytes, three elements. *)
Lemma zero_wind_files_example :
  exists fs' wind zero,
    ExternalForcing.make_zero_winds "" Demo.wind_files = Some fs'
    /\ Demo.wind_files !! ExternalForcing.output_file "" "UWIND" = Some wind
    /\ fs' !! ExternalForcing.zero_file "" "UWIND" = Some zero
    /\ length wind = 12
    /\ length zero = 4 * (length wind / 4)
    /\ length (from_f4_bytes zero) = length (from_f4_bytes wind).
Proof.
  pose (FS := default ∅ (ExternalForcing.make_zero_winds "" Demo.wind_files)).
  assert (Hrun : ExternalForcing.make_zero_winds "" Demo.wind_files = Some FS).
  { vm_compute. reflexivity. }
  destruct (zero_wind_files "" "UWIND" Demo.wind_files FS Hrun (or_introl eq_refl))
    as (wind & zero & Hwind & _ & Hzero & _ & Hlen & Hcount & _).
  exists FS, wind, zero. split; [exact Hrun|]. split; [exact Hwind|].
  split; [exact Hzero|]. split; [|split; [exact Hlen|exact Hcount]].
  assert (E : Demo.wind_files !! ExternalForcing.output_file "" "UWIND"
              = Some [x3f; x80; x00; x00; xc0; x00; x00; x00; x7f; xc0; x00; x00]).
  { vm_compute. reflexivity. }
  rewrite E in Hwind. injection Hwind as <-. reflexivity.
Defined.

(** C10. The zero-wind files are not full of zeros whatever the wind files
    hold: the zero-wind file made from the wind file that holds 1.0, -2.0
    and a NaN has the three elements of the wind file, and they are +0, -0
    and a NaN. *)
Theorem zero_wind_nan :
  exists wind zero,
    fromfile (ExternalForcing.output_file "" "UWIND") Demo.wind_files = Some wind
    /\ wind = [F32.of_Z 1; F32.of_Z (-2); S754_nan]
    /\ ExternalForcing.make_zero_winds "" Demo.wind_files
         ≫= fromfile (ExternalForcing.zero_file "" "UWIND") = Some zero
    /\ length zero = length wind
    /\ zero = [S754_zero false; S754_zero true; S754_nan]
    /\ ~ Forall (fun x => SFeqb x (S754_zero false) = true) zero.
Proof.
  exists [F32.of_Z 1; F32.of_Z (-2); S754_nan],
         [S754_zero false; S754_zero true; S754_nan].
  split; [vm_compute; reflexivity|]. split; [reflexivity|].
  split; [vm_compute; reflexivity|]. split; [reflexivity|]. split; [reflexivity|].
  intros H. apply Forall_cons in H as [_ H]. apply Forall_cons in H as [_ H].
  apply Forall_cons in H as [H _]. discriminate H.
Qed.

(* ===================================================================== *)
(** * The further properties, on the worked example *)
(* ===================================================================== *)

(** The mask of the four points gathered and of the three kept. *)
Lemma source_mask_of_hFacC_witness :
  InitialConditions.gather_points Demo.grid InitialConditions.tile_list = Some Demo.raw_points
  /\ InitialConditions.ecco_mask_points Demo.raw_points
     = to_mask2 (InitialConditions.ecco_hFacC_points Demo.raw_points)
  /\ InitialConditions.ecco_mask_points Demo.points
     = to_mask2 (InitialConditions.ecco_hFacC_points Demo.points).
Proof.
  assert (H : InitialConditions.gather_points Demo.grid InitialConditions.tile_list
              = Some Demo.raw_points) by (vm_compute; reflexivity).
  destruct (source_mask_of_hFacC Demo.grid InitialConditions.tile_list Demo.raw_points H)
    as [H1 H2].
  split; [exact H|]. split; [exact H1|]. apply H2. vm_compute. reflexivity.
Defined.

(** Tiles 8 and 11, two points each: four longitudes and four latitudes, in
    that order. *)
Lemma gathered_coordinates_witness :
  exists xcs ycs,
    mapM (fun t => InitialConditions.ecco_XC_tiles Demo.grid !! t) InitialConditions.tile_list
    = Some xcs
    /\ mapM (fun t => InitialConditions.ecco_YC_tiles Demo.grid !! t) InitialConditions.tile_list
       = Some ycs
    /\ InitialConditions.ecco_XC_points Demo.raw_points = concat (map Np.ravel2 xcs)
    /\ InitialConditions.ecco_YC_points Demo.raw_points = concat (map Np.ravel2 ycs).
Proof.
  assert (H : InitialConditions.gather_points Demo.grid InitialConditions.tile_list
              = Some Demo.raw_points) by (vm_compute; reflexivity).
  destruct (gathered_coordinates Demo.grid InitialConditions.tile_list Demo.raw_points H)
    as (xcs & ycs & Hx & Hy & HX & HY).
  exists xcs, ycs. split; [exact Hx|]. split; [exact Hy|]. split; [exact HX|].
  apply HY.
  assert (Ex : mapM (fun t => InitialConditions.ecco_XC_tiles Demo.grid !! t)
                 InitialConditions.tile_list
               = Some [[[Demo.f (-2); Demo.f 3]]; [[Demo.f (-1); Demo.f (-3)]]])
    by (vm_compute; reflexivity).
  assert (Ey : mapM (fun t => InitialConditions.ecco_YC_tiles Demo.grid !! t)
                 InitialConditions.tile_list
               = Some [[[Demo.f 1; Demo.f 2]]; [[Demo.f 3; Demo.f 4]]])
    by (vm_compute; reflexivity).
  rewrite Ex in Hx. rewrite Ey in Hy. injection Hx as <-. injection Hy as <-.
  repeat constructor.
Defined.

(** The example grid has all that tiles 8 and 11 need. *)
Lemma gather_points_needs_witness :
  exists rf1,
    InitialConditions.ecco_RF_tiles Demo.grid !! 1%Z = Some rf1
    /\ is_Some (InitialConditions.ecco_XC_tiles Demo.grid !! 8%Z)
    /\ is_Some (InitialConditions.ecco_YC_tiles Demo.grid !! 8%Z)
    /\ exists rf,
         InitialConditions.ecco_RF_tiles Demo.grid !! 8%Z = Some rf
         /\ length rf <= length rf1
         /\ forall k, k < length rf ->
              is_Some (InitialConditions.ecco_hFacC_tiles Demo.grid !! 8%Z ≫= (.!! k))
              /\ is_Some (InitialConditions.ecco_hFacW_tiles Demo.grid !! 8%Z ≫= (.!! k))
              /\ is_Some (InitialConditions.ecco_hFacS_tiles Demo.grid !! 8%Z ≫= (.!! k)).
Proof.
  assert (H : InitialConditions.gather_points Demo.grid InitialConditions.tile_list
              = Some Demo.raw_points) by (vm_compute; reflexivity).
  destruct (gather_points_needs Demo.grid InitialConditions.tile_list Demo.raw_points H)
    as (rf1 & Hrf1 & Htiles).
  exists rf1. split; [exact Hrf1|]. apply (Htiles 8%Z). left.
Defined.

(** The three points kept stay as they are. *)
Lemma longitude_filter_idempotent_witness :
  InitialConditions.remove_positive_longitudes Demo.raw_points = Some Demo.points
  /\ InitialConditions.remove_positive_longitudes Demo.points = Some Demo.points.
Proof.
  assert (H : InitialConditions.remove_positive_longitudes Demo.raw_points = Some Demo.points)
    by (vm_compute; reflexivity).
  split; [exact H|].
  exact (longitude_filter_idempotent Demo.raw_points Demo.points H).
Defined.

(** Five arrays of three columns: one row for ETAN, two for THETA. *)
Lemma init_grids_aligned_witness :
  length [Demo.ETAN_points; Demo.THETA_points; Demo.SALT_points;
          Demo.UVEL_points; Demo.VVEL_points]
  = length InitialConditions.variable_names
  /\ Forall (fun row => length row = length (InitialConditions.ecco_XC_points Demo.points))
       (InitialConditions.ecco_mask_points Demo.points)
  /\ Forall (fun row => length row = length (InitialConditions.ecco_XC_points Demo.points))
       Demo.THETA_points
  /\ (exists rf1,
        InitialConditions.ecco_RF_tiles Demo.grid !! 1%Z = Some rf1
        /\ length Demo.THETA_points = length rf1)
  /\ (exists rf1,
        InitialConditions.ecco_RF_tiles Demo.grid !! 1%Z = Some rf1
        /\ length Demo.ETAN_points = 1).
Proof.
  assert (Hp : InitialConditions.remove_positive_longitudes Demo.raw_points = Some Demo.points)
    by (vm_compute; reflexivity).
  assert (Hg : InitialConditions.read_init_grids Demo.grid Demo.fields
                 InitialConditions.tile_list
                 (InitialConditions.local_indices Demo.raw_points) Demo.points
                 InitialConditions.variable_names
               = Some [Demo.ETAN_points; Demo.THETA_points; Demo.SALT_points;
                       Demo.UVEL_points; Demo.VVEL_points])
    by (vm_compute; reflexivity).
  destruct (init_grids_aligned Demo.grid Demo.fields InitialConditions.tile_list
              Demo.raw_points Demo.points InitialConditions.variable_names _ Hp Hg)
    as (Hlen & _ & Hmask & Hgrids).
  split; [exact Hlen|]. split; [exact Hmask|].
  destruct (Hgrids 1 "THETA" Demo.THETA_points eq_refl eq_refl) as (Hrows & rf1 & Hrf1 & Hl).
  destruct (Hgrids 0 "ETAN" Demo.ETAN_points eq_refl eq_refl) as (_ & rf1' & Hrf1' & Hl').
  split; [exact Hrows|]. split; [exists rf1; split; [exact Hrf1|exact Hl]|].
  exists rf1'. split; [exact Hrf1'|exact Hl'].
Defined.

(** UVEL first, and a name the dictionary does not hold. *)
Lemma read_init_grids_failures_witness :
  InitialConditions.read_init_grids Demo.grid Demo.fields InitialConditions.tile_list
    (InitialConditions.local_indices Demo.raw_points) Demo.points ["UVEL"; "ETAN"] = None
  /\ InitialConditions.read_init_grids Demo.grid Demo.fields InitialConditions.tile_list
       (InitialConditions.local_indices Demo.raw_points) Demo.points ["ETAN"; "RHO"] = None.
Proof.
  destruct (read_init_grids_failures Demo.grid Demo.fields InitialConditions.tile_list
              (InitialConditions.local_indices Demo.raw_points) Demo.points) as [H1 H2].
  split.
  - apply H1. reflexivity.
  - apply (H2 "RHO"); [right; left|discriminate|discriminate|discriminate|reflexivity].
Defined.

(** The second point kept is the first point of tile 11: THETA holds 1041
    there at level 1. The third is its second point: ETAN holds 131 there. *)
Lemma scalar_init_grid_witness :
  (exists G,
     InitialConditions.read_init_grid Demo.grid Demo.fields InitialConditions.tile_list
       (InitialConditions.local_indices Demo.raw_points) Demo.points "THETA" (None, [])
     = Some (Some (InitialConditions.Grid5 (InitialConditions.THETA_nc Demo.fields)), [G])
     /\ Np.get2 G 1 1 = Some (Demo.f 1041))
  /\ (exists G,
     InitialConditions.read_init_grid Demo.grid Demo.fields InitialConditions.tile_list
       (InitialConditions.local_indices Demo.raw_points) Demo.points "ETAN" (None, [])
     = Some (Some (InitialConditions.Grid4 (InitialConditions.ETAN_nc Demo.fields)), [G])
     /\ Np.get2 G 0 2 = Some (Demo.f 131)).
Proof.
  split.
  - pose (ST := default (None, [])
                  (InitialConditions.read_init_grid Demo.grid Demo.fields
                     InitialConditions.tile_list
                     (InitialConditions.local_indices Demo.raw_points) Demo.points
                     "THETA" (None, []))).
    assert (H : InitialConditions.read_init_grid Demo.grid Demo.fields
                  InitialConditions.tile_list
                  (InitialConditions.local_indices Demo.raw_points) Demo.points
                  "THETA" (None, []) = Some ST) by (vm_compute; reflexivity).
    destruct (proj1 (scalar_init_grid Demo.grid Demo.fields InitialConditions.tile_list
                       (InitialConditions.local_indices Demo.raw_points) Demo.points
                       None [] ST)
                "THETA" (InitialConditions.THETA_nc Demo.fields)
                (or_introl (conj eq_refl eq_refl)) H) as (rf1 & G & Hrf1 & HST & Hcells).
    exists G. split; [rewrite H, HST; reflexivity|].
    assert (Erf : InitialConditions.ecco_RF_tiles Demo.grid !! 1%Z = Some Demo.RF)
      by (vm_compute; reflexivity).
    assert (rf1 = Demo.RF) as -> by congruence.
    destruct (Hcells 1 1 11%Z 0 1) as (v & v' & Hv & Hb & Hget);
      [vm_compute; reflexivity|reflexivity|vm_compute; lia|simpl; lia|].
    assert (Ev : InitialConditions.tile5 (InitialConditions.THETA_nc Demo.fields) 1 11
                 = Some [Demo.f 1041; Demo.f 1141]) by (vm_compute; reflexivity).
    assert (v = [Demo.f 1041; Demo.f 1141]) as -> by congruence.
    assert (Eb : Np.broadcast
                   (InitialConditions.grid_N
                      (InitialConditions.Grid5 (InitialConditions.THETA_nc Demo.fields)))
                   [Demo.f 1041; Demo.f 1141]
                 = Some [Demo.f 1041; Demo.f 1141]) by (vm_compute; reflexivity).
    assert (v' = [Demo.f 1041; Demo.f 1141]) as -> by congruence. exact Hget.
  - pose (ST := default (None, [])
                  (InitialConditions.read_init_grid Demo.grid Demo.fields
                     InitialConditions.tile_list
                     (InitialConditions.local_indices Demo.raw_points) Demo.points
                     "ETAN" (None, []))).
    assert (H : InitialConditions.read_init_grid Demo.grid Demo.fields
                  InitialConditions.tile_list
                  (InitialConditions.local_indices Demo.raw_points) Demo.points
                  "ETAN" (None, []) = Some ST) by (vm_compute; reflexivity).
    destruct (proj2 (scalar_init_grid Demo.grid Demo.fields InitialConditions.tile_list
                       (InitialConditions.local_indices Demo.raw_points) Demo.points
                       None [] ST) H) as (G & HST & Hcells).
    exists G. split; [rewrite H, HST; reflexivity|].
    destruct (Hcells 2 1 11%Z 1) as (v & v' & Hv & Hb & Hget);
      [vm_compute; reflexivity|reflexivity|vm_compute; lia|].
    assert (Ev : InitialConditions.tile4 (InitialConditions.ETAN_nc Demo.fields) 11
                 = Some [Demo.f 31; Demo.f 131]) by (vm_compute; reflexivity).
    assert (v = [Demo.f 31; Demo.f 131]) as -> by congruence.
    assert (Eb : Np.broadcast
                   (InitialConditions.grid_N
                      (InitialConditions.Grid4 (InitialConditions.ETAN_nc Demo.fields)))
                   [Demo.f 31; Demo.f 131]
                 = Some [Demo.f 31; Demo.f 131]) by (vm_compute; reflexivity).
    assert (v' = [Demo.f 31; Demo.f 131]) as -> by congruence. exact Hget.
Defined.

(** Eleven tiles: tile 11 is entry 10, tile 12 is an error, and tile 0 is
    tile 11 again. *)
Lemma tile_numbering_witness :
  InitialConditions.tile5 (InitialConditions.THETA_nc Demo.fields) 0 11
  = Np.ravel2 <$> Demo.tiles_of 30 !! 10
  /\ InitialConditions.tile5 (InitialConditions.THETA_nc Demo.fields) 0 12 = None
  /\ InitialConditions.tile5 (InitialConditions.THETA_nc Demo.fields) 0 0
     = Np.ravel2 <$> last (Demo.tiles_of 30).
Proof.
  destruct (tile_numbering (InitialConditions.THETA_nc Demo.fields) 0
              (Demo.levels_of 30) (Demo.tiles_of 30) eq_refl eq_refl) as (Hin & Hout & H0).
  split; [|split; [|exact H0]].
  - apply (Hin 11%Z). vm_compute. split; discriminate.
  - apply (Hout 12%Z). vm_compute. reflexivity.
Defined.

(** UVEL and VVEL after SALT: the second point kept is the first point of
    tile 11, a tile numbered above 7. At level 1, where hFacW is 4, the UVEL
    array holds the VVELMASS value 1061 there, divided by 4; at level 0,
    where hFacS is 4 and UVELMASS is not missing, the VVEL array holds -1
    times the UVELMASS value 11, divided by 4. *)
Lemma velocity_init_grid_witness :
  (exists G,
    InitialConditions.read_init_grid Demo.grid Demo.fields InitialConditions.tile_list
      (InitialConditions.local_indices Demo.raw_points) Demo.points "UVEL"
      (Some (InitialConditions.Grid5 (InitialConditions.SALT_nc Demo.fields)), [])
    = Some (Some (InitialConditions.Grid5 (InitialConditions.SALT_nc Demo.fields)), [G])
    /\ Np.get2 G 1 1 = Some (F64.div (Demo.f 1061) (Demo.f 4)))
  /\ (exists G,
    InitialConditions.read_init_grid Demo.grid Demo.fields InitialConditions.tile_list
      (InitialConditions.local_indices Demo.raw_points) Demo.points "VVEL"
      (Some (InitialConditions.Grid5 (InitialConditions.SALT_nc Demo.fields)), [])
    = Some (Some (InitialConditions.Grid5 (InitialConditions.SALT_nc Demo.fields)), [G])
    /\ InitialConditions.u_missing Demo.fields 0 11 0 = false
    /\ Np.get2 G 0 1
       = Some (F64.div (F64.mul F64.minus_one (Demo.f 11)) (Demo.f 4))).
Proof.
  pose (cur := InitialConditions.Grid5 (InitialConditions.SALT_nc Demo.fields)).
  assert (Erf : InitialConditions.ecco_RF_tiles Demo.grid !! 1%Z = Some Demo.RF)
    by (vm_compute; reflexivity).
  split.
  - pose (ST := default (None, [])
                  (InitialConditions.read_init_grid Demo.grid Demo.fields
                     InitialConditions.tile_list
                     (InitialConditions.local_indices Demo.raw_points) Demo.points
                     "UVEL" (Some cur, []))).
    assert (H : InitialConditions.read_init_grid Demo.grid Demo.fields
                  InitialConditions.tile_list
                  (InitialConditions.local_indices Demo.raw_points) Demo.points
                  "UVEL" (Some cur, []) = Some ST) by (vm_compute; reflexivity).
    destruct (proj1 (velocity_init_grid Demo.grid Demo.fields InitialConditions.tile_list
                       (InitialConditions.local_indices Demo.raw_points) Demo.points
                       cur [] ST) H) as (rf1 & G & Hrf1 & HST & Hcells).
    exists G. split; [fold cur; rewrite H, HST; reflexivity|].
    assert (rf1 = Demo.RF) as -> by congruence.
    destruct (Hcells 1 1 11%Z 0 1 (Demo.f 4)) as (v & v' & x & Hv & Hb & Hx & Hget);
      [vm_compute; reflexivity|reflexivity|vm_compute; lia|simpl; lia
      |vm_compute; reflexivity|].
    assert (Ev : InitialConditions.tile5 (InitialConditions.VVELMASS_nc Demo.fields) 1 11
                 = Some [Demo.f 1061; Demo.f 1161]) by (vm_compute; reflexivity).
    change (11 <? 7)%Z with false in Hv. cbv iota in Hv.
    rewrite Ev in Hv. apply (inj Some) in Hv. subst v.
    assert (Eb : Np.broadcast (InitialConditions.grid_N cur) [Demo.f 1061; Demo.f 1161]
                 = Some [Demo.f 1061; Demo.f 1161]) by (vm_compute; reflexivity).
    rewrite Eb in Hb. apply (inj Some) in Hb. subst v'.
    apply (inj Some) in Hx. subst x. exact Hget.
  - pose (ST := default (None, [])
                  (InitialConditions.read_init_grid Demo.grid Demo.fields
                     InitialConditions.tile_list
                     (InitialConditions.local_indices Demo.raw_points) Demo.points
                     "VVEL" (Some cur, []))).
    assert (H : InitialConditions.read_init_grid Demo.grid Demo.fields
                  InitialConditions.tile_list
                  (InitialConditions.local_indices Demo.raw_points) Demo.points
                  "VVEL" (Some cur, []) = Some ST) by (vm_compute; reflexivity).
    destruct (proj2 (velocity_init_grid Demo.grid Demo.fields InitialConditions.tile_list
                       (InitialConditions.local_indices Demo.raw_points) Demo.points
                       cur [] ST) H) as (rf1 & G & Hrf1 & HST & Hcells).
    exists G. split; [fold cur; rewrite H, HST; reflexivity|].
    split; [reflexivity|].
    assert (rf1 = Demo.RF) as -> by congruence.
    destruct (Hcells 1 1 11%Z 0 0 (Demo.f 4))
      as (v & v' & x & Hv & Hb & Hx & Hget & _);
      [vm_compute; reflexivity|reflexivity|vm_compute; lia|simpl; lia
      |vm_compute; reflexivity|].
    assert (Ev : InitialConditions.minus_u Demo.fields 0 11
                 = Some [F64.mul F64.minus_one (Demo.f 11);
                         F64.mul F64.minus_one (Demo.f 111)])
      by (vm_compute; reflexivity).
    change (11 <? 7)%Z with false in Hv. cbv iota in Hv.
    rewrite Ev in Hv. apply (inj Some) in Hv. subst v.
    assert (Eb : Np.broadcast (InitialConditions.grid_N cur)
                   [F64.mul F64.minus_one (Demo.f 11); F64.mul F64.minus_one (Demo.f 111)]
                 = Some [F64.mul F64.minus_one (Demo.f 11);
                         F64.mul F64.minus_one (Demo.f 111)])
      by (vm_compute; reflexivity).
    rewrite Eb in Hb. apply (inj Some) in Hb. subst v'.
    apply (inj Some) in Hx. subst x. exact Hget.
Defined.

(** THETA on the example: tiles of two points, two tiles, four source
    points. *)
Lemma init_grid_needs_matching_tiles_witness :
  InitialConditions.grid_N (InitialConditions.Grid5 (InitialConditions.THETA_nc Demo.fields))
    * length InitialConditions.tile_list
  = length (InitialConditions.local_indices Demo.raw_points).
Proof.
  pose (ST := default (None, [])
                (InitialConditions.read_init_grid Demo.grid Demo.fields
                   InitialConditions.tile_list
                   (InitialConditions.local_indices Demo.raw_points) Demo.points
                   "THETA" (None, []))).
  assert (H : InitialConditions.read_init_grid Demo.grid Demo.fields
                InitialConditions.tile_list
                (InitialConditions.local_indices Demo.raw_points) Demo.points
                "THETA" (None, []) = Some ST) by (vm_compute; reflexivity).
  destruct (init_grid_needs_matching_tiles _ _ _ _ _ _ _ _ _ H)
    as (cur & rf1 & Hcur & Hrf1 & Hsize).
  assert (Ec : InitialConditions.read_grid Demo.fields "THETA" None
               = Some (Some (InitialConditions.Grid5 (InitialConditions.THETA_nc Demo.fields))))
    by reflexivity.
  rewrite Ec in Hcur. apply (inj Some) in Hcur. apply (inj Some) in Hcur. subst cur.
  assert (Erf : InitialConditions.ecco_RF_tiles Demo.grid !! 1%Z = Some Demo.RF)
    by (vm_compute; reflexivity).
  rewrite Erf in Hrf1. apply (inj Some) in Hrf1. subst rf1.
  apply Hsize. right. discriminate.
Defined.

(** Two timesteps on a grid of one row and two columns: sixteen bytes. *)
Lemma forcing_file_size_witness :
  exists fs' bytes,
    ExternalForcing.interpolate_and_write
      (Eccoseas.downscale_2D_points_with_zeros Demo.no_kernel)
      Demo.exf_points [F64.one] Demo.XC Demo.YC Demo.surface_mask ""
      ("AQH", Demo.exf_grid1) ∅ = Some fs'
    /\ fs' !! ExternalForcing.output_file "" "AQH" = Some bytes
    /\ length bytes = 4 * (2 * (1 * 2)).
Proof.
  pose (FS := default ∅
                (ExternalForcing.interpolate_and_write
                   (Eccoseas.downscale_2D_points_with_zeros Demo.no_kernel)
                   Demo.exf_points [F64.one] Demo.XC Demo.YC Demo.surface_mask ""
                   ("AQH", Demo.exf_grid1) ∅)).
  assert (H : ExternalForcing.interpolate_and_write
                (Eccoseas.downscale_2D_points_with_zeros Demo.no_kernel)
                Demo.exf_points [F64.one] Demo.XC Demo.YC Demo.surface_mask ""
                ("AQH", Demo.exf_grid1) ∅ = Some FS) by (vm_compute; reflexivity).
  destruct (forcing_file_size _ _ _ _ _ _ _ _ _ _ _ H) as (W & bytes & _ & _ & Hfile & Hlen).
  exists FS, bytes. split; [exact H|]. split; [exact Hfile|exact Hlen].
Defined.

(** The example run: THETA_IC.bin holds the interpolation of the THETA
    array, and no bathymetry file has appeared. *)
Lemma initial_condition_files_witness :
  exists fs' field,
    InitialConditions.run (Eccoseas.downscale_3D_points Demo.no_kernel)
      Demo.grid Demo.fields Demo.XC Demo.YC Demo.hFacC "" ∅ = Some fs'
    /\ InitialConditions.interpolate (Eccoseas.downscale_3D_points Demo.no_kernel)
         Demo.points Demo.XC Demo.YC (to_mask3 Demo.hFacC) "THETA" Demo.THETA_points
       = Some field
    /\ fs' !! InitialConditions.output_file "" "THETA" = Some (to_f4_bytes (Np.ravel3 field))
    /\ fs' !! "CA_bathymetry.bin" = None.
Proof.
  pose (FS := default ∅
                (InitialConditions.run (Eccoseas.downscale_3D_points Demo.no_kernel)
                   Demo.grid Demo.fields Demo.XC Demo.YC Demo.hFacC "" ∅)).
  assert (H : InitialConditions.run (Eccoseas.downscale_3D_points Demo.no_kernel)
                Demo.grid Demo.fields Demo.XC Demo.YC Demo.hFacC "" ∅ = Some FS)
    by (vm_compute; reflexivity).
  destruct (initial_condition_files _ _ _ _ _ _ _ _ _ H)
    as (raw & p & grids & Hraw & Hp & Hgrids & _ & Hcontent & Hframe).
  assert (Eraw : InitialConditions.gather_points Demo.grid InitialConditions.tile_list
                 = Some Demo.raw_points) by (vm_compute; reflexivity).
  rewrite Eraw in Hraw. apply (inj Some) in Hraw. subst raw.
  assert (Ep : InitialConditions.remove_positive_longitudes Demo.raw_points
               = Some Demo.points) by (vm_compute; reflexivity).
  rewrite Ep in Hp. apply (inj Some) in Hp. subst p.
  assert (Eg : InitialConditions.read_init_grids Demo.grid Demo.fields
                 InitialConditions.tile_list
                 (InitialConditions.local_indices Demo.raw_points) Demo.points
                 InitialConditions.variable_names
               = Some [Demo.ETAN_points; Demo.THETA_points; Demo.SALT_points;
                       Demo.UVEL_points; Demo.VVEL_points]) by (vm_compute; reflexivity).
  rewrite Eg in Hgrids. apply (inj Some) in Hgrids. subst grids.
  destruct (Hcontent 1 "THETA" Demo.THETA_points eq_refl eq_refl) as (field & Hfield & Hfile).
  exists FS, field. split; [exact H|]. split; [exact Hfield|]. split; [exact Hfile|].
  rewrite Hframe; [reflexivity|].
  intros name Hname. vm_compute in Hname.
  repeat (apply elem_of_cons in Hname as [-> | Hname]; [discriminate|]).
  inversion Hname.
Defined.

(** The example run of the second notebook: exf/UWIND_2008 holds the UWIND
    field, interpolated from the source points of the last file read. *)
Lemma forcing_files_witness :
  exists fs' W,
    ExternalForcing.run Demo.read_exf
      (Eccoseas.downscale_2D_points_with_zeros Demo.no_kernel)
      Demo.XC Demo.YC Demo.surface_mask "" ∅ = Some fs'
    /\ ExternalForcing.forcing_field (Eccoseas.downscale_2D_points_with_zeros Demo.no_kernel)
         Demo.exf_points (ExternalForcing.ecco_mask [Demo.f 0] [Demo.f 0])
         Demo.XC Demo.YC Demo.surface_mask "UWIND" Demo.exf_grid1 = Some W
    /\ fs' !! ExternalForcing.output_file "" "UWIND" = Some (to_f4_bytes (Np.ravel3 W)).
Proof.
  pose (FS := default ∅
                (ExternalForcing.run Demo.read_exf
                   (Eccoseas.downscale_2D_points_with_zeros Demo.no_kernel)
                   Demo.XC Demo.YC Demo.surface_mask "" ∅)).
  assert (H : ExternalForcing.run Demo.read_exf
                (Eccoseas.downscale_2D_points_with_zeros Demo.no_kernel)
                Demo.XC Demo.YC Demo.surface_mask "" ∅ = Some FS)
    by (vm_compute; reflexivity).
  destruct (forcing_files _ _ _ _ _ _ _ _ H)
    as (files & lastf & pts & HF & Hlast & Hpts & Hcontent & _).
  pose (file := {| ExternalForcing.exf_lon := [Demo.f 0]; ExternalForcing.exf_lat := [Demo.f 0];
                   ExternalForcing.exf_grid := Demo.exf_grid1 |}).
  assert (Hall : forall i x, files !! i = Some x -> x = file).
  { intros i x Hx. destruct (Forall2_lookup_r _ _ _ _ _ HF Hx) as (name & _ & prefix & _ & Hrd).
    unfold Demo.read_exf in Hrd. apply (inj Some) in Hrd. symmetry. exact Hrd. }
  rewrite last_lookup in Hlast. apply Hall in Hlast. subst lastf.
  assert (Epts : ExternalForcing.ecco_points (ExternalForcing.exf_lon file)
                   (ExternalForcing.exf_lat file) = Some Demo.exf_points)
    by (vm_compute; reflexivity).
  rewrite Epts in Hpts. apply (inj Some) in Hpts. subst pts.
  pose proof (Forall2_length _ _ _ HF) as Hlen.
  change (length ExternalForcing.variable_names) with 7 in Hlen.
  destruct (lookup_lt_is_Some_2 files 4 ltac:(lia)) as [fu Hfu].
  pose proof (Hall 4 fu Hfu) as ->.
  destruct (Hcontent 4 "UWIND" file eq_refl Hfu) as (W & HW & Hfile).
  exists FS, W. split; [exact H|]. split; [exact HW|exact Hfile].
Defined.

(** With both wind files the step ends normally; with none it fails. *)
Lemma zero_winds_need_wind_files_witness :
  is_Some (ExternalForcing.make_zero_winds "" Demo.wind_files)
  /\ ~ is_Some (ExternalForcing.make_zero_winds "" ∅).
Proof.
  split.
  - apply (proj2 (zero_winds_need_wind_files "" Demo.wind_files)). split.
    + exists [x3f; x80; x00; x00; xc0; x00; x00; x00; x7f; xc0; x00; x00].
      vm_compute. reflexivity.
    + exists []. vm_compute. reflexivity.
  - intros H. apply (proj1 (zero_winds_need_wind_files "" ∅)) in H as [[u Hu] _].
    rewrite lookup_empty in Hu. discriminate Hu.
Defined.

(** The zero-wind step on the example wind files, run twice. *)
Lemma zero_winds_idempotent_witness :
  exists fs',
    ExternalForcing.make_zero_winds "" Demo.wind_files = Some fs'
    /\ ExternalForcing.make_zero_winds "" fs' = Some fs'
    /\ fs' !! ExternalForcing.output_file "" "UWIND"
       = Demo.wind_files !! ExternalForcing.output_file "" "UWIND".
Proof.
  pose (FS := default ∅ (ExternalForcing.make_zero_winds "" Demo.wind_files)).
  assert (H : ExternalForcing.make_zero_winds "" Demo.wind_files = Some FS)
    by (vm_compute; reflexivity).
  destruct (zero_winds_idempotent "" Demo.wind_files FS H) as [Hagain Hframe].
  exists FS. split; [exact H|]. split; [exact Hagain|].
  apply Hframe; vm_compute; discriminate.
Defined.

(** The example mask: the open cell is 1, the land cell 0. *)
Lemma mask_of_hFac_witness :
  to_mask3 (to_mask3 Demo.hFacC) = to_mask3 Demo.hFacC
  /\ exists x, Np.get3 Demo.hFacC 0 0 1 = Some x
       /\ F64.ne0 F64.zero = F64.ne0 x
       /\ (F64.zero = F64.one \/ exists s, F64.zero = S754_zero s).
Proof.
  destruct (mask_of_hFac Demo.hFacC) as (Hidem & _ & Hcells).
  split; [exact Hidem|].
  destruct (Hcells 0 0 1 F64.zero) as (x & Hx & Hne & _ & Hbin); [vm_compute; reflexivity|].
  exists x. split; [exact Hx|]. split; [exact Hne|].
  assert (Ex : Np.get3 Demo.hFacC 0 0 1 = Some F64.zero) by (vm_compute; reflexivity).
  rewrite Ex in Hx. apply (inj Some) in Hx. subst x.
  apply Hbin; [discriminate|reflexivity].
Defined.

(** Two longitudes and one latitude: point 1 is (-120, 30) and carries the
    value of row 0, column 1. *)
Lemma exf_points_aligned_witness :
  exists pts,
    ExternalForcing.ecco_points [Demo.f (-130); Demo.f (-120)] [Demo.f 30] = Some pts
    /\ length pts = 2
    /\ pts !! 1 = Some (Demo.f (-120), Demo.f 30)
    /\ Np.ravel2 [[Demo.f 7; Demo.f 8]] !! 1 = Some (Demo.f 8).
Proof.
  destruct (exf_points_aligned [Demo.f (-130); Demo.f (-120)] [Demo.f 30]
              [[Demo.f 7; Demo.f 8]] 0 1 (Demo.f 8))
    as (pts & lo & la & Hpts & Hlen & _ & Hlo & Hla & Hpt & Hval).
  { split; [reflexivity|]. repeat constructor. }
  { reflexivity. }
  exists pts. split; [exact Hpts|]. split; [exact Hlen|].
  apply (inj Some) in Hlo. apply (inj Some) in Hla. subst lo la.
  split; [exact Hpt|exact Hval].
Defined.

(** After the example run the zero-wind files are as long as the wind
    files: sixteen bytes. *)
Lemma zero_winds_after_run_witness :
  exists fs1 fs2 wind zero,
    ExternalForcing.run Demo.read_exf
      (Eccoseas.downscale_2D_points_with_zeros Demo.no_kernel)
      Demo.XC Demo.YC Demo.surface_mask "" ∅ = Some fs1
    /\ ExternalForcing.make_zero_winds "" fs1 = Some fs2
    /\ fs2 !! ExternalForcing.output_file "" "VWIND" = Some wind
    /\ fs2 !! ExternalForcing.zero_file "" "VWIND" = Some zero
    /\ length zero = length wind.
Proof.
  pose (FS := default ∅
                (ExternalForcing.run Demo.read_exf
                   (Eccoseas.downscale_2D_points_with_zeros Demo.no_kernel)
                   Demo.XC Demo.YC Demo.surface_mask "" ∅)).
  assert (H : ExternalForcing.run Demo.read_exf
                (Eccoseas.downscale_2D_points_with_zeros Demo.no_kernel)
                Demo.XC Demo.YC Demo.surface_mask "" ∅ = Some FS)
    by (vm_compute; reflexivity).
  destruct (zero_winds_after_run _ _ _ _ _ _ _ _ H) as (fs2 & Hzero & Hfiles).
  destruct (Hfiles "VWIND" (or_intror eq_refl)) as (wind & zero & Hw & Hz & Hlen).
  exists FS, fs2, wind, zero. auto.
Defined.

(** A field of two timesteps cannot be plotted. *)
Lemma forcing_plot_needs_1464_witness :
  exists fs',
    ExternalForcing.interpolate_and_write
      (Eccoseas.downscale_2D_points_with_zeros Demo.no_kernel)
      Demo.exf_points [F64.one] Demo.XC Demo.YC Demo.surface_mask ""
      ("AQH", Demo.exf_grid1) ∅ = Some fs'
    /\ ~ is_Some (ExternalForcing.plot_grid "" "AQH" Demo.XC fs').
Proof.
  pose (FS := default ∅
                (ExternalForcing.interpolate_and_write
                   (Eccoseas.downscale_2D_points_with_zeros Demo.no_kernel)
                   Demo.exf_points [F64.one] Demo.XC Demo.YC Demo.surface_mask ""
                   ("AQH", Demo.exf_grid1) ∅)).
  assert (H : ExternalForcing.interpolate_and_write
                (Eccoseas.downscale_2D_points_with_zeros Demo.no_kernel)
                Demo.exf_points [F64.one] Demo.XC Demo.YC Demo.surface_mask ""
                ("AQH", Demo.exf_grid1) ∅ = Some FS) by (vm_compute; reflexivity).
  destruct (forcing_plot_needs_1464 _ _ _ _ _ _ _ _ _ _ _ H) as [_ Hiff].
  exists FS. split; [exact H|]. intros Hplot.
  apply Hiff in Hplot; [|simpl; lia]. simpl in Hplot. lia.
Defined.

(** Fifty levels, level k holding k: the plot shows 10. *)
Lemma plotted_level_witness :
  exists fs' m32,
    InitialConditions.interpolate_and_write
      (fun _ _ _ _ _ _ => Some (map (fun k => [[Demo.f (Z.of_nat k); F64.zero]]) (seq 0 50)))
      Demo.points Demo.XC Demo.YC Demo.mask "" ("THETA", Demo.THETA_points) ∅ = Some fs'
    /\ InitialConditions.plot_grid "" "THETA" Demo.XC fs' = Some m32
    /\ map (map F32.to_f64) m32 = [[Demo.f 10; F64.zero]].
Proof.
  pose (G := map (fun k => [[Demo.f (Z.of_nat k); F64.zero]]) (seq 0 50)).
  pose (FS := tofile (InitialConditions.output_file "" "THETA") (Np.ravel3 G) ∅).
  assert (Hx : f32_exact (Np.ravel3 G)).
  { apply f32_exact_forallb. vm_compute. reflexivity. }
  assert (Hr : Np.rect3 (length InitialConditions.delR) (Np.rows Demo.XC)
                 (Np.cols Demo.XC) G).
  { split; [reflexivity|]. apply Forall_forall. intros lev Hlev.
    apply list_elem_of_fmap in Hlev as (k & -> & _).
    split; [reflexivity|repeat constructor]. }
  destruct (plotted_level (fun _ _ _ _ _ _ => Some G)
              Demo.points Demo.XC Demo.YC Demo.mask "" "THETA" Demo.THETA_points ∅ FS G
              ltac:(discriminate) eq_refl eq_refl Hx Hr) as (lev & m32 & Hlev & Hplot & Hwiden).
  exists FS, m32. split; [reflexivity|]. split; [exact Hplot|].
  rewrite Hwiden. apply (inj Some). rewrite <- Hlev. reflexivity.
Defined.

(** ATEMP: the closed cell of timestep 1 sits at byte 12 and holds
    273.15. *)
Lemma zero_cell_bytes_witness :
  exists fs' bytes,
    ExternalForcing.interpolate_and_write
      (Eccoseas.downscale_2D_points_with_zeros Demo.no_kernel)
      Demo.exf_points [F64.one] Demo.XC Demo.YC Demo.surface_mask ""
      ("ATEMP", Demo.exf_grid1) ∅ = Some fs'
    /\ fs' !! ExternalForcing.output_file "" "ATEMP" = Some bytes
    /\ take 4 (drop 12 bytes) = [x43; x88; x93; x33].
Proof.
  pose (FS := default ∅
                (ExternalForcing.interpolate_and_write
                   (Eccoseas.downscale_2D_points_with_zeros Demo.no_kernel)
                   Demo.exf_points [F64.one] Demo.XC Demo.YC Demo.surface_mask ""
                   ("ATEMP", Demo.exf_grid1) ∅)).
  assert (H : ExternalForcing.interpolate_and_write
                (Eccoseas.downscale_2D_points_with_zeros Demo.no_kernel)
                Demo.exf_points [F64.one] Demo.XC Demo.YC Demo.surface_mask ""
                ("ATEMP", Demo.exf_grid1) ∅ = Some FS) by (vm_compute; reflexivity).
  pose (G := [[[Demo.f 1; F64.zero]]; [[Demo.f 2; F64.zero]]]).
  assert (HG : ExternalForcing.interpolate_timesteps
                 (Eccoseas.downscale_2D_points_with_zeros Demo.no_kernel)
                 Demo.exf_points [F64.one] Demo.XC Demo.YC Demo.surface_mask Demo.exf_grid1
               = Some G) by (vm_compute; reflexivity).
  destruct (zero_cell_bytes _ _ _ _ _ _ "" "ATEMP" _ G ∅ FS 1 0 1 HG eq_refl H)
    as (bytes & Hfile & Hbytes).
  exists FS, bytes. split; [exact H|]. split; [exact Hfile|exact Hbytes].
Defined.

(** A bathymetry file of nine bytes on a grid of one row and two columns:
    1.0 and -2.0, the ninth byte left unread. *)
Lemma bathymetry_layout_witness :
  exists bathy,
    read_bathymetry "" Demo.XC
      (<["CA_bathymetry.bin" := [x3f; x80; x00; x00; xc0; x00; x00; x00; xff]]> ∅)
    = Some bathy
    /\ Np.get2 bathy 0 1 = Some (F32.decode xc0 x00 x00 x00).
Proof.
  pose (FS := <["CA_bathymetry.bin" := [x3f; x80; x00; x00; xc0; x00; x00; x00; xff]]>
                (∅ : gmap string (list byte))).
  pose (B := default [] (read_bathymetry "" Demo.XC FS)).
  assert (H : read_bathymetry "" Demo.XC FS = Some B) by (vm_compute; reflexivity).
  destruct (bathymetry_layout "" Demo.XC FS B H) as (bytes & Hfile & _ & _ & Hcells).
  exists B. split; [exact H|].
  destruct (Hcells 0 1) as (b0 & b1 & b2 & b3 & Htake & Hget); [simpl; lia|simpl; lia|].
  assert (Ef : FS !! path_join "" "CA_bathymetry.bin"
               = Some [x3f; x80; x00; x00; xc0; x00; x00; x00; xff])
    by (vm_compute; reflexivity).
  rewrite Ef in Hfile. apply (inj Some) in Hfile. subst bytes.
  simpl in Htake. injection Htake as <- <- <- <-. exact Hget.
Defined.
